(** * Bookstore service layer: a shallow embedding and its properties

    The development follows the layering of the repository:

      models/author.ts, models/book.ts          records
      repositories/author-repository.ts         [AuthorRepository]
      repositories/book-repository.ts           [BookRepository]
      services/author-service.ts                [AuthorService]
      services/book-service.ts                  [BookService]

    Every repository and service function is an [Effect]: a function from the
    state of the document store to an [Exit] and the state afterwards.  The
    store state also carries the list of driver calls issued so far, so that
    statements of the form "no further lookup is made" can be expressed.

    Conventions of the model.
    - Strings are [string]; [toLowerCase] folds the ASCII letters and leaves
      every other character alone.
    - [stock], [price] and the stock delta are JavaScript numbers
      ([Js.Number]): not-a-number, an infinity, or a binary fraction that a
      double holds; sums are rounded as doubles are.  The sign of zero is
      not tracked.
    - The store never loses its connection: the only outcomes are those the
      TypeScript code produces by itself. *)

From Stdlib Require Import List String Ascii Bool Arith ZArith NArith Lia.
Import ListNotations.

Local Open Scope string_scope.

(* ===================================================================== *)
(** ** JavaScript primitives                                               *)
(* ===================================================================== *)

Module Js.

(** [ch.toLowerCase()] on one ASCII character. *)
Definition lowerChar (c : ascii) : ascii :=
  let n := nat_of_ascii c in
  if (65 <=? n)%nat && (n <=? 90)%nat then ascii_of_nat (n + 32) else c.

(** [s.toLowerCase()]. *)
Fixpoint toLowerCase (s : string) : string :=
  match s with
  | EmptyString => EmptyString
  | String c rest => String (lowerChar c) (toLowerCase rest)
  end.

(** [s.startsWith(t)]. *)
Fixpoint startsWith (s t : string) : bool :=
  match t, s with
  | EmptyString, _ => true
  | String _ _, EmptyString => false
  | String b t', String a s' => Ascii.eqb a b && startsWith s' t'
  end.

(** [s.includes(t)]: [t] occurs in [s] at some position. *)
Fixpoint includes (s t : string) : bool :=
  startsWith s t ||
  match s with
  | EmptyString => false
  | String _ s' => includes s' t
  end.

(** Truthiness of a string value: only the empty string is falsy. *)
Definition truthy (s : string) : bool :=
  match s with
  | EmptyString => false
  | String _ _ => true
  end.

(** [xs.find(p)]: the first element satisfying [p]. *)
Definition find {A : Type} (p : A -> bool) (xs : list A) : option A :=
  List.find p xs.

(** [xs.some(p)]. *)
Definition some {A : Type} (p : A -> bool) (xs : list A) : bool :=
  List.existsb p xs.

(** [xs.includes(x)] on an array of strings (strict equality). *)
Definition arrayIncludes (xs : list string) (x : string) : bool :=
  List.existsb (String.eqb x) xs.

(** A number: [NaN], [Infinity] or [-Infinity], or the double of value
    [m * 2^e], where [m] has at most 53 binary digits and [e] is at least
    -1074.  An integer [z] of magnitude below [2^53] is [Finite z 0].  Zero
    carries no sign. *)
Inductive Number : Type :=
| NaN
| Infinity (negative : bool)
| Finite (m e : Z).

(** [m / 2^k] rounded to the nearest integer, a tie going to the even one. *)
Definition roundHalfEven (m k : Z) : Z :=
  let q := (m / 2 ^ k)%Z in
  let r := (m mod 2 ^ k)%Z in
  let half := (2 ^ (k - 1))%Z in
  if (r <? half)%Z then q
  else if (half <? r)%Z then (q + 1)%Z
  else if Z.even q then q else (q + 1)%Z.

(** Number of binary digits of the magnitude of [m]. *)
Definition bitLength (m : Z) : Z := (Z.log2 (Z.abs m) + 1)%Z.

(** The double nearest to [m * 2^e]: the mantissa is cut to 53 bits, and a
    magnitude of [2^1024] or more becomes an infinity. *)
Definition normalize (m e : Z) : Number :=
  let excess := (bitLength m - 53)%Z in
  let q := if (excess <=? 0)%Z then m else roundHalfEven m excess in
  let e' := if (excess <=? 0)%Z then e else (e + excess)%Z in
  if (1025 <=? bitLength q + e')%Z then Infinity (q <? 0)%Z else Finite q e'.

(** The number written as the integer literal [z]. *)
Definition ofZ (z : Z) : Number := normalize z 0.

(** [x + y]. *)
Definition add (x y : Number) : Number :=
  match x, y with
  | NaN, _ | _, NaN => NaN
  | Infinity a, Infinity b => if Bool.eqb a b then Infinity a else NaN
  | Infinity a, Finite _ _ => Infinity a
  | Finite _ _, Infinity b => Infinity b
  | Finite m1 e1, Finite m2 e2 =>
      let e := Z.min e1 e2 in
      normalize (m1 * 2 ^ (e1 - e) + m2 * 2 ^ (e2 - e)) e
  end.

(** [x < y]: false as soon as one side is [NaN]. *)
Definition lt (x y : Number) : bool :=
  match x, y with
  | NaN, _ | _, NaN => false
  | Infinity a, Infinity b => a && negb b
  | Infinity a, Finite _ _ => a
  | Finite _ _, Infinity b => negb b
  | Finite m1 e1, Finite m2 e2 =>
      let e := Z.min e1 e2 in
      (m1 * 2 ^ (e1 - e) <? m2 * 2 ^ (e2 - e))%Z
  end.

(** [x <= y]: false as soon as one side is [NaN]. *)
Definition le (x y : Number) : bool :=
  match x, y with
  | NaN, _ | _, NaN => false
  | Infinity a, Infinity b => a || negb b
  | Infinity a, Finite _ _ => a
  | Finite _ _, Infinity b => negb b
  | Finite m1 e1, Finite m2 e2 =>
      let e := Z.min e1 e2 in
      (m1 * 2 ^ (e1 - e) <=? m2 * 2 ^ (e2 - e))%Z
  end.

End Js.

(* ===================================================================== *)
(** ** Regular expressions: [new RegExp(source, "i")]                      *)
(* ===================================================================== *)

(** [findByName] hands the caller's text to [new RegExp(name, "i")] and lets
    the store match the three name fields against it.  The model covers the
    pattern syntax built from ordinary characters, groups [( )], alternation
    [|] and the quantifiers [*], [+], [?] (greedy or lazy).  A pattern that
    uses anything else ([.], [^], [$], a backslash, brackets, braces, a
    [(?] group) is reported as [Beyond]: what the engine answers for it is
    a parameter of the world the effect runs in. *)

Module RegExp.

Inductive re : Type :=
| Never                      (* matches nothing *)
| Empty                      (* matches the empty string *)
| Char (c : ascii)
| Seq (r1 r2 : re)
| Alt (r1 r2 : re)
| Star (r : re).

(** What stands immediately before the cursor in the current alternative. *)
Inductive last : Type := NoTerm | Term | Quantified | LazyQuantified.

(** One nesting level of the parser: the alternatives already closed by
    [|] and the terms of the alternative being read, both most recent
    first. *)
Record frame : Type := mkFrame {
  closed : list re;
  terms : list re;
  prev : last
}.

Definition emptyFrame : frame := mkFrame [] [] NoTerm.

Definition alternative (ts : list re) : re :=
  fold_left (fun acc t => Seq t acc) ts Empty.

(** The disjunction denoted by a finished frame. *)
Definition disjunction (f : frame) : re :=
  fold_left (fun acc a => Alt a acc) (closed f) (alternative (terms f)).

Definition pushTerm (t : re) (f : frame) : frame :=
  mkFrame (closed f) (t :: terms f) Term.

Definition nextAlternative (f : frame) : frame :=
  mkFrame (alternative (terms f) :: closed f) [] NoTerm.

Definition applyQuantifier (q : ascii) (t : re) : re :=
  if Ascii.eqb q "*" then Star t
  else if Ascii.eqb q "+" then Seq t (Star t)
  else Alt t Empty.

(** A quantifier needs a term to its left; a [?] right after a quantifier
    makes it lazy, which does not change whether a match exists. *)
Definition quantify (q : ascii) (f : frame) : option frame :=
  match prev f, terms f with
  | Term, t :: ts => Some (mkFrame (closed f) (applyQuantifier q t :: ts) Quantified)
  | Quantified, _ =>
      if Ascii.eqb q "?" then Some (mkFrame (closed f) (terms f) LazyQuantified)
      else None
  | _, _ => None
  end.

Inductive compiled : Type :=
| Pattern (r : re)
| SyntaxError
| Beyond.

Definition isQuantifier (c : ascii) : bool :=
  Ascii.eqb c "*" || Ascii.eqb c "+" || Ascii.eqb c "?".

Definition isOutsideFragment (c : ascii) : bool :=
  Ascii.eqb c "." || Ascii.eqb c "^" || Ascii.eqb c "$" || Ascii.eqb c "\" ||
  Ascii.eqb c "[" || Ascii.eqb c "]" || Ascii.eqb c "{" || Ascii.eqb c "}".

Fixpoint parse (src : string) (cur : frame) (outer : list frame) : compiled :=
  match src with
  | EmptyString =>
      match outer with
      | [] => Pattern (disjunction cur)
      | _ :: _ => SyntaxError                         (* unterminated group *)
      end
  | String c rest =>
      if Ascii.eqb c "(" then
        match rest with
        | String "?" _ => Beyond
        | _ => parse rest emptyFrame (cur :: outer)
        end
      else if Ascii.eqb c ")" then
        match outer with
        | [] => SyntaxError                           (* unmatched ) *)
        | parent :: outer' => parse rest (pushTerm (disjunction cur) parent) outer'
        end
      else if Ascii.eqb c "|" then parse rest (nextAlternative cur) outer
      else if isQuantifier c then
        match quantify c cur with
        | Some cur' => parse rest cur' outer
        | None => SyntaxError                         (* nothing to repeat *)
        end
      else if isOutsideFragment c then Beyond
      else parse rest (pushTerm (Char c) cur) outer
  end.

(** [new RegExp(source, flags)] *)
Definition compile (source : string) : compiled := parse source emptyFrame [].

Fixpoint nullable (r : re) : bool :=
  match r with
  | Never => false
  | Empty => true
  | Char _ => false
  | Seq r1 r2 => nullable r1 && nullable r2
  | Alt r1 r2 => nullable r1 || nullable r2
  | Star _ => true
  end.

(** Character comparison: under the [i] flag both sides are case-folded. *)
Definition sameChar (ignoreCase : bool) (a b : ascii) : bool :=
  if ignoreCase then Ascii.eqb (Js.lowerChar a) (Js.lowerChar b) else Ascii.eqb a b.

(** What remains to be matched after reading [c]. *)
Fixpoint residual (ignoreCase : bool) (c : ascii) (r : re) : re :=
  match r with
  | Never => Never
  | Empty => Never
  | Char a => if sameChar ignoreCase a c then Empty else Never
  | Seq r1 r2 =>
      Alt (Seq (residual ignoreCase c r1) r2)
          (if nullable r1 then residual ignoreCase c r2 else Never)
  | Alt r1 r2 => Alt (residual ignoreCase c r1) (residual ignoreCase c r2)
  | Star r1 => Seq (residual ignoreCase c r1) (Star r1)
  end.

(** Some prefix of [s] matches [r]. *)
Fixpoint matchesAtStart (ignoreCase : bool) (r : re) (s : string) : bool :=
  nullable r ||
  match s with
  | EmptyString => false
  | String c s' => matchesAtStart ignoreCase (residual ignoreCase c r) s'
  end.

(** [regexp.test(s)]: some substring of [s] matches. *)
Fixpoint test (ignoreCase : bool) (r : re) (s : string) : bool :=
  matchesAtStart ignoreCase r s ||
  match s with
  | EmptyString => false
  | String _ s' => test ignoreCase r s'
  end.

End RegExp.

(* ===================================================================== *)
(** ** BSON object identifiers                                             *)
(* ===================================================================== *)

Module Bson.

(** An [ObjectId] is twelve bytes, kept here as the number they spell. *)
Definition ObjectId : Type := N.

Definition equals (a b : ObjectId) : bool := N.eqb a b.

Definition hexValue (c : ascii) : option N :=
  let n := N_of_ascii c in
  if (48 <=? n)%N && (n <=? 57)%N then Some (n - 48)%N
  else if (97 <=? n)%N && (n <=? 102)%N then Some (n - 87)%N
  else if (65 <=? n)%N && (n <=? 70)%N then Some (n - 55)%N
  else None.

Fixpoint parseHex (s : string) (acc : N) : option N :=
  match s with
  | EmptyString => Some acc
  | String c rest =>
      match hexValue c with
      | Some d => parseHex rest (16 * acc + d)%N
      | None => None
      end
  end.

(** [new ObjectId(s)] for a string argument: [s] must be 24 hexadecimal
    characters, otherwise the constructor throws.  (This is the driver
    whose [findOneAndUpdate] returns the document itself, as
    [BookRepository.update] expects.) *)
Definition fromString (s : string) : option ObjectId :=
  if Nat.eqb (String.length s) 24 then parseHex s 0%N else None.

Definition hexChar (d : N) : ascii :=
  if (d <? 10)%N then ascii_of_N (48 + d) else ascii_of_N (87 + d).

Fixpoint hexDigits (n : nat) (v : N) (acc : string) : string :=
  match n with
  | O => acc
  | S n' => hexDigits n' (v / 16)%N (String (hexChar (v mod 16)%N) acc)
  end.

(** [oid.toString()]: 24 lower-case hexadecimal characters. *)
Definition toString (o : ObjectId) : string := hexDigits 24 o EmptyString.

End Bson.

(* ===================================================================== *)
(** ** models/author.ts and models/book.ts                                 *)
(* ===================================================================== *)

(** [Schema.Date] values: milliseconds since the epoch. *)
Definition Date : Type := Z.

(** [AuthorId] and [BookId] are branded strings. *)
Definition AuthorId : Type := string.
Definition BookId : Type := string.

Record SocialLinks : Type := mkSocialLinks {
  twitter : option string;
  facebook : option string;
  instagram : option string;
  linkedin : option string
}.

Module Author.
Record t : Type := mk {
  _id : option AuthorId;
  firstName : string;
  lastName : string;
  fullName : string;
  biography : option string;
  birthDate : option Date;
  nationality : option string;
  website : option string;
  socialLinks : option SocialLinks;
  profileImageUrl : option string;
  createdAt : option Date;
  updatedAt : option Date
}.
End Author.

Module CreateAuthorRequest.
Record t : Type := mk {
  firstName : string;
  lastName : string;
  fullName : string;
  biography : option string;
  birthDate : option Date;
  nationality : option string;
  website : option string;
  socialLinks : option SocialLinks;
  profileImageUrl : option string
}.
End CreateAuthorRequest.

(** Every field optional, as in [UpdateBookRequest]. *)
Module UpdateAuthorRequest.
Record t : Type := mk {
  firstName : option string;
  lastName : option string;
  fullName : option string;
  biography : option string;
  birthDate : option Date;
  nationality : option string;
  website : option string;
  socialLinks : option SocialLinks;
  profileImageUrl : option string
}.
End UpdateAuthorRequest.

Module Book.
Record t : Type := mk {
  _id : option BookId;
  title : string;
  authorIds : list AuthorId;
  isbn : string;
  price : Js.Number;
  stock : Js.Number;
  genre : string;
  description : option string;
  publishedDate : option Date;
  createdAt : option Date;
  updatedAt : option Date
}.
End Book.

Module CreateBookRequest.
Record t : Type := mk {
  title : string;
  authorIds : list AuthorId;
  isbn : string;
  price : Js.Number;
  stock : Js.Number;
  genre : string;
  description : option string;
  publishedDate : option Date
}.
End CreateBookRequest.

(** Every field optional: a field that is [None] is absent from the
    request object. *)
Module UpdateBookRequest.
Record t : Type := mk {
  title : option string;
  authorIds : option (list AuthorId);
  isbn : option string;
  price : option Js.Number;
  stock : option Js.Number;
  genre : option string;
  description : option string;
  publishedDate : option Date
}.

Definition empty : t := mk None None None None None None None None.
End UpdateBookRequest.

(* ===================================================================== *)
(** ** The document store                                                  *)
(* ===================================================================== *)

(** Documents as the two collections hold them: the fields of the model
    plus the [_id] the store assigned. *)
Module AuthorDoc.
Record t : Type := mk {
  _id : Bson.ObjectId;
  firstName : string;
  lastName : string;
  fullName : string;
  biography : option string;
  birthDate : option Date;
  nationality : option string;
  website : option string;
  socialLinks : option SocialLinks;
  profileImageUrl : option string;
  createdAt : Date;
  updatedAt : Date
}.
End AuthorDoc.

Module BookDoc.
Record t : Type := mk {
  _id : Bson.ObjectId;
  title : string;
  authorIds : list AuthorId;
  isbn : string;
  price : Js.Number;
  stock : Js.Number;
  genre : string;
  description : option string;
  publishedDate : option Date;
  createdAt : Date;
  updatedAt : Date
}.
End BookDoc.

(** The queries the repositories send. *)
Inductive Call : Type :=
| AuthorsFindAll
| AuthorsFindOne (oid : Bson.ObjectId)
| AuthorsFindIn (oids : list Bson.ObjectId)
| AuthorsFindByName (source : string)
| AuthorsInsertOne
| BooksFindAll
| BooksFindOne (oid : Bson.ObjectId)
| BooksInsertOne
| BooksFindOneAndUpdate (oid : Bson.ObjectId)
| BooksDeleteOne (oid : Bson.ObjectId)
| AuthorsFindByNationality (source : string)
| AuthorsFindOneAndUpdate (oid : Bson.ObjectId)
| AuthorsDeleteOne (oid : Bson.ObjectId).

(** What matching a string field against a compiled pattern answers. *)
Definition Matcher : Type := string -> bool.

Record World : Type := mkWorld {
  authors : list AuthorDoc.t;       (* db.collection("authors") *)
  books : list BookDoc.t;           (* db.collection("books") *)
  clock : Date;                     (* what new Date() reads *)
  nextOid : Bson.ObjectId;          (* the next identifier the driver hands out *)
  calls : list Call;                (* queries sent so far, oldest first *)
  engine : string -> option Matcher (* the expression engine on the patterns
                                       outside the modelled syntax: [None]
                                       where it rejects the pattern *)
}.

(** Values a fiber can die with. *)
Inductive Defect : Type :=
| BSONError (input : string)            (* new ObjectId(input) threw *)
| RegExpSyntaxError (source : string).  (* new RegExp(source, "i") threw *)

(** How an effect ends.  [Failure] carries the message of the [Error] given
    to [Effect.fail]; [Die] is a defect (an exception thrown inside
    [Effect.promise]). *)
Inductive Exit (A : Type) : Type :=
| Success (a : A)
| Failure (message : string)
| Die (d : Defect).

Arguments Success {A} a.
Arguments Failure {A} message.
Arguments Die {A} d.

Definition Effect (A : Type) : Type := World -> Exit A * World.

Definition succeed {A : Type} (a : A) : Effect A := fun w => (Success a, w).

(** [Effect.fail(new Error(message))] *)
Definition fail {A : Type} (message : string) : Effect A := fun w => (Failure message, w).

Definition die {A : Type} (d : Defect) : Effect A := fun w => (Die d, w).

(** [yield*]: run [m], and continue only when it succeeded. *)
Definition bind {A B : Type} (m : Effect A) (k : A -> Effect B) : Effect B :=
  fun w =>
    match m w with
    | (Success a, w') => k a w'
    | (Failure e, w') => (Failure e, w')
    | (Die d, w') => (Die d, w')
    end.

(** [Effect.map] *)
Definition map {A B : Type} (f : A -> B) (m : Effect A) : Effect B :=
  bind m (fun a => succeed (f a)).

Declare Scope effect_scope.
Delimit Scope effect_scope with effect.
Notation "x <- m ;; k" := (bind m (fun x => k))
  (at level 61, m at next level, right associativity) : effect_scope.
Notation "m ;; k" := (bind m (fun _ => k))
  (at level 61, right associativity) : effect_scope.
Local Open Scope effect_scope.

(** [if (c) { yield* Effect.fail(new Error(message)) }] *)
Definition failWhen (c : bool) (message : string) : Effect unit :=
  if c then fail message else succeed tt.

Definition isSuccess {A : Type} (e : Exit A) : bool :=
  match e with Success _ => true | _ => false end.

Definition isSome {A : Type} (o : option A) : bool :=
  match o with Some _ => true | None => false end.

(* ===================================================================== *)
(** ** The driver calls the repositories rely on                           *)
(* ===================================================================== *)

Module Mongo.

Definition record (c : Call) : Effect unit :=
  fun w => (Success tt,
            mkWorld (authors w) (books w) (clock w) (nextOid w) (calls w ++ [c]) (engine w)).

(** [new Date()] *)
Definition newDate : Effect Date := fun w => (Success (clock w), w).

(** [new ObjectId(id)], evaluated inside the thunk given to
    [Effect.promise]: when the constructor throws, the fiber dies and the
    query is never sent. *)
Definition newObjectId (id : string) : Effect Bson.ObjectId :=
  match Bson.fromString id with
  | Some oid => succeed oid
  | None => die (BSONError id)
  end.

(** [ids.map(id => new ObjectId(id))] *)
Fixpoint newObjectIds (ids : list string) : Effect (list Bson.ObjectId) :=
  match ids with
  | [] => succeed []
  | id :: rest =>
      oid <- newObjectId id ;;
      oids <- newObjectIds rest ;;
      succeed (oid :: oids)
  end.

(** [new RegExp(source, "i")], likewise evaluated inside the thunk.  For a
    pattern outside the modelled syntax the answer is the one of the
    engine the world carries. *)
Definition newRegExp (source : string) : Effect Matcher :=
  match RegExp.compile source with
  | RegExp.Pattern r => succeed (RegExp.test true r)
  | RegExp.SyntaxError => die (RegExpSyntaxError source)
  | RegExp.Beyond =>
      fun w =>
        match engine w source with
        | Some matcher => (Success matcher, w)
        | None => (Die (RegExpSyntaxError source), w)
        end
  end.

Definition getAuthors : Effect (list AuthorDoc.t) := fun w => (Success (authors w), w).
Definition getBooks : Effect (list BookDoc.t) := fun w => (Success (books w), w).

Definition putAuthors (ds : list AuthorDoc.t) : Effect unit :=
  fun w => (Success tt, mkWorld ds (books w) (clock w) (nextOid w) (calls w) (engine w)).

Definition putBooks (ds : list BookDoc.t) : Effect unit :=
  fun w => (Success tt, mkWorld (authors w) ds (clock w) (nextOid w) (calls w) (engine w)).

(** The driver draws a new identifier for a document inserted without one. *)
Definition freshOid : Effect Bson.ObjectId :=
  fun w => (Success (nextOid w),
            mkWorld (authors w) (books w) (clock w) (N.succ (nextOid w)) (calls w) (engine w)).

Definition hasAuthorId (oid : Bson.ObjectId) (d : AuthorDoc.t) : bool :=
  Bson.equals (AuthorDoc._id d) oid.

Definition hasBookId (oid : Bson.ObjectId) (d : BookDoc.t) : bool :=
  Bson.equals (BookDoc._id d) oid.

(** [authors.find({}).toArray()] *)
Definition authorsFindAll : Effect (list AuthorDoc.t) :=
  record AuthorsFindAll ;; getAuthors.

(** [authors.findOne({ _id: oid })] *)
Definition authorsFindOne (oid : Bson.ObjectId) : Effect (option AuthorDoc.t) :=
  record (AuthorsFindOne oid) ;;
  ds <- getAuthors ;;
  succeed (List.find (hasAuthorId oid) ds).

(** [authors.find({ _id: { $in: oids } }).toArray()] *)
Definition authorsFindIn (oids : list Bson.ObjectId) : Effect (list AuthorDoc.t) :=
  record (AuthorsFindIn oids) ;;
  ds <- getAuthors ;;
  succeed (List.filter (fun d => List.existsb (Bson.equals (AuthorDoc._id d)) oids) ds).

(** The filter [{ $or: [{ firstName: re }, { lastName: re }, { fullName: re }] }] *)
Definition nameMatches (r : Matcher) (d : AuthorDoc.t) : bool :=
  r (AuthorDoc.firstName d) || r (AuthorDoc.lastName d) || r (AuthorDoc.fullName d).

Definition authorsFindByName (source : string) (r : Matcher) : Effect (list AuthorDoc.t) :=
  record (AuthorsFindByName source) ;;
  ds <- getAuthors ;;
  succeed (List.filter (nameMatches r) ds).

(** [authors.insertOne(doc)]: the document is stored under a new identifier,
    which is returned as [insertedId]. *)
Definition authorsInsertOne (doc : Bson.ObjectId -> AuthorDoc.t) : Effect Bson.ObjectId :=
  record AuthorsInsertOne ;;
  oid <- freshOid ;;
  ds <- getAuthors ;;
  putAuthors (ds ++ [doc oid]) ;;
  succeed oid.

(** [books.find({}).toArray()] *)
Definition booksFindAll : Effect (list BookDoc.t) :=
  record BooksFindAll ;; getBooks.

(** [books.findOne({ _id: oid })] *)
Definition booksFindOne (oid : Bson.ObjectId) : Effect (option BookDoc.t) :=
  record (BooksFindOne oid) ;;
  ds <- getBooks ;;
  succeed (List.find (hasBookId oid) ds).

(** [books.insertOne(doc)] *)
Definition booksInsertOne (doc : Bson.ObjectId -> BookDoc.t) : Effect Bson.ObjectId :=
  record BooksInsertOne ;;
  oid <- freshOid ;;
  ds <- getBooks ;;
  putBooks (ds ++ [doc oid]) ;;
  succeed oid.

(** Rewrite the first document with identifier [oid]; [None] when there is
    none. *)
Fixpoint updateFirst (oid : Bson.ObjectId) (f : BookDoc.t -> BookDoc.t)
    (ds : list BookDoc.t) : option (BookDoc.t * list BookDoc.t) :=
  match ds with
  | [] => None
  | d :: rest =>
      if hasBookId oid d then Some (f d, f d :: rest)
      else
        match updateFirst oid f rest with
        | Some (d', rest') => Some (d', d :: rest')
        | None => None
        end
  end.

(** [books.findOneAndUpdate({ _id: oid }, { $set: ... }, { returnDocument:
    "after" })]: the updated document, or [null]. *)
Definition booksFindOneAndUpdate (oid : Bson.ObjectId) (set : BookDoc.t -> BookDoc.t)
    : Effect (option BookDoc.t) :=
  record (BooksFindOneAndUpdate oid) ;;
  ds <- getBooks ;;
  match updateFirst oid set ds with
  | Some (d', ds') => putBooks ds' ;; succeed (Some d')
  | None => succeed None
  end.

Fixpoint removeFirst (oid : Bson.ObjectId) (ds : list BookDoc.t) : option (list BookDoc.t) :=
  match ds with
  | [] => None
  | d :: rest =>
      if hasBookId oid d then Some rest
      else
        match removeFirst oid rest with
        | Some rest' => Some (d :: rest')
        | None => None
        end
  end.

(** [books.deleteOne({ _id: oid })]: the [deletedCount]. *)
Definition booksDeleteOne (oid : Bson.ObjectId) : Effect nat :=
  record (BooksDeleteOne oid) ;;
  ds <- getBooks ;;
  match removeFirst oid ds with
  | Some ds' => putBooks ds' ;; succeed 1%nat
  | None => succeed 0%nat
  end.

(** [$set] on a field that every document has, and on one it may lack:
    a value present in the request replaces the stored one. *)
Definition assign {A : Type} (patch : option A) (current : A) : A :=
  match patch with
  | Some v => v
  | None => current
  end.

Definition assignOptional {A : Type} (patch current : option A) : option A :=
  match patch with
  | Some v => Some v
  | None => current
  end.

(** Rewrite, or drop, the first document of a collection that satisfies
    the filter; [None] when no document does. *)
Fixpoint replaceFirst {D : Type} (p : D -> bool) (f : D -> D) (ds : list D)
    : option (D * list D) :=
  match ds with
  | [] => None
  | d :: rest =>
      if p d then Some (f d, f d :: rest)
      else
        match replaceFirst p f rest with
        | Some (d', rest') => Some (d', d :: rest')
        | None => None
        end
  end.

Fixpoint dropFirst {D : Type} (p : D -> bool) (ds : list D) : option (list D) :=
  match ds with
  | [] => None
  | d :: rest =>
      if p d then Some rest
      else
        match dropFirst p rest with
        | Some rest' => Some (d :: rest')
        | None => None
        end
  end.

(** [authors.findOneAndUpdate({ _id: oid }, { $set: ... }, { returnDocument:
    "after" })] *)
Definition authorsFindOneAndUpdate (oid : Bson.ObjectId) (set : AuthorDoc.t -> AuthorDoc.t)
    : Effect (option AuthorDoc.t) :=
  record (AuthorsFindOneAndUpdate oid) ;;
  ds <- getAuthors ;;
  match replaceFirst (hasAuthorId oid) set ds with
  | Some (d', ds') => putAuthors ds' ;; succeed (Some d')
  | None => succeed None
  end.

(** [authors.deleteOne({ _id: oid })]: the [deletedCount]. *)
Definition authorsDeleteOne (oid : Bson.ObjectId) : Effect nat :=
  record (AuthorsDeleteOne oid) ;;
  ds <- getAuthors ;;
  match dropFirst (hasAuthorId oid) ds with
  | Some ds' => putAuthors ds' ;; succeed 1%nat
  | None => succeed 0%nat
  end.

(** The filter [{ nationality: re }]: a document without the field does
    not match. *)
Definition nationalityMatches (r : Matcher) (d : AuthorDoc.t) : bool :=
  match AuthorDoc.nationality d with
  | Some s => r s
  | None => false
  end.

Definition authorsFindByNationality (source : string) (r : Matcher)
    : Effect (list AuthorDoc.t) :=
  record (AuthorsFindByNationality source) ;;
  ds <- getAuthors ;;
  succeed (List.filter (nationalityMatches r) ds).

End Mongo.

(* ===================================================================== *)
(** ** repositories/author-repository.ts                                   *)
(* ===================================================================== *)

Module AuthorRepository.

(** [({ ...author, _id: author._id.toString() }) as Author] *)
Definition toAuthor (d : AuthorDoc.t) : Author.t :=
  Author.mk (Some (Bson.toString (AuthorDoc._id d)))
    (AuthorDoc.firstName d) (AuthorDoc.lastName d) (AuthorDoc.fullName d)
    (AuthorDoc.biography d) (AuthorDoc.birthDate d) (AuthorDoc.nationality d)
    (AuthorDoc.website d) (AuthorDoc.socialLinks d) (AuthorDoc.profileImageUrl d)
    (Some (AuthorDoc.createdAt d)) (Some (AuthorDoc.updatedAt d)).

Definition findAll : Effect (list Author.t) :=
  map (List.map toAuthor) Mongo.authorsFindAll.

Definition findById (id : AuthorId) : Effect (option Author.t) :=
  oid <- Mongo.newObjectId id ;;
  map (option_map toAuthor) (Mongo.authorsFindOne oid).

Definition findByIds (ids : list AuthorId) : Effect (list Author.t) :=
  oids <- Mongo.newObjectIds ids ;;
  map (List.map toAuthor) (Mongo.authorsFindIn oids).

(** [{ ...authorData, createdAt: now, updatedAt: now }] *)
Definition authorToInsert (authorData : CreateAuthorRequest.t) (now : Date)
    (oid : Bson.ObjectId) : AuthorDoc.t :=
  AuthorDoc.mk oid
    (CreateAuthorRequest.firstName authorData) (CreateAuthorRequest.lastName authorData)
    (CreateAuthorRequest.fullName authorData) (CreateAuthorRequest.biography authorData)
    (CreateAuthorRequest.birthDate authorData) (CreateAuthorRequest.nationality authorData)
    (CreateAuthorRequest.website authorData) (CreateAuthorRequest.socialLinks authorData)
    (CreateAuthorRequest.profileImageUrl authorData) now now.

Definition create (authorData : CreateAuthorRequest.t) : Effect Author.t :=
  now <- Mongo.newDate ;;
  insertedId <- Mongo.authorsInsertOne (authorToInsert authorData now) ;;
  insertedAuthor <- Mongo.authorsFindOne insertedId ;;
  match insertedAuthor with
  | None => fail "Failed to create author"
  | Some d => succeed (toAuthor d)
  end.

Definition findByName (name : string) : Effect (list Author.t) :=
  r <- Mongo.newRegExp name ;;
  map (List.map toAuthor) (Mongo.authorsFindByName name r).

(** [{ $set: { ...updateData, updatedAt: now } }] *)
Definition applySet (updateData : UpdateAuthorRequest.t) (now : Date) (d : AuthorDoc.t)
    : AuthorDoc.t :=
  AuthorDoc.mk (AuthorDoc._id d)
    (Mongo.assign (UpdateAuthorRequest.firstName updateData) (AuthorDoc.firstName d))
    (Mongo.assign (UpdateAuthorRequest.lastName updateData) (AuthorDoc.lastName d))
    (Mongo.assign (UpdateAuthorRequest.fullName updateData) (AuthorDoc.fullName d))
    (Mongo.assignOptional (UpdateAuthorRequest.biography updateData) (AuthorDoc.biography d))
    (Mongo.assignOptional (UpdateAuthorRequest.birthDate updateData) (AuthorDoc.birthDate d))
    (Mongo.assignOptional (UpdateAuthorRequest.nationality updateData)
       (AuthorDoc.nationality d))
    (Mongo.assignOptional (UpdateAuthorRequest.website updateData) (AuthorDoc.website d))
    (Mongo.assignOptional (UpdateAuthorRequest.socialLinks updateData)
       (AuthorDoc.socialLinks d))
    (Mongo.assignOptional (UpdateAuthorRequest.profileImageUrl updateData)
       (AuthorDoc.profileImageUrl d))
    (AuthorDoc.createdAt d) now.

Definition update (id : AuthorId) (updateData : UpdateAuthorRequest.t)
    : Effect (option Author.t) :=
  now <- Mongo.newDate ;;
  oid <- Mongo.newObjectId id ;;
  map (option_map toAuthor) (Mongo.authorsFindOneAndUpdate oid (applySet updateData now)).

Definition delete (id : AuthorId) : Effect bool :=
  oid <- Mongo.newObjectId id ;;
  map (fun deletedCount => Nat.ltb 0 deletedCount) (Mongo.authorsDeleteOne oid).

Definition findByNationality (nationality : string) : Effect (list Author.t) :=
  r <- Mongo.newRegExp nationality ;;
  map (List.map toAuthor) (Mongo.authorsFindByNationality nationality r).

End AuthorRepository.

(* ===================================================================== *)
(** ** repositories/book-repository.ts                                     *)
(* ===================================================================== *)

Module BookRepository.

(** [({ ...book, _id: book._id.toString() }) as Book] *)
Definition toBook (d : BookDoc.t) : Book.t :=
  Book.mk (Some (Bson.toString (BookDoc._id d)))
    (BookDoc.title d) (BookDoc.authorIds d) (BookDoc.isbn d) (BookDoc.price d)
    (BookDoc.stock d) (BookDoc.genre d) (BookDoc.description d)
    (BookDoc.publishedDate d) (Some (BookDoc.createdAt d)) (Some (BookDoc.updatedAt d)).

Definition findAll : Effect (list Book.t) :=
  map (List.map toBook) Mongo.booksFindAll.

Definition findById (id : BookId) : Effect (option Book.t) :=
  oid <- Mongo.newObjectId id ;;
  map (option_map toBook) (Mongo.booksFindOne oid).

(** [{ ...bookData, createdAt: now, updatedAt: now }] *)
Definition bookToInsert (bookData : CreateBookRequest.t) (now : Date)
    (oid : Bson.ObjectId) : BookDoc.t :=
  BookDoc.mk oid
    (CreateBookRequest.title bookData) (CreateBookRequest.authorIds bookData)
    (CreateBookRequest.isbn bookData) (CreateBookRequest.price bookData)
    (CreateBookRequest.stock bookData) (CreateBookRequest.genre bookData)
    (CreateBookRequest.description bookData) (CreateBookRequest.publishedDate bookData)
    now now.

Definition create (bookData : CreateBookRequest.t) : Effect Book.t :=
  now <- Mongo.newDate ;;
  insertedId <- Mongo.booksInsertOne (bookToInsert bookData now) ;;
  insertedBook <- Mongo.booksFindOne insertedId ;;
  match insertedBook with
  | None => fail "Failed to create book"
  | Some d => succeed (toBook d)
  end.

Definition orElse {A : Type} (patch : option A) (current : A) : A :=
  match patch with
  | Some v => v
  | None => current
  end.

Definition orKeep {A : Type} (patch : option A) (current : option A) : option A :=
  match patch with
  | Some v => Some v
  | None => current
  end.

(** [{ $set: { ...updateData, updatedAt: now } }]: the fields present in
    the request replace the stored ones, the others stay. *)
Definition applySet (updateData : UpdateBookRequest.t) (now : Date) (d : BookDoc.t)
    : BookDoc.t :=
  BookDoc.mk (BookDoc._id d)
    (orElse (UpdateBookRequest.title updateData) (BookDoc.title d))
    (orElse (UpdateBookRequest.authorIds updateData) (BookDoc.authorIds d))
    (orElse (UpdateBookRequest.isbn updateData) (BookDoc.isbn d))
    (orElse (UpdateBookRequest.price updateData) (BookDoc.price d))
    (orElse (UpdateBookRequest.stock updateData) (BookDoc.stock d))
    (orElse (UpdateBookRequest.genre updateData) (BookDoc.genre d))
    (orKeep (UpdateBookRequest.description updateData) (BookDoc.description d))
    (orKeep (UpdateBookRequest.publishedDate updateData) (BookDoc.publishedDate d))
    (BookDoc.createdAt d) now.

Definition update (id : BookId) (updateData : UpdateBookRequest.t)
    : Effect (option Book.t) :=
  now <- Mongo.newDate ;;
  oid <- Mongo.newObjectId id ;;
  map (option_map toBook) (Mongo.booksFindOneAndUpdate oid (applySet updateData now)).

Definition delete (id : BookId) : Effect bool :=
  oid <- Mongo.newObjectId id ;;
  map (fun deletedCount => Nat.ltb 0 deletedCount) (Mongo.booksDeleteOne oid).

End BookRepository.

(* ===================================================================== *)
(** ** services/author-service.ts                                          *)
(* ===================================================================== *)

(** The one-character string holding a double quote, for messages. *)
Definition dquote : string := String (ascii_of_nat 34) EmptyString.

Module AuthorService.

Definition getAllAuthors : Effect (list Author.t) := AuthorRepository.findAll.

Definition getAuthorById (id : AuthorId) : Effect (option Author.t) :=
  AuthorRepository.findById id.

Definition getAuthorsByIds (ids : list AuthorId) : Effect (list Author.t) :=
  AuthorRepository.findByIds ids.

(** [author.fullName.toLowerCase() === authorData.fullName.toLowerCase()] *)
Definition sameFullName (fullName : string) (author : Author.t) : bool :=
  String.eqb (Js.toLowerCase (Author.fullName author)) (Js.toLowerCase fullName).

Definition createAuthor (authorData : CreateAuthorRequest.t) : Effect Author.t :=
  (* Check if author with same full name already exists *)
  existingAuthors <- AuthorRepository.findByName (CreateAuthorRequest.fullName authorData) ;;
  let duplicateAuthor :=
    Js.find (sameFullName (CreateAuthorRequest.fullName authorData)) existingAuthors in
  failWhen (isSome duplicateAuthor)
    ("Author with name " ++ dquote ++ CreateAuthorRequest.fullName authorData
       ++ dquote ++ " already exists") ;;
  AuthorRepository.create authorData.

(** [field.toLowerCase().includes(query.toLowerCase())] *)
Definition containsIgnoringCase (field query : string) : bool :=
  Js.includes (Js.toLowerCase field) (Js.toLowerCase query).

(** [(field && field.toLowerCase().includes(query.toLowerCase()))] for an
    optional field, read as a condition: an absent or empty field is falsy
    and the comparison is not made. *)
Definition optionalContains (field : option string) (query : string) : bool :=
  match field with
  | Some s => Js.truthy s && containsIgnoringCase s query
  | None => false
  end.

Definition searchPredicate (query : string) (author : Author.t) : bool :=
  containsIgnoringCase (Author.firstName author) query ||
  containsIgnoringCase (Author.lastName author) query ||
  containsIgnoringCase (Author.fullName author) query ||
  optionalContains (Author.biography author) query ||
  optionalContains (Author.nationality author) query.

Definition searchAuthors (query : string) : Effect (list Author.t) :=
  map (List.filter (searchPredicate query)) AuthorRepository.findAll.

Definition validateAuthorExists (id : AuthorId) : Effect bool :=
  map isSome (AuthorRepository.findById id).

Definition getAuthorsByName (name : string) : Effect (list Author.t) :=
  AuthorRepository.findByName name.

(** [author.fullName.toLowerCase() === updateData.fullName!.toLowerCase()
    && author._id !== id] *)
Definition sameFullNameElsewhere (fullName : string) (id : AuthorId) (author : Author.t)
    : bool :=
  sameFullName fullName author &&
  match Author._id author with
  | Some i => negb (String.eqb i id)
  | None => true
  end.

Definition updateAuthor (id : AuthorId) (updateData : UpdateAuthorRequest.t)
    : Effect (option Author.t) :=
  (* If updating fullName, check for duplicates *)
  match UpdateAuthorRequest.fullName updateData with
  | Some fullName =>
      if Js.truthy fullName then
        existingAuthors <- AuthorRepository.findByName fullName ;;
        let duplicateAuthor := Js.find (sameFullNameElsewhere fullName id) existingAuthors in
        failWhen (isSome duplicateAuthor)
          ("Author with name " ++ dquote ++ fullName ++ dquote ++ " already exists")
      else succeed tt
  | None => succeed tt
  end ;;
  AuthorRepository.update id updateData.

Definition deleteAuthor (id : AuthorId) : Effect bool := AuthorRepository.delete id.

Definition getAuthorsByNationality (nationality : string) : Effect (list Author.t) :=
  AuthorRepository.findByNationality nationality.

End AuthorService.

(* ===================================================================== *)
(** ** services/book-service.ts                                            *)
(* ===================================================================== *)

Module BookService.

Definition getAllBooks : Effect (list Book.t) := BookRepository.findAll.

Definition getBookById (id : BookId) : Effect (option Book.t) :=
  BookRepository.findById id.

(** The loop shared by [createBook] and [updateBook]:
    [for (const authorId of authorIds) { ... }]. *)
Fixpoint validateAuthorIds (authorIds : list AuthorId) : Effect unit :=
  match authorIds with
  | [] => succeed tt
  | authorId :: rest =>
      authorExists <- AuthorService.validateAuthorExists authorId ;;
      failWhen (negb authorExists) ("Author with ID " ++ authorId ++ " does not exist") ;;
      validateAuthorIds rest
  end.

Definition createBook (bookData : CreateBookRequest.t) : Effect Book.t :=
  (* Validate that all author IDs exist *)
  validateAuthorIds (CreateBookRequest.authorIds bookData) ;;
  existingBook <-
    map (Js.find (fun b => String.eqb (Book.isbn b) (CreateBookRequest.isbn bookData)))
      BookRepository.findAll ;;
  failWhen (isSome existingBook)
    ("Book with ISBN " ++ CreateBookRequest.isbn bookData ++ " already exists") ;;
  BookRepository.create bookData.

Definition updateBook (id : BookId) (updateData : UpdateBookRequest.t)
    : Effect (option Book.t) :=
  (* Validate author IDs if they are being updated *)
  match UpdateBookRequest.authorIds updateData with
  | Some authorIds => validateAuthorIds authorIds
  | None => succeed tt
  end ;;
  BookRepository.update id updateData.

Definition deleteBook (id : BookId) : Effect bool := BookRepository.delete id.

Definition titleOrGenreMatches (query : string) (book : Book.t) : bool :=
  Js.includes (Js.toLowerCase (Book.title book)) (Js.toLowerCase query) ||
  Js.includes (Js.toLowerCase (Book.genre book)) (Js.toLowerCase query).

Definition authorNameMatches (query : string) (author : Author.t) : bool :=
  Js.includes (Js.toLowerCase (Author.firstName author)) (Js.toLowerCase query) ||
  Js.includes (Js.toLowerCase (Author.lastName author)) (Js.toLowerCase query) ||
  Js.includes (Js.toLowerCase (Author.fullName author)) (Js.toLowerCase query).

(** The body of [for (const book of books)], with [filteredBooks] as the
    accumulator. *)
Fixpoint searchLoop (query : string) (books : list Book.t) (filteredBooks : list Book.t)
    : Effect (list Book.t) :=
  match books with
  | [] => succeed filteredBooks
  | book :: rest =>
      (* Check title and genre *)
      if titleOrGenreMatches query book then
        searchLoop query rest (filteredBooks ++ [book])
      else
        (* Check authors by getting author details *)
        authors <- AuthorService.getAuthorsByIds (Book.authorIds book) ;;
        let authorMatch := Js.some (authorNameMatches query) authors in
        if authorMatch then searchLoop query rest (filteredBooks ++ [book])
        else searchLoop query rest filteredBooks
  end.

Definition searchBooks (query : string) : Effect (list Book.t) :=
  books <- BookRepository.findAll ;;
  searchLoop query books [].

Definition getBooksByGenre (genre : string) : Effect (list Book.t) :=
  map (List.filter (fun book =>
         String.eqb (Js.toLowerCase (Book.genre book)) (Js.toLowerCase genre)))
    BookRepository.findAll.

(** [.filter(Boolean)] on an array of optional strings: [undefined] and
    the empty string are dropped. *)
Fixpoint filterBoolean (xs : list (option string)) : list string :=
  match xs with
  | [] => []
  | Some s :: rest => if Js.truthy s then s :: filterBoolean rest else filterBoolean rest
  | None :: rest => filterBoolean rest
  end.

Definition getBooksByAuthor (authorName : string) : Effect (list Book.t) :=
  (* First find authors matching the name *)
  matchingAuthors <- AuthorService.getAuthorsByName authorName ;;
  let authorIds := filterBoolean (List.map Author._id matchingAuthors) in
  if Nat.eqb (List.length authorIds) 0 then succeed []
  else
    (* Then find books by those author IDs *)
    allBooks <- BookRepository.findAll ;;
    succeed (List.filter (fun book =>
               Js.some (fun authorId => Js.arrayIncludes authorIds authorId)
                 (Book.authorIds book))
             allBooks).

(** The request object [{ stock: newStock }]. *)
Definition stockOnly (newStock : Js.Number) : UpdateBookRequest.t :=
  UpdateBookRequest.mk None None None None (Some newStock) None None None.

Definition updateStock (id : BookId) (quantity : Js.Number) : Effect (option Book.t) :=
  book <- BookRepository.findById id ;;
  match book with
  | None => succeed None
  | Some currentBook =>
      let newStock := Js.add (Book.stock currentBook) quantity in
      failWhen (Js.lt newStock (Js.ofZ 0)) "Insufficient stock" ;;
      BookRepository.update id (stockOnly newStock)
  end.

End BookService.

(* ===================================================================== *)
(** ** Vocabulary of the statements                                        *)
(* ===================================================================== *)

(** The world after the queries [cs] have been sent and nothing else has
    changed. *)
Definition logged (w : World) (cs : list Call) : World :=
  mkWorld (authors w) (books w) (clock w) (nextOid w) (calls w ++ cs) (engine w).

(** The world after the book collection has become [ds] and the queries
    [cs] have been sent. *)
Definition rewritten (w : World) (ds : list BookDoc.t) (cs : list Call) : World :=
  mkWorld (authors w) ds (clock w) (nextOid w) (calls w ++ cs) (engine w).

(** [id] denotes a stored author. *)
Definition authorKnown (w : World) (id : AuthorId) : bool :=
  match Bson.fromString id with
  | Some oid => List.existsb (Mongo.hasAuthorId oid) (authors w)
  | None => false
  end.

(** The document the book collection returns for [id]. *)
Definition bookAt (w : World) (id : BookId) : option BookDoc.t :=
  match Bson.fromString id with
  | Some oid => List.find (Mongo.hasBookId oid) (books w)
  | None => None
  end.

(** The existence probes issued for a list of well-formed identifiers. *)
Definition probes (ids : list AuthorId) : list Call :=
  List.flat_map (fun id =>
    match Bson.fromString id with
    | Some oid => [AuthorsFindOne oid]
    | None => []
    end) ids.

Definition wellFormedId (id : string) : bool := isSome (Bson.fromString id).

(** Every author reference held by a stored book is a well-formed
    identifier. *)
Definition referencesWellFormed (w : World) : Prop :=
  forall d id, In d (books w) -> In id (BookDoc.authorIds d) -> wellFormedId id = true.

(** The object identifiers spelled by a list of well-formed strings. *)
Definition objectIds (ids : list AuthorId) : list Bson.ObjectId :=
  List.flat_map (fun id =>
    match Bson.fromString id with
    | Some oid => [oid]
    | None => []
    end) ids.

(** [a] is the record of a stored author that one of [ids] denotes. *)
Definition resolves (w : World) (ids : list AuthorId) (a : Author.t) : Prop :=
  exists d id,
    In d (authors w) /\ In id ids /\
    Bson.fromString id = Some (AuthorDoc._id d) /\
    a = AuthorRepository.toAuthor d.

(** The author records the store returns for the references of a book. *)
Definition resolvedAuthors (w : World) (ids : list AuthorId) : list Author.t :=
  List.map AuthorRepository.toAuthor
    (List.filter (fun d => List.existsb (Bson.equals (AuthorDoc._id d)) (objectIds ids))
       (authors w)).

(** The condition under which [searchBooks] keeps a book. *)
Definition bookMatches (w : World) (query : string) (book : Book.t) : bool :=
  BookService.titleOrGenreMatches query book ||
  List.existsb (BookService.authorNameMatches query)
    (resolvedAuthors w (Book.authorIds book)).

(** The author resolutions [searchBooks] asks for: one for each book that
    neither the title nor the genre has already selected. *)
Definition resolutions (query : string) (ds : list BookDoc.t) : list Call :=
  List.flat_map (fun d =>
    if BookService.titleOrGenreMatches query (BookRepository.toBook d) then []
    else [AuthorsFindIn (objectIds (BookDoc.authorIds d))]) ds.

(** Some identifier of [book] is the identifier of one of [matching]. *)
Definition sharesAuthor (matching : list Author.t) (book : Book.t) : bool :=
  List.existsb (fun id =>
    List.existsb (fun a =>
      match Author._id a with
      | Some i => String.eqb id i
      | None => false
      end) matching) (Book.authorIds book).

(** [s] is matched as a whole by the pattern [r]. *)
Inductive matches (ignoreCase : bool) : RegExp.re -> string -> Prop :=
| MatchEmpty : matches ignoreCase RegExp.Empty EmptyString
| MatchChar a c :
    RegExp.sameChar ignoreCase a c = true ->
    matches ignoreCase (RegExp.Char a) (String c EmptyString)
| MatchSeq r1 r2 s1 s2 :
    matches ignoreCase r1 s1 -> matches ignoreCase r2 s2 ->
    matches ignoreCase (RegExp.Seq r1 r2) (s1 ++ s2)
| MatchLeft r1 r2 s :
    matches ignoreCase r1 s -> matches ignoreCase (RegExp.Alt r1 r2) s
| MatchRight r1 r2 s :
    matches ignoreCase r2 s -> matches ignoreCase (RegExp.Alt r1 r2) s
| MatchStarStop r : matches ignoreCase (RegExp.Star r) EmptyString
| MatchStarStep r s1 s2 :
    matches ignoreCase r s1 -> matches ignoreCase (RegExp.Star r) s2 ->
    matches ignoreCase (RegExp.Star r) (s1 ++ s2).

(** A character that stands for itself in a pattern. *)
Definition plainChar (c : ascii) : bool :=
  negb (Ascii.eqb c "(" || Ascii.eqb c ")" || Ascii.eqb c "|" ||
        RegExp.isQuantifier c || RegExp.isOutsideFragment c).

(** A name without pattern syntax. *)
Fixpoint plainName (s : string) : bool :=
  match s with
  | EmptyString => true
  | String c rest => plainChar c && plainName rest
  end.

(** The pattern that spells [s] character by character. *)
Fixpoint literal (s : string) : RegExp.re :=
  match s with
  | EmptyString => RegExp.Empty
  | String c rest => RegExp.Seq (RegExp.Char c) (literal rest)
  end.

(** Invariant C: no stored book has a negative stock, [0 <= stock] for
    every stored book. *)
Definition stockNonNegative (w : World) : Prop :=
  forall d, In d (books w) -> Js.le (Js.ofZ 0) (BookDoc.stock d) = true.

(** No stored book has a stock below zero in the sense of the guard of
    [updateStock]: [stock < 0] is false for every stored book.  A stock of
    [NaN] passes. *)
Definition stockNotBelowZero (w : World) : Prop :=
  forall d, In d (books w) -> Js.lt (BookDoc.stock d) (Js.ofZ 0) = false.

(** The integers every double tells apart: magnitude below [2^53]. *)
Definition safeInteger (z : Z) : Prop := (Z.abs z < 2 ^ 53)%Z.

(** Invariant A: no two stored books share an ISBN. *)
Definition isbnUnique (ds : list BookDoc.t) : Prop :=
  NoDup (List.map BookDoc.isbn ds).

(** [q] occurs in [s] as a substring. *)
Definition occursIn (q s : string) : Prop :=
  exists pre post, s = pre ++ q ++ post.

(** [q] is a case-insensitive substring of [s]. *)
Definition occursIgnoringCase (q s : string) : Prop :=
  occursIn (Js.toLowerCase q) (Js.toLowerCase s).

(** The document the author collection returns for [id]. *)
Definition authorAt (w : World) (id : AuthorId) : option AuthorDoc.t :=
  match Bson.fromString id with
  | Some oid => List.find (Mongo.hasAuthorId oid) (authors w)
  | None => None
  end.

(** The identifier the driver will hand out next is twelve bytes long and
    not yet in use. *)
Definition nextOidFresh (w : World) : Prop :=
  (nextOid w < 2 ^ 96)%N /\
  (forall d, In d (books w) -> BookDoc._id d <> nextOid w) /\
  (forall d, In d (authors w) -> AuthorDoc._id d <> nextOid w).

(** No two stored books, and no two stored authors, share an identifier. *)
Definition bookIdsDistinct (w : World) : Prop :=
  NoDup (List.map BookDoc._id (books w)).

Definition authorIdsDistinct (w : World) : Prop :=
  NoDup (List.map AuthorDoc._id (authors w)).

(** The world after a document has been inserted: the identifier counter
    has advanced and the queries [cs] have been sent. *)
Definition inserted (w : World) (as' : list AuthorDoc.t) (bs : list BookDoc.t)
    (cs : list Call) : World :=
  mkWorld as' bs (clock w) (N.succ (nextOid w)) (calls w ++ cs) (engine w).

(** The world after the author collection has become [ds] and the queries
    [cs] have been sent. *)
Definition rewrittenAuthors (w : World) (ds : list AuthorDoc.t) (cs : list Call) : World :=
  mkWorld ds (books w) (clock w) (nextOid w) (calls w ++ cs) (engine w).

(* ===================================================================== *)
(** ** A small store used in the examples                                  *)
(* ===================================================================== *)

Module Sample.

Definition orwellId : AuthorId := "000000000000000000000001".
Definition smithId : AuthorId := "000000000000000000000002".
Definition book1984Id : BookId := "000000000000000000000003".
Definition animalFarmId : BookId := "000000000000000000000004".
Definition absentId : AuthorId := "507f1f77bcf86cd799439011".

Definition orwell : AuthorDoc.t :=
  AuthorDoc.mk 1%N "George" "Orwell" "George Orwell"
    (Some "English novelist and essayist") None (Some "British") None None None
    1000%Z 1000%Z.

Definition smith : AuthorDoc.t :=
  AuthorDoc.mk 2%N "John" "Smith" "John Smith (Jr)" None None None None None None
    1000%Z 1000%Z.

Definition book1984 : BookDoc.t :=
  BookDoc.mk 3%N "1984" [orwellId] "978-0452284234" (Js.Finite 31 (-1)) (Js.ofZ 50)
    "Dystopian Fiction" None None 1000%Z 1000%Z.

Definition animalFarm : BookDoc.t :=
  BookDoc.mk 4%N "Animal Farm" [orwellId] "978-0451526342" (Js.Finite 35 (-2)) (Js.ofZ 30)
    "Political Satire" None None 1000%Z 1000%Z.

Definition world : World :=
  mkWorld [orwell; smith] [book1984; animalFarm] 2000%Z 5%N [] (fun _ => None).

(** The same store with [2^53] copies of "1984" on the shelf. *)
Definition book1984InBulk : BookDoc.t :=
  BookDoc.mk 3%N "1984" [orwellId] "978-0452284234" (Js.Finite 31 (-1))
    (Js.ofZ (2 ^ 53)) "Dystopian Fiction" None None 1000%Z 1000%Z.

Definition bulkWorld : World :=
  mkWorld [orwell; smith] [book1984InBulk; animalFarm] 2000%Z 5%N [] (fun _ => None).

Definition newBook (authorIds : list AuthorId) (isbn : string) (stock : Z)
    : CreateBookRequest.t :=
  CreateBookRequest.mk "Homage to Catalonia" authorIds isbn (Js.Finite 25 (-1))
    (Js.ofZ stock) "Memoir" None None.

Definition newAuthor (fullName : string) : CreateAuthorRequest.t :=
  CreateAuthorRequest.mk "John" "Smith" fullName None None None None None None.

(** The update [{ stock: n }]. *)
Definition stockPatch (n : Z) : UpdateBookRequest.t :=
  UpdateBookRequest.mk None None None None (Some (Js.ofZ n)) None None None.

(** The update [{ isbn: isbn }]. *)
Definition isbnPatch (isbn : string) : UpdateBookRequest.t :=
  UpdateBookRequest.mk None None (Some isbn) None None None None None.

(** The update [{ authorIds: ids }]. *)
Definition authorsPatch (ids : list AuthorId) : UpdateBookRequest.t :=
  UpdateBookRequest.mk None (Some ids) None None None None None None.

(** The update [{ fullName: fullName }]. *)
Definition fullNamePatch (fullName : string) : UpdateAuthorRequest.t :=
  UpdateAuthorRequest.mk None None (Some fullName) None None None None None None.

End Sample.

(* ===================================================================== *)
(** ** Running effects                                                     *)
(* ===================================================================== *)

Lemma logged_nil (w : World) : logged w [] = w.
Proof. destruct w; unfold logged; simpl. now rewrite app_nil_r. Qed.

Lemma logged_logged (w : World) (cs cs' : list Call) :
  logged (logged w cs) cs' = logged w (cs ++ cs').
Proof. unfold logged; simpl. now rewrite app_assoc. Qed.

Lemma rewritten_logged (w : World) ds (cs cs' : list Call) :
  rewritten (logged w cs) ds cs' = rewritten w ds (cs ++ cs').
Proof. unfold rewritten, logged; simpl. now rewrite app_assoc. Qed.

Lemma bind_success {A B : Type} (m : Effect A) (k : A -> Effect B) w a w' :
  m w = (Success a, w') -> bind m k w = k a w'.
Proof. intros H. unfold bind. now rewrite H. Qed.

Lemma bind_failure {A B : Type} (m : Effect A) (k : A -> Effect B) w e w' :
  m w = (Failure e, w') -> bind m k w = (Failure e, w').
Proof. intros H. unfold bind. now rewrite H. Qed.

Lemma newObjectId_ok id oid w :
  Bson.fromString id = Some oid -> Mongo.newObjectId id w = (Success oid, w).
Proof. intros H. unfold Mongo.newObjectId. now rewrite H. Qed.

Lemma newObjectId_throws id w :
  Bson.fromString id = None -> Mongo.newObjectId id w = (Die (BSONError id), w).
Proof. intros H. unfold Mongo.newObjectId. now rewrite H. Qed.

Lemma authorFindById_run id oid w :
  Bson.fromString id = Some oid ->
  AuthorRepository.findById id w =
    (Success (option_map AuthorRepository.toAuthor
                (List.find (Mongo.hasAuthorId oid) (authors w))),
     logged w [AuthorsFindOne oid]).
Proof.
  intros H. unfold AuthorRepository.findById.
  rewrite (bind_success _ _ _ _ _ (newObjectId_ok _ _ _ H)).
  reflexivity.
Qed.

Lemma find_isSome_existsb {A : Type} (p : A -> bool) (xs : list A) :
  isSome (List.find p xs) = List.existsb p xs.
Proof.
  induction xs as [|x xs IH]; simpl; [reflexivity|].
  destruct (p x); simpl; [reflexivity|exact IH].
Qed.

Lemma validateAuthorExists_run id oid w :
  Bson.fromString id = Some oid ->
  AuthorService.validateAuthorExists id w =
    (Success (authorKnown w id), logged w [AuthorsFindOne oid]).
Proof.
  intros H. unfold AuthorService.validateAuthorExists, map.
  rewrite (bind_success _ _ _ _ _ (authorFindById_run _ _ _ H)).
  unfold succeed, authorKnown. rewrite H.
  destruct (List.find (Mongo.hasAuthorId oid) (authors w)) eqn:E;
    rewrite <- find_isSome_existsb, E; reflexivity.
Qed.

Lemma authorKnown_logged w cs id : authorKnown (logged w cs) id = authorKnown w id.
Proof. reflexivity. Qed.

Lemma authorKnown_wellFormed w id : authorKnown w id = true -> wellFormedId id = true.
Proof.
  unfold authorKnown, wellFormedId. destruct (Bson.fromString id); [reflexivity|discriminate].
Qed.

(** When every identifier denotes a stored author the validation loop
    succeeds, having probed each identifier once, in order. *)
Lemma validateAuthorIds_all_known ids : forall w,
  (forall id, In id ids -> authorKnown w id = true) ->
  BookService.validateAuthorIds ids w = (Success tt, logged w (probes ids)).
Proof.
  induction ids as [|id ids IH]; intros w Hall.
  - simpl. unfold succeed. now rewrite logged_nil.
  - assert (Hid : authorKnown w id = true) by (apply Hall; now left).
    destruct (Bson.fromString id) as [oid|] eqn:Hp;
      [|unfold authorKnown in Hid; rewrite Hp in Hid; discriminate].
    cbn [BookService.validateAuthorIds].
    rewrite (bind_success _ _ _ _ _ (validateAuthorExists_run _ _ _ Hp)).
    rewrite Hid. cbn [negb failWhen].
    unfold bind at 1. unfold succeed at 1.
    rewrite IH.
    + rewrite logged_logged. unfold probes. cbn [flat_map]. rewrite Hp. reflexivity.
    + intros id' Hin. rewrite authorKnown_logged. apply Hall. now right.
Qed.

(** The loop stops at the first identifier that is well formed but denotes
    no author: the identifiers before it have been probed, the ones after
    it have not. *)
Lemma validateAuthorIds_first_missing pre missing post : forall w,
  (forall id, In id pre -> authorKnown w id = true) ->
  wellFormedId missing = true ->
  authorKnown w missing = false ->
  BookService.validateAuthorIds (pre ++ missing :: post) w =
    (Failure ("Author with ID " ++ missing ++ " does not exist"),
     logged w (probes (pre ++ [missing]))).
Proof.
  induction pre as [|id pre IH]; intros w Hall Hwf Hmiss.
  - destruct (Bson.fromString missing) as [oid|] eqn:Hp;
      [|unfold wellFormedId in Hwf; rewrite Hp in Hwf; discriminate].
    cbn [app BookService.validateAuthorIds].
    rewrite (bind_success _ _ _ _ _ (validateAuthorExists_run _ _ _ Hp)).
    rewrite Hmiss. cbn [negb failWhen].
    unfold bind, fail. unfold probes. cbn [flat_map]. rewrite Hp. reflexivity.
  - assert (Hid : authorKnown w id = true) by (apply Hall; now left).
    destruct (Bson.fromString id) as [oid|] eqn:Hp;
      [|unfold authorKnown in Hid; rewrite Hp in Hid; discriminate].
    cbn [app BookService.validateAuthorIds].
    rewrite (bind_success _ _ _ _ _ (validateAuthorExists_run _ _ _ Hp)).
    rewrite Hid. cbn [negb failWhen].
    unfold bind at 1. unfold succeed at 1.
    rewrite IH; try assumption.
    + rewrite logged_logged. unfold probes. cbn [flat_map app]. rewrite Hp. reflexivity.
    + intros id' Hin. rewrite authorKnown_logged. apply Hall. now right.
Qed.

Lemma bookFindAll_run w :
  BookRepository.findAll w =
    (Success (List.map BookRepository.toBook (books w)), logged w [BooksFindAll]).
Proof. reflexivity. Qed.

Lemma authorFindAll_run w :
  AuthorRepository.findAll w =
    (Success (List.map AuthorRepository.toAuthor (authors w)), logged w [AuthorsFindAll]).
Proof. reflexivity. Qed.

(* ===================================================================== *)
(** ** createBook: author validation (C3)                                  *)
(* ===================================================================== *)

(** C3, as amended.  When the author identifiers of a request are well
    formed up to and including the first one that denotes no author,
    [createBook] fails with the error naming that identifier; the
    identifiers after it are not probed, the book collection is never
    touched, and the store stays as it was. *)
Theorem createBook_unknown_author :
  forall w bookData pre missing post,
    CreateBookRequest.authorIds bookData = (pre ++ missing :: post)%list ->
    (forall id, In id pre -> authorKnown w id = true) ->
    wellFormedId missing = true ->
    authorKnown w missing = false ->
    BookService.createBook bookData w =
      (Failure ("Author with ID " ++ missing ++ " does not exist"),
       logged w (probes (pre ++ [missing])))
    /\ books (snd (BookService.createBook bookData w)) = books w.
Proof.
  intros w bookData pre missing post Hids Hpre Hwf Hmiss.
  assert (Hrun : BookService.createBook bookData w =
      (Failure ("Author with ID " ++ missing ++ " does not exist"),
       logged w (probes (pre ++ [missing])))).
  { unfold BookService.createBook. rewrite Hids.
    apply bind_failure.
    now apply validateAuthorIds_first_missing. }
  split; [exact Hrun|]. rewrite Hrun. reflexivity.
Qed.

Lemma createBook_unknown_author_witness :
  BookService.createBook
    (Sample.newBook [Sample.orwellId; Sample.absentId; Sample.smithId] "978-0156421171" 5%Z)
    Sample.world =
  (Failure "Author with ID 507f1f77bcf86cd799439011 does not exist",
   logged Sample.world [AuthorsFindOne 1%N; AuthorsFindOne 24912482966938930280208240657%N])
  /\ books (snd (BookService.createBook
       (Sample.newBook [Sample.orwellId; Sample.absentId; Sample.smithId]
          "978-0156421171" 5%Z) Sample.world)) = books Sample.world.
Proof.
  apply (createBook_unknown_author Sample.world
           (Sample.newBook [Sample.orwellId; Sample.absentId; Sample.smithId]
              "978-0156421171" 5%Z)
           [Sample.orwellId] Sample.absentId [Sample.smithId]).
  - reflexivity.
  - intros id [<-|[]]. vm_compute. reflexivity.
  - vm_compute. reflexivity.
  - vm_compute. reflexivity.
Defined.

(** C3 as stated fails for an identifier that is not 24 hexadecimal
    characters: it denotes no author, yet [createBook] does not fail with
    the error naming it; the fiber dies inside the first lookup. *)
Lemma createBook_malformed_author_id :
  authorKnown Sample.world "abc" = false /\
  fst (BookService.createBook (Sample.newBook ["abc"] "978-0156421171" 5%Z) Sample.world)
    = Die (BSONError "abc") /\
  fst (BookService.createBook (Sample.newBook ["abc"] "978-0156421171" 5%Z) Sample.world)
    <> Failure "Author with ID abc does not exist".
Proof.
  split; [reflexivity|]. split; [reflexivity|]. discriminate.
Qed.

(** The general form of that example: when the first identifier that
    denotes no author is malformed, the first lookup that meets it throws;
    [createBook] dies with the driver's error, and here too nothing has
    been written. *)
Lemma validateAuthorExists_malformed id w :
  Bson.fromString id = None ->
  AuthorService.validateAuthorExists id w = (Die (BSONError id), w).
Proof.
  intros H. unfold AuthorService.validateAuthorExists, map, AuthorRepository.findById, bind.
  now rewrite (newObjectId_throws _ _ H).
Qed.

Lemma createBook_malformed_author w bookData pre bad post :
  CreateBookRequest.authorIds bookData = (pre ++ bad :: post)%list ->
  (forall id, In id pre -> authorKnown w id = true) ->
  wellFormedId bad = false ->
  BookService.createBook bookData w = (Die (BSONError bad), logged w (probes pre)).
Proof.
  intros Hids Hpre Hbad. unfold BookService.createBook. rewrite Hids.
  assert (Hloop : BookService.validateAuthorIds (pre ++ bad :: post) w =
                    (Die (BSONError bad), logged w (probes pre))).
  { clear Hids. revert w Hpre. induction pre as [|id pre IH]; intros w Hpre.
    - cbn [app BookService.validateAuthorIds]. unfold bind.
      rewrite validateAuthorExists_malformed.
      + now rewrite logged_nil.
      + unfold wellFormedId in Hbad. now destruct (Bson.fromString bad).
    - assert (Hid : authorKnown w id = true) by (apply Hpre; now left).
      destruct (Bson.fromString id) as [oid|] eqn:Hp;
        [|unfold authorKnown in Hid; rewrite Hp in Hid; discriminate].
      cbn [app BookService.validateAuthorIds].
      rewrite (bind_success _ _ _ _ _ (validateAuthorExists_run _ _ _ Hp)).
      rewrite Hid. cbn [negb failWhen]. unfold bind at 1. unfold succeed at 1.
      rewrite IH.
      + rewrite logged_logged. unfold probes. cbn [flat_map]. now rewrite Hp.
      + intros id' Hin. rewrite authorKnown_logged. apply Hpre. now right. }
  unfold bind. now rewrite Hloop.
Qed.

(* ===================================================================== *)
(** ** createBook: ISBN uniqueness (C4)                                    *)
(* ===================================================================== *)

Lemma map_success {A B : Type} (f : A -> B) (m : Effect A) w a w' :
  m w = (Success a, w') -> map f m w = (Success (f a), w').
Proof. intros H. unfold map. now rewrite (bind_success _ _ _ _ _ H). Qed.

Lemma find_same_isbn isbn ds d :
  In d ds -> BookDoc.isbn d = isbn ->
  isSome (Js.find (fun b => String.eqb (Book.isbn b) isbn)
            (List.map BookRepository.toBook ds)) = true.
Proof.
  intros Hin Heq. unfold Js.find. rewrite find_isSome_existsb.
  apply existsb_exists. exists (BookRepository.toBook d). split.
  - now apply in_map.
  - simpl. rewrite Heq. apply String.eqb_refl.
Qed.

(** C4.  When the store holds a book whose ISBN is exactly the ISBN of the
    request and every author identifier of the request denotes a stored
    author, [createBook] fails with the "already exists" error whatever the
    other fields are; only the existence probes and one listing of the books
    have been sent, and nothing is inserted. *)
Theorem createBook_duplicate_isbn :
  forall w bookData d,
    In d (books w) ->
    BookDoc.isbn d = CreateBookRequest.isbn bookData ->
    (forall id, In id (CreateBookRequest.authorIds bookData) -> authorKnown w id = true) ->
    BookService.createBook bookData w =
      (Failure ("Book with ISBN " ++ CreateBookRequest.isbn bookData ++ " already exists"),
       logged w (probes (CreateBookRequest.authorIds bookData) ++ [BooksFindAll]))
    /\ books (snd (BookService.createBook bookData w)) = books w.
Proof.
  intros w bookData d Hin Hisbn Hknown.
  assert (Hrun : BookService.createBook bookData w =
      (Failure ("Book with ISBN " ++ CreateBookRequest.isbn bookData ++ " already exists"),
       logged w (probes (CreateBookRequest.authorIds bookData) ++ [BooksFindAll]))).
  { unfold BookService.createBook.
    rewrite (bind_success _ _ _ _ _ (validateAuthorIds_all_known _ _ Hknown)).
    rewrite (bind_success _ _ _ _ _
               (map_success _ _ _ _ _ (bookFindAll_run _))).
    cbn [books logged].
    rewrite (find_same_isbn _ _ _ Hin Hisbn). cbn [failWhen].
    rewrite logged_logged. reflexivity. }
  split; [exact Hrun|]. rewrite Hrun. reflexivity.
Qed.

Lemma createBook_duplicate_isbn_witness :
  BookService.createBook
    (Sample.newBook [Sample.orwellId; Sample.smithId] "978-0452284234" 7%Z) Sample.world =
  (Failure "Book with ISBN 978-0452284234 already exists",
   logged Sample.world [AuthorsFindOne 1%N; AuthorsFindOne 2%N; BooksFindAll])
  /\ books (snd (BookService.createBook
       (Sample.newBook [Sample.orwellId; Sample.smithId] "978-0452284234" 7%Z)
       Sample.world)) = books Sample.world.
Proof.
  apply (createBook_duplicate_isbn Sample.world
           (Sample.newBook [Sample.orwellId; Sample.smithId] "978-0452284234" 7%Z)
           Sample.book1984).
  - simpl. left. reflexivity.
  - reflexivity.
  - intros id [<-|[<-|[]]]; vm_compute; reflexivity.
Defined.

(* ===================================================================== *)
(** ** updateStock (C1)                                                    *)
(* ===================================================================== *)

Lemma bookFindById_run id oid w :
  Bson.fromString id = Some oid ->
  BookRepository.findById id w =
    (Success (option_map BookRepository.toBook
                (List.find (Mongo.hasBookId oid) (books w))),
     logged w [BooksFindOne oid]).
Proof.
  intros H. unfold BookRepository.findById.
  rewrite (bind_success _ _ _ _ _ (newObjectId_ok _ _ _ H)).
  reflexivity.
Qed.

(** Where [updateFirst] acts: on the first document carrying the
    identifier, leaving the documents around it alone. *)
Lemma updateFirst_found oid f : forall ds d,
  List.find (Mongo.hasBookId oid) ds = Some d ->
  exists l1 l2,
    ds = (l1 ++ d :: l2)%list /\
    (forall x, In x l1 -> Mongo.hasBookId oid x = false) /\
    Mongo.hasBookId oid d = true /\
    Mongo.updateFirst oid f ds = Some (f d, (l1 ++ f d :: l2)%list).
Proof.
  induction ds as [|x ds IH]; intros d Hfind; [discriminate|].
  simpl in Hfind. simpl. destruct (Mongo.hasBookId oid x) eqn:Hx.
  - injection Hfind as <-. exists [], ds. repeat split; try assumption.
    intros y [].
  - destruct (IH d Hfind) as (l1 & l2 & -> & Hl1 & Hd & Hup).
    exists (x :: l1), l2. rewrite Hup. repeat split; try assumption.
    intros y [<-|Hy]; [assumption|now apply Hl1].
Qed.

Lemma updateFirst_absent oid f : forall ds,
  List.find (Mongo.hasBookId oid) ds = None -> Mongo.updateFirst oid f ds = None.
Proof.
  induction ds as [|x ds IH]; intros Hfind; [reflexivity|].
  simpl in Hfind. simpl. destruct (Mongo.hasBookId oid x); [discriminate|].
  now rewrite IH.
Qed.

Lemma find_after_prefix oid (l1 l2 : list BookDoc.t) d :
  (forall x, In x l1 -> Mongo.hasBookId oid x = false) ->
  Mongo.hasBookId oid d = true ->
  List.find (Mongo.hasBookId oid) (l1 ++ d :: l2) = Some d.
Proof.
  intros Hl1 Hd. induction l1 as [|x l1 IH]; simpl.
  - now rewrite Hd.
  - rewrite (Hl1 x (or_introl eq_refl)). apply IH.
    intros y Hy. apply Hl1. now right.
Qed.

Lemma applySet_id updateData now d :
  BookDoc._id (BookRepository.applySet updateData now d) = BookDoc._id d.
Proof. reflexivity. Qed.

Lemma bookUpdate_run id oid updateData w d' ds' :
  Bson.fromString id = Some oid ->
  Mongo.updateFirst oid (BookRepository.applySet updateData (clock w)) (books w)
    = Some (d', ds') ->
  BookRepository.update id updateData w =
    (Success (Some (BookRepository.toBook d')),
     rewritten w ds' [BooksFindOneAndUpdate oid]).
Proof.
  intros Hp Hup. unfold BookRepository.update.
  unfold bind at 1. unfold Mongo.newDate at 1. cbv beta iota.
  rewrite (bind_success _ _ _ _ _ (newObjectId_ok _ _ _ Hp)).
  unfold map, Mongo.booksFindOneAndUpdate, bind, Mongo.record, Mongo.getBooks.
  cbn [books]. rewrite Hup. reflexivity.
Qed.

Lemma bookUpdate_absent id oid updateData w :
  Bson.fromString id = Some oid ->
  List.find (Mongo.hasBookId oid) (books w) = None ->
  BookRepository.update id updateData w =
    (Success None, logged w [BooksFindOneAndUpdate oid]).
Proof.
  intros Hp Hnone. unfold BookRepository.update.
  unfold bind at 1. unfold Mongo.newDate at 1. cbv beta iota.
  rewrite (bind_success _ _ _ _ _ (newObjectId_ok _ _ _ Hp)).
  unfold map, Mongo.booksFindOneAndUpdate, bind, Mongo.record, Mongo.getBooks.
  cbn [books]. rewrite (updateFirst_absent _ _ _ Hnone). reflexivity.
Qed.

Lemma bookFindById_malformed id w :
  Bson.fromString id = None ->
  BookRepository.findById id w = (Die (BSONError id), w).
Proof.
  intros H. unfold BookRepository.findById, bind. now rewrite (newObjectId_throws _ _ H).
Qed.

(** The integers of magnitude below [2^53] are numbers as they stand, and
    on them [+] and [<] are the integer ones. *)
Lemma bitLength_safe z : safeInteger z -> (Js.bitLength z <= 53)%Z.
Proof.
  unfold safeInteger, Js.bitLength. intros H.
  destruct (Z.eq_dec (Z.abs z) 0) as [->|Hnz]; [simpl; lia|].
  assert (Hlog : (Z.log2 (Z.abs z) < 53)%Z) by (apply Z.log2_lt_pow2; [lia|exact H]).
  lia.
Qed.

Lemma ofZ_safe z : safeInteger z -> Js.ofZ z = Js.Finite z 0.
Proof.
  intros H. pose proof (bitLength_safe z H) as Hb.
  unfold Js.ofZ, Js.normalize. cbv zeta.
  assert (Hex : (Js.bitLength z - 53 <=? 0)%Z = true) by (apply Z.leb_le; lia).
  rewrite Hex.
  assert (Hov : (1025 <=? Js.bitLength z + 0)%Z = false) by (apply Z.leb_gt; lia).
  now rewrite Hov.
Qed.

Lemma add_integers a b : Js.add (Js.Finite a 0) (Js.Finite b 0) = Js.ofZ (a + b).
Proof.
  unfold Js.add, Js.ofZ. cbv zeta.
  change (Z.min 0 0) with 0%Z. change (0 - 0)%Z with 0%Z. change (2 ^ 0)%Z with 1%Z.
  now rewrite !Z.mul_1_r.
Qed.

Lemma lt_integers a b : Js.lt (Js.Finite a 0) (Js.Finite b 0) = (a <? b)%Z.
Proof.
  unfold Js.lt. cbv zeta.
  change (Z.min 0 0) with 0%Z. change (0 - 0)%Z with 0%Z. change (2 ^ 0)%Z with 1%Z.
  now rewrite !Z.mul_1_r.
Qed.

Lemma add_ofZ a b :
  safeInteger a -> safeInteger b -> Js.add (Js.ofZ a) (Js.ofZ b) = Js.ofZ (a + b).
Proof.
  intros Ha Hb. rewrite (ofZ_safe a Ha), (ofZ_safe b Hb). apply add_integers.
Qed.

Lemma lt_ofZ_zero z : safeInteger z -> Js.lt (Js.ofZ z) (Js.ofZ 0) = (z <? 0)%Z.
Proof.
  intros Hz. rewrite (ofZ_safe z Hz). apply lt_integers.
Qed.

(** The four ways [updateStock] can end. *)
Lemma updateStock_malformed id quantity w :
  Bson.fromString id = None ->
  BookService.updateStock id quantity w = (Die (BSONError id), w).
Proof.
  intros H. unfold BookService.updateStock, bind. now rewrite (bookFindById_malformed _ _ H).
Qed.

Lemma updateStock_absent id oid quantity w :
  Bson.fromString id = Some oid ->
  List.find (Mongo.hasBookId oid) (books w) = None ->
  BookService.updateStock id quantity w = (Success None, logged w [BooksFindOne oid]).
Proof.
  intros Hp Hnone. unfold BookService.updateStock.
  rewrite (bind_success _ _ _ _ _ (bookFindById_run _ _ _ Hp)). now rewrite Hnone.
Qed.

Lemma updateStock_refused id oid d quantity w :
  Bson.fromString id = Some oid ->
  List.find (Mongo.hasBookId oid) (books w) = Some d ->
  Js.lt (Js.add (BookDoc.stock d) quantity) (Js.ofZ 0) = true ->
  BookService.updateStock id quantity w =
    (Failure "Insufficient stock", logged w [BooksFindOne oid]).
Proof.
  intros Hp Hfind Hlt. unfold BookService.updateStock.
  rewrite (bind_success _ _ _ _ _ (bookFindById_run _ _ _ Hp)). rewrite Hfind.
  cbn [option_map BookRepository.toBook Book.stock].
  rewrite Hlt. reflexivity.
Qed.

Lemma updateStock_accepted id oid d quantity w :
  Bson.fromString id = Some oid ->
  List.find (Mongo.hasBookId oid) (books w) = Some d ->
  Js.lt (Js.add (BookDoc.stock d) quantity) (Js.ofZ 0) = false ->
  exists l1 l2,
    books w = (l1 ++ d :: l2)%list /\
    (forall x, In x l1 -> Mongo.hasBookId oid x = false) /\
    Mongo.hasBookId oid d = true /\
    BookService.updateStock id quantity w =
      (Success (Some (BookRepository.toBook
          (BookRepository.applySet
             (BookService.stockOnly (Js.add (BookDoc.stock d) quantity)) (clock w) d))),
       rewritten w
         (l1 ++ BookRepository.applySet
                  (BookService.stockOnly (Js.add (BookDoc.stock d) quantity))
                  (clock w) d :: l2)
         [BooksFindOne oid; BooksFindOneAndUpdate oid]).
Proof.
  intros Hp Hfind Hge.
  destruct (updateFirst_found oid
              (BookRepository.applySet
                 (BookService.stockOnly (Js.add (BookDoc.stock d) quantity)) (clock w))
              _ _ Hfind) as (l1 & l2 & Hds & Hl1 & Hd & Hup).
  exists l1, l2. split; [exact Hds|]. split; [exact Hl1|]. split; [exact Hd|].
  unfold BookService.updateStock.
  rewrite (bind_success _ _ _ _ _ (bookFindById_run _ _ _ Hp)). rewrite Hfind.
  cbn [option_map BookRepository.toBook Book.stock].
  rewrite Hge. cbn [failWhen].
  unfold bind at 1. unfold succeed at 1.
  erewrite bookUpdate_run; [|exact Hp|exact Hup].
  now rewrite rewritten_logged.
Qed.

(** C1, as amended: for integers that doubles hold exactly.  Let [d] be the
    stored book for [id], with stock the integer [S], and let the delta be
    the integer [quantity], where [S], [quantity] and [S + quantity] are of
    magnitude below [2^53].  If [S + quantity] is not negative,
    [updateStock] succeeds, returns the book with stock [S + quantity], and
    that is the stock the store then holds for [id].  If [S + quantity] is
    negative it fails with "Insufficient stock" and the book collection is
    as before.  Hence it succeeds exactly when [S + quantity] is not
    negative. *)
Theorem updateStock_guard :
  forall w id d S quantity,
    bookAt w id = Some d ->
    BookDoc.stock d = Js.ofZ S ->
    safeInteger S -> safeInteger quantity -> safeInteger (S + quantity) ->
    ((0 <= S + quantity)%Z ->
       (exists b, fst (BookService.updateStock id (Js.ofZ quantity) w) = Success (Some b) /\
                  Book.stock b = Js.Finite (S + quantity) 0) /\
       option_map BookDoc.stock
         (bookAt (snd (BookService.updateStock id (Js.ofZ quantity) w)) id)
         = Some (Js.Finite (S + quantity) 0)) /\
    ((S + quantity < 0)%Z ->
       fst (BookService.updateStock id (Js.ofZ quantity) w) = Failure "Insufficient stock" /\
       books (snd (BookService.updateStock id (Js.ofZ quantity) w)) = books w) /\
    (isSuccess (fst (BookService.updateStock id (Js.ofZ quantity) w)) = true <->
       (0 <= S + quantity)%Z).
Proof.
  intros w id d S quantity Hat HS HsS Hsq Hsum.
  unfold bookAt in Hat.
  destruct (Bson.fromString id) as [oid|] eqn:Hp; [|discriminate].
  assert (Hadd : Js.add (BookDoc.stock d) (Js.ofZ quantity) = Js.Finite (S + quantity) 0).
  { rewrite HS, (add_ofZ _ _ HsS Hsq). now apply ofZ_safe. }
  assert (Hguard : Js.lt (Js.add (BookDoc.stock d) (Js.ofZ quantity)) (Js.ofZ 0)
                   = (S + quantity <? 0)%Z).
  { rewrite Hadd, <- (ofZ_safe _ Hsum). now apply lt_ofZ_zero. }
  assert (Hneg : (S + quantity < 0)%Z ->
            BookService.updateStock id (Js.ofZ quantity) w =
              (Failure "Insufficient stock", logged w [BooksFindOne oid])).
  { intros Hlt. apply (updateStock_refused _ _ _ _ _ Hp Hat).
    rewrite Hguard. now apply Z.ltb_lt. }
  assert (Hpos : (0 <= S + quantity)%Z ->
            exists l1 l2 d',
              d' = BookRepository.applySet
                     (BookService.stockOnly (Js.Finite (S + quantity) 0)) (clock w) d /\
              (forall x, In x l1 -> Mongo.hasBookId oid x = false) /\
              Mongo.hasBookId oid d' = true /\
              BookService.updateStock id (Js.ofZ quantity) w =
                (Success (Some (BookRepository.toBook d')),
                 rewritten w (l1 ++ d' :: l2)
                   [BooksFindOne oid; BooksFindOneAndUpdate oid])).
  { intros Hge.
    destruct (updateStock_accepted id oid d (Js.ofZ quantity) w Hp Hat)
      as (l1 & l2 & _ & Hl1 & Hd & Hrun).
    - rewrite Hguard. now apply Z.ltb_ge.
    - rewrite Hadd in Hrun. exists l1, l2. eexists.
      split; [reflexivity|]. split; [exact Hl1|]. split; [exact Hd|exact Hrun]. }
  split; [|split].
  - intros Hge. destruct (Hpos Hge) as (l1 & l2 & d' & Hd' & Hl1 & Hid & Hrun).
    rewrite Hrun. cbn [fst snd]. split.
    + exists (BookRepository.toBook d'). split; [reflexivity|]. now rewrite Hd'.
    + unfold bookAt. rewrite Hp. cbn [books rewritten].
      rewrite (find_after_prefix _ _ _ _ Hl1 Hid). now rewrite Hd'.
  - intros Hlt. rewrite (Hneg Hlt). split; reflexivity.
  - split.
    + intros Hs. destruct (Z.lt_ge_cases (S + quantity) 0) as [Hlt|Hge]; [|exact Hge].
      rewrite (Hneg Hlt) in Hs. discriminate.
    + intros Hge. destruct (Hpos Hge) as (l1 & l2 & d' & _ & _ & _ & Hrun).
      rewrite Hrun. reflexivity.
Qed.

(** The scenario of the specification: stock 50, a delta of -60 is refused
    and a delta of 10 gives 60. *)
Lemma updateStock_guard_witness :
  (fst (BookService.updateStock Sample.book1984Id (Js.ofZ (-60)) Sample.world)
     = Failure "Insufficient stock" /\
   books (snd (BookService.updateStock Sample.book1984Id (Js.ofZ (-60)) Sample.world))
     = books Sample.world) /\
  option_map BookDoc.stock
    (bookAt (snd (BookService.updateStock Sample.book1984Id (Js.ofZ 10) Sample.world))
       Sample.book1984Id) = Some (Js.Finite 60 0).
Proof.
  split.
  - destruct (updateStock_guard Sample.world Sample.book1984Id Sample.book1984 50%Z (-60)%Z)
      as (_ & Hrefused & _); [reflexivity|reflexivity|reflexivity|reflexivity|reflexivity|].
    apply Hrefused. lia.
  - destruct (updateStock_guard Sample.world Sample.book1984Id Sample.book1984 50%Z 10%Z)
      as (Haccepted & _); [reflexivity|reflexivity|reflexivity|reflexivity|reflexivity|].
    apply Haccepted. lia.
Defined.

(** C1 as stated fails outside those integers.  With the
    delta [NaN] the sum is [NaN], [NaN < 0] is false, and [updateStock]
    succeeds and stores [NaN], although [0 <= NaN] is false as well.  And
    with a stock of [2^53] the delta 1 is accepted and the stock stays what
    it was: the sum is rounded to the nearest double. *)
Lemma updateStock_accepts_not_a_number :
  (exists b w',
     BookService.updateStock Sample.book1984Id Js.NaN Sample.world
       = (Success (Some b), w') /\
     Book.stock b = Js.NaN /\
     option_map BookDoc.stock (bookAt w' Sample.book1984Id) = Some Js.NaN /\
     Js.le (Js.ofZ 0) (Js.add (BookDoc.stock Sample.book1984) Js.NaN) = false) /\
  (exists b w',
     BookService.updateStock Sample.book1984Id (Js.ofZ 1) Sample.bulkWorld
       = (Success (Some b), w') /\
     Book.stock b = BookDoc.stock Sample.book1984InBulk /\
     option_map BookDoc.stock (bookAt w' Sample.book1984Id)
       = option_map BookDoc.stock (bookAt Sample.bulkWorld Sample.book1984Id) /\
     BookDoc.stock Sample.book1984InBulk = Js.Finite (2 ^ 52) 1).
Proof.
  split.
  - eexists. eexists. split; [vm_compute; reflexivity|].
    repeat split.
  - eexists. eexists. split; [vm_compute; reflexivity|].
    repeat split.
Qed.

(* ===================================================================== *)
(** ** Invariant C and the write operations (C2)                           *)
(* ===================================================================== *)

Lemma sample_stock_nonnegative : stockNonNegative Sample.world.
Proof.
  intros d [<-|[<-|[]]]; reflexivity.
Qed.

(** C2 does not hold of the code.  In a store where every stock is
    non-negative, [updateBook] with the body [{ stock: -5 }] succeeds and
    leaves the book with stock -5, and [createBook] with stock -1 succeeds
    and stores the book: neither path looks at the sign of [stock], only
    [updateStock] does. *)
Theorem write_paths_store_negative_stock :
  stockNonNegative Sample.world /\
  (exists b w',
     BookService.updateBook Sample.book1984Id (Sample.stockPatch (-5)%Z) Sample.world
       = (Success (Some b), w') /\
     Book.stock b = Js.ofZ (-5) /\
     option_map BookDoc.stock (bookAt w' Sample.book1984Id) = Some (Js.ofZ (-5)) /\
     ~ stockNonNegative w') /\
  (exists b w',
     BookService.createBook (Sample.newBook [Sample.orwellId] "978-0156421171" (-1)%Z)
       Sample.world = (Success b, w') /\
     Book.stock b = Js.ofZ (-1) /\
     ~ stockNonNegative w').
Proof.
  split; [exact sample_stock_nonnegative|]. split.
  - eexists. eexists. split; [vm_compute; reflexivity|].
    split; [reflexivity|]. split; [reflexivity|].
    intros H.
    pose proof (H (BookRepository.applySet (Sample.stockPatch (-5)%Z) 2000%Z Sample.book1984)
                  (or_introl eq_refl)) as Hbad.
    vm_compute in Hbad. discriminate.
  - eexists. eexists. split; [vm_compute; reflexivity|].
    split; [reflexivity|].
    intros H.
    pose proof (H (BookRepository.bookToInsert
                     (Sample.newBook [Sample.orwellId] "978-0156421171" (-1)%Z) 2000%Z 5%N)
                  (or_intror (or_intror (or_introl eq_refl)))) as Hbad.
    vm_compute in Hbad. discriminate.
Qed.

(* ===================================================================== *)
(** ** updateBook (C10)                                                    *)
(* ===================================================================== *)

(** The existence probes [updateBook] issues: none when the request has no
    [authorIds]. *)
Lemma updateBook_validation_run w updateData :
  (forall ids i, UpdateBookRequest.authorIds updateData = Some ids ->
                 In i ids -> authorKnown w i = true) ->
  exists cs,
    match UpdateBookRequest.authorIds updateData with
    | Some authorIds => BookService.validateAuthorIds authorIds
    | None => succeed tt
    end w = (Success tt, logged w cs).
Proof.
  intros Hknown. destruct (UpdateBookRequest.authorIds updateData) as [ids|].
  - exists (probes ids). apply validateAuthorIds_all_known.
    intros i Hi. now apply (Hknown ids).
  - exists []. unfold succeed. now rewrite logged_nil.
Qed.

Lemma updateBook_run w id oid d updateData :
  Bson.fromString id = Some oid ->
  List.find (Mongo.hasBookId oid) (books w) = Some d ->
  (forall ids i, UpdateBookRequest.authorIds updateData = Some ids ->
                 In i ids -> authorKnown w i = true) ->
  exists l1 l2 cs,
    books w = (l1 ++ d :: l2)%list /\
    (forall x, In x l1 -> Mongo.hasBookId oid x = false) /\
    Mongo.hasBookId oid d = true /\
    BookService.updateBook id updateData w =
      (Success (Some (BookRepository.toBook
                        (BookRepository.applySet updateData (clock w) d))),
       rewritten w (l1 ++ BookRepository.applySet updateData (clock w) d :: l2) cs).
Proof.
  intros Hp Hfind Hknown.
  destruct (updateBook_validation_run w updateData Hknown) as (cs & Hval).
  destruct (updateFirst_found oid (BookRepository.applySet updateData (clock w)) _ _ Hfind)
    as (l1 & l2 & Hds & Hl1 & Hd & Hup).
  exists l1, l2, (cs ++ [BooksFindOneAndUpdate oid])%list.
  split; [exact Hds|]. split; [exact Hl1|]. split; [exact Hd|].
  unfold BookService.updateBook.
  rewrite (bind_success _ _ _ _ _ Hval).
  erewrite bookUpdate_run; [|exact Hp|exact Hup].
  now rewrite rewritten_logged.
Qed.

Lemma isbn_repeated l1 l2 (d' d2 : BookDoc.t) :
  In d2 (l1 ++ l2) -> BookDoc.isbn d2 = BookDoc.isbn d' ->
  ~ isbnUnique (l1 ++ d' :: l2).
Proof.
  intros Hin Heq Hnd. unfold isbnUnique in Hnd.
  rewrite map_app in Hnd. cbn [List.map] in Hnd.
  apply NoDup_remove_2 in Hnd. apply Hnd.
  rewrite <- map_app, <- Heq. now apply in_map.
Qed.

(** C10.  For a stored book [d] under [id] and a request whose author
    identifiers, if any, all denote stored authors, [updateBook] succeeds
    and returns [d] with the fields of the request merged in; the store
    holds that document in place of [d] and every other book as before.
    No ISBN check is made: when the request carries the ISBN of another
    stored book, two books share that ISBN afterwards. *)
Theorem updateBook_skips_isbn_check :
  forall w id d updateData,
    bookAt w id = Some d ->
    (forall ids i, UpdateBookRequest.authorIds updateData = Some ids ->
                   In i ids -> authorKnown w i = true) ->
    exists l1 l2 w',
      books w = (l1 ++ d :: l2)%list /\
      BookService.updateBook id updateData w =
        (Success (Some (BookRepository.toBook
                          (BookRepository.applySet updateData (clock w) d))), w') /\
      books w' = (l1 ++ BookRepository.applySet updateData (clock w) d :: l2)%list /\
      bookAt w' id = Some (BookRepository.applySet updateData (clock w) d) /\
      authors w' = authors w /\
      (forall x d2,
         UpdateBookRequest.isbn updateData = Some x ->
         In d2 (books w) -> BookDoc._id d2 <> BookDoc._id d -> BookDoc.isbn d2 = x ->
         ~ isbnUnique (books w')).
Proof.
  intros w id d updateData Hat Hknown.
  unfold bookAt in Hat.
  destruct (Bson.fromString id) as [oid|] eqn:Hp; [|discriminate].
  destruct (updateBook_run w id oid d updateData Hp Hat Hknown)
    as (l1 & l2 & cs & Hds & Hl1 & Hd & Hrun).
  exists l1, l2, (rewritten w (l1 ++ BookRepository.applySet updateData (clock w) d :: l2) cs).
  split; [exact Hds|]. split; [exact Hrun|]. split; [reflexivity|]. split; [|split].
  - unfold bookAt. rewrite Hp. cbn [books rewritten].
    apply find_after_prefix; [exact Hl1|]. exact Hd.
  - reflexivity.
  - intros x d2 Hx Hin Hne Hisbn. cbn [books rewritten].
    apply (isbn_repeated l1 l2 _ d2).
    + rewrite Hds in Hin. apply in_app_or in Hin. apply in_or_app.
      destruct Hin as [Hin|[Heq|Hin]]; [now left| |now right].
      subst d2. now contradiction Hne.
    + simpl. rewrite Hx. exact Hisbn.
Qed.

Lemma sample_isbn_unique : isbnUnique (books Sample.world).
Proof.
  unfold isbnUnique. simpl.
  constructor.
  - intros [H|[]]. discriminate H.
  - constructor; [intros []|constructor].
Qed.

(** Giving "Animal Farm" the ISBN of "1984" is accepted, and breaks the
    uniqueness that held before. *)
Lemma updateBook_skips_isbn_check_witness :
  isbnUnique (books Sample.world) /\
  exists w',
    BookService.updateBook Sample.animalFarmId (Sample.isbnPatch "978-0452284234")
      Sample.world
    = (Success (Some (BookRepository.toBook
         (BookRepository.applySet (Sample.isbnPatch "978-0452284234") 2000%Z
            Sample.animalFarm))), w') /\
    ~ isbnUnique (books w').
Proof.
  split; [exact sample_isbn_unique|].
  destruct (updateBook_skips_isbn_check Sample.world Sample.animalFarmId Sample.animalFarm
              (Sample.isbnPatch "978-0452284234"))
    as (l1 & l2 & w' & _ & Hrun & _ & _ & _ & Hdup).
  - reflexivity.
  - intros ids i Hids. discriminate Hids.
  - exists w'. split; [exact Hrun|].
    apply (Hdup "978-0452284234" Sample.book1984).
    + reflexivity.
    + simpl. left. reflexivity.
    + simpl. discriminate.
    + reflexivity.
Defined.

(* ===================================================================== *)
(** ** Strings                                                             *)
(* ===================================================================== *)

Lemma startsWith_iff : forall t s,
  Js.startsWith s t = true <-> exists post, s = t ++ post.
Proof.
  induction t as [|b t IH]; intros s.
  - destruct s; simpl; split; intros _; (reflexivity || (eexists; reflexivity)).
  - destruct s as [|a s]; simpl.
    + split; [discriminate|]. intros (post & H). discriminate H.
    + rewrite andb_true_iff, Ascii.eqb_eq, IH. split.
      * intros (-> & post & ->). now exists post.
      * intros (post & H). injection H as -> ->. split; [reflexivity|now exists post].
Qed.

Lemma includes_iff : forall s t, Js.includes s t = true <-> occursIn t s.
Proof.
  unfold occursIn. induction s as [|a s IH]; intros t.
  - cbn [Js.includes]. rewrite orb_false_r, startsWith_iff. split.
    + intros (post & H). exists EmptyString, post. exact H.
    + intros (pre & post & H). destruct pre as [|c pre]; [|discriminate H].
      exists post. exact H.
  - cbn [Js.includes]. rewrite orb_true_iff, startsWith_iff, IH. split.
    + intros [(post & H)|(pre & post & H)].
      * exists EmptyString, post. exact H.
      * exists (String a pre), post. simpl. now rewrite H.
    + intros (pre & post & H). destruct pre as [|c pre].
      * left. exists post. exact H.
      * right. simpl in H. injection H as _ H. now exists pre, post.
Qed.

Lemma toLowerCase_length s : String.length (Js.toLowerCase s) = String.length s.
Proof. induction s as [|a s IH]; simpl; [reflexivity|now rewrite IH]. Qed.

Lemma length_append (s t : string) :
  String.length (s ++ t) = (String.length s + String.length t)%nat.
Proof. induction s as [|a s IH]; simpl; [reflexivity|now rewrite IH]. Qed.

Lemma occursIn_empty s : occursIn EmptyString s.
Proof. exists EmptyString, s. reflexivity. Qed.

(** Only the empty string occurs in the empty string. *)
Lemma occursIn_empty_inv q : occursIn q EmptyString -> q = EmptyString.
Proof.
  intros (pre & post & H). destruct pre; [|discriminate H].
  destruct q; [reflexivity|discriminate H].
Qed.

Lemma containsIgnoringCase_iff field query :
  AuthorService.containsIgnoringCase field query = true <-> occursIgnoringCase query field.
Proof. unfold AuthorService.containsIgnoringCase, occursIgnoringCase. apply includes_iff. Qed.

(* ===================================================================== *)
(** ** getBooksByGenre (C9)                                                *)
(* ===================================================================== *)

(** C9.  [getBooksByGenre] lists the books once and returns, in store
    order, exactly those whose genre equals the argument once both are
    lower-cased; a book whose genre has the argument as a proper substring
    is not among them. *)
Theorem getBooksByGenre_exact :
  forall w genre,
    exists result,
      BookService.getBooksByGenre genre w = (Success result, logged w [BooksFindAll]) /\
      (forall b, In b result <->
                 In b (List.map BookRepository.toBook (books w)) /\
                 Js.toLowerCase (Book.genre b) = Js.toLowerCase genre) /\
      (forall b pre post,
         Book.genre b = pre ++ genre ++ post -> pre ++ post <> EmptyString ->
         ~ In b result).
Proof.
  intros w genre. eexists. split; [reflexivity|].
  assert (Hmem : forall b,
    In b (List.filter (fun book =>
            String.eqb (Js.toLowerCase (Book.genre book)) (Js.toLowerCase genre))
          (List.map BookRepository.toBook (books w))) <->
    In b (List.map BookRepository.toBook (books w)) /\
    Js.toLowerCase (Book.genre b) = Js.toLowerCase genre).
  { intros b. rewrite filter_In, String.eqb_eq. reflexivity. }
  split; [exact Hmem|].
  intros b pre post Hgenre Hproper Hin.
  apply Hmem in Hin. destruct Hin as [_ Heq].
  apply (f_equal String.length) in Heq.
  rewrite !toLowerCase_length, Hgenre, !length_append in Heq.
  assert (Hlen : String.length (pre ++ post) = 0%nat) by (rewrite length_append; lia).
  destruct (pre ++ post); [now apply Hproper|discriminate Hlen].
Qed.

(* ===================================================================== *)
(** ** searchAuthors (C8)                                                  *)
(* ===================================================================== *)

Lemma optionalContains_sound field query :
  AuthorService.optionalContains field query = true ->
  exists s, field = Some s /\ occursIgnoringCase query s.
Proof.
  destruct field as [s|]; simpl; [|discriminate].
  rewrite andb_true_iff, containsIgnoringCase_iff. intros [_ H]. now exists s.
Qed.

(** An optional field that is present and contains the query either makes
    the guarded comparison true, or is empty, in which case the query is
    empty too and every required field contains it. *)
Lemma optionalContains_or_empty s query :
  occursIgnoringCase query s ->
  AuthorService.optionalContains (Some s) query = true \/
  forall field, AuthorService.containsIgnoringCase field query = true.
Proof.
  intros Hocc. destruct s as [|a s].
  - right. intros field. apply containsIgnoringCase_iff.
    unfold occursIgnoringCase in *. simpl in Hocc.
    apply occursIn_empty_inv in Hocc. rewrite Hocc. apply occursIn_empty.
  - left. simpl. now apply containsIgnoringCase_iff.
Qed.

(** C8.  [searchAuthors] lists the authors once and returns, in store
    order, exactly those for which the query is a case-insensitive
    substring of the first name, the last name, the full name, the
    biography when there is one, or the nationality when there is one. *)
Theorem searchAuthors_fields :
  forall w query,
    AuthorService.searchAuthors query w =
      (Success (List.filter (AuthorService.searchPredicate query)
                  (List.map AuthorRepository.toAuthor (authors w))),
       logged w [AuthorsFindAll]) /\
    (forall a,
       AuthorService.searchPredicate query a = true <->
       occursIgnoringCase query (Author.firstName a) \/
       occursIgnoringCase query (Author.lastName a) \/
       occursIgnoringCase query (Author.fullName a) \/
       (exists b, Author.biography a = Some b /\ occursIgnoringCase query b) \/
       (exists n, Author.nationality a = Some n /\ occursIgnoringCase query n)).
Proof.
  intros w query. split; [reflexivity|].
  intros a. unfold AuthorService.searchPredicate.
  rewrite !orb_true_iff, !containsIgnoringCase_iff. split.
  - intros [[[[H|H]|H]|H]|H]; auto.
    + right; right; right; left. now apply optionalContains_sound.
    + right; right; right; right. now apply optionalContains_sound.
  - intros [H|[H|[H|[(b & Hb & H)|(n & Hn & H)]]]]; auto.
    + rewrite Hb. destruct (optionalContains_or_empty b query H) as [Ht|Hall]; auto.
      left; left; left; left. apply containsIgnoringCase_iff, Hall.
    + rewrite Hn. destruct (optionalContains_or_empty n query H) as [Ht|Hall]; auto.
      left; left; left; left. apply containsIgnoringCase_iff, Hall.
Qed.

(* ===================================================================== *)
(** ** searchBooks (C7)                                                    *)
(* ===================================================================== *)

Lemma newObjectIds_run ids : forall w,
  (forall id, In id ids -> wellFormedId id = true) ->
  Mongo.newObjectIds ids w = (Success (objectIds ids), w).
Proof.
  induction ids as [|id ids IH]; intros w Hwf; [reflexivity|].
  assert (Hid : wellFormedId id = true) by (apply Hwf; now left).
  unfold wellFormedId in Hid.
  destruct (Bson.fromString id) as [oid|] eqn:Hp; [|discriminate].
  cbn [Mongo.newObjectIds].
  rewrite (bind_success _ _ _ _ _ (newObjectId_ok _ _ _ Hp)).
  rewrite (bind_success _ _ _ _ _ (IH w (fun i Hi => Hwf i (or_intror Hi)))).
  unfold succeed, objectIds. cbn [flat_map]. rewrite Hp. reflexivity.
Qed.

Lemma getAuthorsByIds_run ids w :
  (forall id, In id ids -> wellFormedId id = true) ->
  AuthorService.getAuthorsByIds ids w =
    (Success (resolvedAuthors w ids), logged w [AuthorsFindIn (objectIds ids)]).
Proof.
  intros Hwf. unfold AuthorService.getAuthorsByIds, AuthorRepository.findByIds.
  rewrite (bind_success _ _ _ _ _ (newObjectIds_run _ _ Hwf)).
  reflexivity.
Qed.

Lemma in_objectIds oid ids :
  In oid (objectIds ids) <-> exists id, In id ids /\ Bson.fromString id = Some oid.
Proof.
  unfold objectIds. rewrite in_flat_map. split.
  - intros (id & Hin & H). exists id. split; [exact Hin|].
    destruct (Bson.fromString id) as [o|]; [|contradiction].
    destruct H as [->|[]]. reflexivity.
  - intros (id & Hin & H). exists id. split; [exact Hin|]. rewrite H. now left.
Qed.

Lemma in_resolvedAuthors w ids a :
  In a (resolvedAuthors w ids) <-> resolves w ids a.
Proof.
  unfold resolvedAuthors, resolves. rewrite in_map_iff. split.
  - intros (d & <- & Hd). apply filter_In in Hd. destruct Hd as [Hd Hex].
    apply existsb_exists in Hex. destruct Hex as (oid & Hoid & Heq).
    apply N.eqb_eq in Heq. subst oid.
    apply in_objectIds in Hoid. destruct Hoid as (id & Hid & Hp).
    exists d, id. repeat split; assumption.
  - intros (d & id & Hd & Hid & Hp & ->). exists d. split; [reflexivity|].
    apply filter_In. split; [exact Hd|].
    apply existsb_exists. exists (AuthorDoc._id d). split.
    + apply in_objectIds. now exists id.
    + apply N.eqb_refl.
Qed.

(** The loop over the books: each book is kept or dropped as [bookMatches]
    says, and the authors are resolved only for the books the title and
    genre test has not kept. *)
Lemma searchLoop_run query : forall ds filteredBooks w,
  (forall d id, In d ds -> In id (BookDoc.authorIds d) -> wellFormedId id = true) ->
  BookService.searchLoop query (List.map BookRepository.toBook ds) filteredBooks w =
    (Success (filteredBooks ++
                List.filter (bookMatches w query) (List.map BookRepository.toBook ds))%list,
     logged w (resolutions query ds)).
Proof.
  induction ds as [|d ds IH]; intros acc w Hwf.
  - simpl. unfold succeed. now rewrite app_nil_r, logged_nil.
  - assert (Hrest : forall d' id, In d' ds -> In id (BookDoc.authorIds d') ->
                                  wellFormedId id = true).
    { intros d' id Hd'. apply Hwf. now right. }
    cbn [List.map BookService.searchLoop List.filter resolutions flat_map].
    unfold bookMatches at 1.
    destruct (BookService.titleOrGenreMatches query (BookRepository.toBook d)) eqn:Htg.
    + cbn [orb]. rewrite (IH _ w Hrest). rewrite <- app_assoc. reflexivity.
    + cbn [orb].
      rewrite (bind_success _ _ _ _ _
                 (getAuthorsByIds_run (BookDoc.authorIds d) w
                    (fun id Hid => Hwf d id (or_introl eq_refl) Hid))).
      unfold Js.some. cbn [BookRepository.toBook Book.authorIds].
      destruct (existsb (BookService.authorNameMatches query)
                  (resolvedAuthors w (BookDoc.authorIds d))).
      * rewrite (IH _ _ Hrest). rewrite logged_logged, <- app_assoc. reflexivity.
      * rewrite (IH _ _ Hrest). rewrite logged_logged. reflexivity.
Qed.

Lemma authorNameMatches_iff query a :
  BookService.authorNameMatches query a = true <->
  occursIgnoringCase query (Author.firstName a) \/
  occursIgnoringCase query (Author.lastName a) \/
  occursIgnoringCase query (Author.fullName a).
Proof.
  unfold BookService.authorNameMatches, occursIgnoringCase.
  rewrite !orb_true_iff, !includes_iff. tauto.
Qed.

(** C7.  In a store whose books hold well-formed author references,
    [searchBooks] lists the books once and returns, in store order, exactly
    the books for which the query is a case-insensitive substring of the
    title or of the genre, or of the first, last or full name of an author
    resolved from the book's references.  Authors are resolved only for the
    books that the title and genre test has not already selected, and
    nothing is written. *)
Theorem searchBooks_matches :
  forall w query,
    referencesWellFormed w ->
    BookService.searchBooks query w =
      (Success (List.filter (bookMatches w query)
                  (List.map BookRepository.toBook (books w))),
       logged w (BooksFindAll :: resolutions query (books w))) /\
    (forall b,
       bookMatches w query b = true <->
       occursIgnoringCase query (Book.title b) \/
       occursIgnoringCase query (Book.genre b) \/
       (exists a, resolves w (Book.authorIds b) a /\
                  (occursIgnoringCase query (Author.firstName a) \/
                   occursIgnoringCase query (Author.lastName a) \/
                   occursIgnoringCase query (Author.fullName a)))).
Proof.
  intros w query Hwf. split.
  - unfold BookService.searchBooks.
    rewrite (bind_success _ _ _ _ _ (bookFindAll_run w)).
    rewrite searchLoop_run.
    + rewrite logged_logged. reflexivity.
    + exact Hwf.
  - intros b. unfold bookMatches, BookService.titleOrGenreMatches, occursIgnoringCase.
    rewrite !orb_true_iff, !includes_iff, existsb_exists. split.
    + intros [[H|H]|(a & Ha & Hm)]; auto.
      right; right. exists a. split; [now apply in_resolvedAuthors|].
      now apply authorNameMatches_iff.
    + intros [H|[H|(a & Ha & Hm)]]; auto.
      right. exists a. split; [now apply in_resolvedAuthors|].
      now apply authorNameMatches_iff.
Qed.

Lemma sample_references_well_formed : referencesWellFormed Sample.world.
Proof.
  intros d id [<-|[<-|[]]] [<-|[]]; reflexivity.
Qed.

(** "farm" selects "Animal Farm" by its title, so authors are resolved for
    "1984" only; "orwell" selects both books through their author. *)
Lemma searchBooks_matches_witness :
  BookService.searchBooks "farm" Sample.world =
    (Success [BookRepository.toBook Sample.animalFarm],
     logged Sample.world [BooksFindAll; AuthorsFindIn [1%N]]) /\
  BookService.searchBooks "orwell" Sample.world =
    (Success [BookRepository.toBook Sample.book1984;
              BookRepository.toBook Sample.animalFarm],
     logged Sample.world [BooksFindAll; AuthorsFindIn [1%N]; AuthorsFindIn [1%N]]).
Proof.
  split.
  - destruct (searchBooks_matches Sample.world "farm" sample_references_well_formed)
      as [Hrun _].
    rewrite Hrun. reflexivity.
  - destruct (searchBooks_matches Sample.world "orwell" sample_references_well_formed)
      as [Hrun _].
    rewrite Hrun. reflexivity.
Defined.

(* ===================================================================== *)
(** ** getBooksByAuthor (C6)                                               *)
(* ===================================================================== *)

(** What a successful [findByName] has done: compiled the name as a
    pattern, sent one query, and returned the authors the pattern selects. *)
Lemma findByName_success name w matching w1 :
  AuthorRepository.findByName name w = (Success matching, w1) ->
  exists r,
    matching = List.map AuthorRepository.toAuthor
                 (List.filter (Mongo.nameMatches r) (authors w)) /\
    w1 = logged w [AuthorsFindByName name].
Proof.
  unfold AuthorRepository.findByName, Mongo.newRegExp, bind.
  destruct (RegExp.compile name) as [r| |]; cbn; try discriminate.
  - intros H. injection H as <- <-. exists (RegExp.test true r). split; reflexivity.
  - destruct (engine w name) as [r|]; [|discriminate].
    intros H. injection H as <- <-. exists r. split; reflexivity.
Qed.

Lemma hexDigits_length n : forall v acc,
  String.length (Bson.hexDigits n v acc) = (n + String.length acc)%nat.
Proof.
  induction n as [|n IH]; intros v acc; simpl; [reflexivity|].
  rewrite IH. simpl. lia.
Qed.

(** An identifier rendered by the store is never the empty string, so
    [.filter(Boolean)] keeps it. *)
Lemma toString_truthy oid : Js.truthy (Bson.toString oid) = true.
Proof.
  pose proof (hexDigits_length 24 oid EmptyString) as Hlen.
  unfold Bson.toString. destruct (Bson.hexDigits 24 oid EmptyString); [discriminate Hlen|reflexivity].
Qed.

Lemma filterBoolean_stored ds :
  BookService.filterBoolean (List.map Author._id (List.map AuthorRepository.toAuthor ds)) =
  List.map (fun d => Bson.toString (AuthorDoc._id d)) ds.
Proof.
  induction ds as [|d ds IH]; [reflexivity|].
  cbn [List.map BookService.filterBoolean AuthorRepository.toAuthor Author._id].
  now rewrite toString_truthy, IH.
Qed.

Lemma sharesAuthor_stored ds book :
  Js.some (fun authorId =>
      Js.arrayIncludes (List.map (fun d => Bson.toString (AuthorDoc._id d)) ds) authorId)
    (Book.authorIds book) =
  sharesAuthor (List.map AuthorRepository.toAuthor ds) book.
Proof.
  unfold Js.some, sharesAuthor, Js.arrayIncludes.
  induction (Book.authorIds book) as [|id ids IH]; [reflexivity|].
  cbn [existsb]. rewrite IH. f_equal.
  clear. induction ds as [|d ds IH]; [reflexivity|].
  cbn [List.map existsb AuthorRepository.toAuthor Author._id]. now rewrite IH.
Qed.

Lemma sharesAuthor_iff matching book :
  sharesAuthor matching book = true <->
  exists id a, In id (Book.authorIds book) /\ In a matching /\ Author._id a = Some id.
Proof.
  unfold sharesAuthor. rewrite existsb_exists. split.
  - intros (id & Hid & Hex). apply existsb_exists in Hex.
    destruct Hex as (a & Ha & Heq). exists id, a.
    destruct (Author._id a) as [i|]; [|discriminate].
    apply String.eqb_eq in Heq. subst i. repeat split; assumption.
  - intros (id & a & Hid & Ha & Heq). exists id. split; [exact Hid|].
    apply existsb_exists. exists a. split; [exact Ha|].
    rewrite Heq. apply String.eqb_refl.
Qed.

(** C6.  Suppose [getAuthorsByName] succeeds with the authors [matching].
    If there are none, [getBooksByAuthor] succeeds with the empty list and
    sends no further query: the books are not listed.  Otherwise it lists
    the books once and returns, in store order, exactly the books one of
    whose author identifiers is the identifier of a matching author. *)
Theorem getBooksByAuthor_join :
  forall w authorName matching w1,
    AuthorService.getAuthorsByName authorName w = (Success matching, w1) ->
    (matching = [] ->
       BookService.getBooksByAuthor authorName w = (Success [], w1) /\
       calls w1 = (calls w ++ [AuthorsFindByName authorName])%list) /\
    (matching <> [] ->
       BookService.getBooksByAuthor authorName w =
         (Success (List.filter (sharesAuthor matching)
                     (List.map BookRepository.toBook (books w))),
          logged w1 [BooksFindAll])) /\
    (forall b,
       sharesAuthor matching b = true <->
       exists id a, In id (Book.authorIds b) /\ In a matching /\ Author._id a = Some id).
Proof.
  intros w authorName matching w1 Hnames.
  destruct (findByName_success _ _ _ _ Hnames) as (r & Hm & Hw1).
  assert (Hstep : BookService.getBooksByAuthor authorName w =
    (if Nat.eqb (List.length (List.filter (Mongo.nameMatches r) (authors w))) 0
     then succeed []
     else bind BookRepository.findAll (fun allBooks =>
            succeed (List.filter (sharesAuthor matching) allBooks))) w1).
  { unfold BookService.getBooksByAuthor.
    rewrite (bind_success _ _ _ _ _ Hnames). rewrite Hm.
    rewrite filterBoolean_stored, length_map.
    destruct (Nat.eqb _ 0); [reflexivity|].
    unfold bind. destruct (BookRepository.findAll w1) as [[allBooks| |] w2]; try reflexivity.
    unfold succeed. f_equal. f_equal.
    apply filter_ext. intros b. apply sharesAuthor_stored. }
  split; [|split].
  - intros Hnil. rewrite Hstep. rewrite Hnil in Hm.
    symmetry in Hm. apply map_eq_nil in Hm. rewrite Hm. cbn [List.length Nat.eqb].
    split; [reflexivity|]. rewrite Hw1. reflexivity.
  - intros Hne. rewrite Hstep.
    destruct (List.filter (Mongo.nameMatches r) (authors w)) as [|d ds] eqn:Hf.
    + now contradiction Hne.
    + cbn [List.length Nat.eqb].
      rewrite (bind_success _ _ _ _ _ (bookFindAll_run w1)).
      rewrite Hw1. reflexivity.
  - intros b. apply sharesAuthor_iff.
Qed.

(** No author is called "zzz": the books are not listed.  "orwell" selects
    George Orwell, whose identifier both books carry. *)
Lemma getBooksByAuthor_join_witness :
  BookService.getBooksByAuthor "zzz" Sample.world =
    (Success [], logged Sample.world [AuthorsFindByName "zzz"]) /\
  BookService.getBooksByAuthor "orwell" Sample.world =
    (Success [BookRepository.toBook Sample.book1984;
              BookRepository.toBook Sample.animalFarm],
     logged Sample.world [AuthorsFindByName "orwell"; BooksFindAll]).
Proof.
  split.
  - destruct (getBooksByAuthor_join Sample.world "zzz" []
                (logged Sample.world [AuthorsFindByName "zzz"]) eq_refl)
      as (Hnone & _ & _).
    destruct (Hnone eq_refl) as [Hrun _]. exact Hrun.
  - destruct (getBooksByAuthor_join Sample.world "orwell"
                [AuthorRepository.toAuthor Sample.orwell]
                (logged Sample.world [AuthorsFindByName "orwell"]) eq_refl)
      as (_ & Hsome & _).
    rewrite Hsome; [reflexivity|discriminate].
Defined.

(* ===================================================================== *)
(** ** createAuthor and the name lookup (C5)                               *)
(* ===================================================================== *)

(** C5 does not hold of the code.  The duplicate check searches only among
    the authors [findByName] returns, and [findByName] reads the candidate
    full name as a regular expression.
    - The store holds "John Smith (Jr)".  As a pattern that name matches
      "John Smith Jr" and not itself, so the lookup returns nobody and
      [createAuthor] stores a second author with the same full name.
    - "Smith (Jr" equals no stored full name, but it is not a valid
      pattern: the lookup throws, the fiber dies, and nothing is stored. *)
Theorem createAuthor_reads_name_as_pattern :
  (exists d, In d (authors Sample.world) /\
             Js.toLowerCase (AuthorDoc.fullName d) = Js.toLowerCase "John Smith (Jr)") /\
  (exists a w',
     AuthorService.createAuthor (Sample.newAuthor "John Smith (Jr)") Sample.world
       = (Success a, w') /\
     authors w' =
       (authors Sample.world ++
        [AuthorRepository.authorToInsert (Sample.newAuthor "John Smith (Jr)") 2000%Z 5%N])%list) /\
  (forall d, In d (authors Sample.world) ->
             Js.toLowerCase (AuthorDoc.fullName d) <> Js.toLowerCase "Smith (Jr") /\
  AuthorService.createAuthor (Sample.newAuthor "Smith (Jr") Sample.world
    = (Die (RegExpSyntaxError "Smith (Jr"), Sample.world).
Proof.
  split; [|split; [|split]].
  - exists Sample.smith. split; [right; left; reflexivity|reflexivity].
  - eexists. eexists. split; [vm_compute; reflexivity|reflexivity].
  - intros d [<-|[<-|[]]]; discriminate.
  - reflexivity.
Qed.

(* ===================================================================== *)
(** ** Well-formed references are an invariant of the book service         *)
(* ===================================================================== *)

(** Well-formedness of the stored references holds in the empty store and
    is kept by every operation of the book service that writes, whatever
    the outcome of the operation: a book only ever receives author
    identifiers that the validation loop has looked up. *)

(** The validation loop either succeeds, and then every identifier denotes
    a stored author, or it ends otherwise and has written nothing. *)
Lemma validateAuthorIds_cases ids : forall w,
  (BookService.validateAuthorIds ids w = (Success tt, logged w (probes ids)) /\
   forall id, In id ids -> authorKnown w id = true) \/
  (exists e w1,
     BookService.validateAuthorIds ids w = (e, w1) /\ isSuccess e = false /\
     books w1 = books w /\ authors w1 = authors w).
Proof.
  induction ids as [|id ids IH]; intros w.
  - left. split; [|intros id []]. simpl. unfold succeed. now rewrite logged_nil.
  - cbn [BookService.validateAuthorIds].
    destruct (Bson.fromString id) as [oid|] eqn:Hp.
    + rewrite (bind_success _ _ _ _ _ (validateAuthorExists_run _ _ _ Hp)).
      destruct (authorKnown w id) eqn:Hk; cbn [negb failWhen].
      * unfold bind at 1. unfold succeed at 1.
        destruct (IH (logged w [AuthorsFindOne oid])) as [[Hrun Hall]|(e & w1 & Hrun & He & Hb & Ha)].
        -- left. split.
           ++ rewrite Hrun, logged_logged. unfold probes. cbn [flat_map]. now rewrite Hp.
           ++ intros i [<-|Hi]; [exact Hk|]. now apply Hall.
        -- right. exists e, w1. repeat split; assumption.
      * right. eexists. eexists. split; [reflexivity|]. repeat split.
    + right. exists (Die (BSONError id)), w. split; [|repeat split].
      unfold bind. now rewrite (validateAuthorExists_malformed _ _ Hp).
Qed.

Lemma bookCreate_books bookData w :
  books (snd (BookRepository.create bookData w)) =
  (books w ++ [BookRepository.bookToInsert bookData (clock w) (nextOid w)])%list.
Proof.
  unfold BookRepository.create, bind, Mongo.newDate, Mongo.booksInsertOne, bind,
    Mongo.record, Mongo.freshOid, Mongo.getBooks, Mongo.putBooks, succeed,
    Mongo.booksFindOne, bind, Mongo.record, Mongo.getBooks, succeed.
  cbn. destruct (List.find _ _); reflexivity.
Qed.

Lemma createBook_books bookData w :
  books (snd (BookService.createBook bookData w)) = books w \/
  ((forall id, In id (CreateBookRequest.authorIds bookData) -> wellFormedId id = true) /\
   books (snd (BookService.createBook bookData w)) =
     (books w ++ [BookRepository.bookToInsert bookData (clock w) (nextOid w)])%list).
Proof.
  unfold BookService.createBook.
  destruct (validateAuthorIds_cases (CreateBookRequest.authorIds bookData) w)
    as [[Hrun Hall]|(e & w1 & Hrun & He & Hb & _)].
  - rewrite (bind_success _ _ _ _ _ Hrun).
    rewrite (bind_success _ _ _ _ _ (map_success _ _ _ _ _ (bookFindAll_run _))).
    destruct (isSome _); cbn [failWhen].
    + left. reflexivity.
    + right. split.
      * intros id Hid. apply (authorKnown_wellFormed w). now apply Hall.
      * unfold bind at 1. unfold succeed at 1. rewrite bookCreate_books. reflexivity.
  - left. unfold bind. rewrite Hrun. destruct e; try discriminate He; exact Hb.
Qed.

Lemma createBook_keeps_references bookData w :
  referencesWellFormed w ->
  referencesWellFormed (snd (BookService.createBook bookData w)).
Proof.
  intros Hwf d id Hd Hid.
  destruct (createBook_books bookData w) as [Hsame|[Hall Hnew]].
  - rewrite Hsame in Hd. now apply (Hwf d).
  - rewrite Hnew in Hd. apply in_app_or in Hd. destruct Hd as [Hd|[<-|[]]].
    + now apply (Hwf d).
    + now apply Hall.
Qed.

Lemma updateFirst_members oid f : forall ds d' ds',
  Mongo.updateFirst oid f ds = Some (d', ds') ->
  forall x, In x ds' -> In x ds \/ exists d, In d ds /\ x = f d.
Proof.
  induction ds as [|y ds IH]; intros d' ds' Hup x Hx; [discriminate Hup|].
  simpl in Hup. destruct (Mongo.hasBookId oid y).
  - injection Hup as <- <-. destruct Hx as [<-|Hx].
    + right. exists y. split; [now left|reflexivity].
    + left. now right.
  - destruct (Mongo.updateFirst oid f ds) as [[d1 ds1]|] eqn:Hrec; [|discriminate Hup].
    injection Hup as <- <-. destruct Hx as [<-|Hx]; [left; now left|].
    destruct (IH _ _ eq_refl x Hx) as [Hin|(d & Hd & ->)].
    + left. now right.
    + right. exists d. split; [now right|reflexivity].
Qed.

(** Every book after [BookRepository.update] is a book from before, or one
    from before with the request merged in. *)
Lemma bookUpdate_members id updateData w x :
  In x (books (snd (BookRepository.update id updateData w))) ->
  In x (books w) \/
  exists d, In d (books w) /\ x = BookRepository.applySet updateData (clock w) d.
Proof.
  unfold BookRepository.update, bind, Mongo.newDate, Mongo.newObjectId.
  destruct (Bson.fromString id) as [oid|]; [|cbn; now left].
  unfold succeed, map, Mongo.booksFindOneAndUpdate, bind, Mongo.record, Mongo.getBooks.
  cbn [books].
  destruct (Mongo.updateFirst oid (BookRepository.applySet updateData (clock w)) (books w))
    as [[d' ds']|] eqn:Hup; cbn; [|now left].
  intros Hx. exact (updateFirst_members _ _ _ _ _ Hup x Hx).
Qed.

Lemma updateBook_keeps_references id updateData w :
  referencesWellFormed w ->
  referencesWellFormed (snd (BookService.updateBook id updateData w)).
Proof.
  intros Hwf x i Hx Hi. unfold BookService.updateBook in Hx.
  destruct (UpdateBookRequest.authorIds updateData) as [ids|] eqn:Hids.
  - destruct (validateAuthorIds_cases ids w)
      as [[Hrun Hall]|(e & w1 & Hrun & He & Hb & _)].
    + rewrite (bind_success _ _ _ _ _ Hrun) in Hx.
      apply bookUpdate_members in Hx. destruct Hx as [Hx|(d & Hd & ->)].
      * now apply (Hwf x).
      * simpl in Hi. rewrite Hids in Hi. simpl in Hi.
        apply (authorKnown_wellFormed w). now apply Hall.
    + unfold bind in Hx. rewrite Hrun in Hx.
      destruct e; try discriminate He; cbn [snd] in Hx; rewrite Hb in Hx;
        now apply (Hwf x).
  - unfold bind at 1 in Hx. unfold succeed at 1 in Hx.
    apply bookUpdate_members in Hx. destruct Hx as [Hx|(d & Hd & ->)].
    + now apply (Hwf x).
    + simpl in Hi. rewrite Hids in Hi. simpl in Hi. now apply (Hwf d).
Qed.

Lemma updateStock_keeps_references id quantity w :
  referencesWellFormed w ->
  referencesWellFormed (snd (BookService.updateStock id quantity w)).
Proof.
  intros Hwf x i Hx Hi. unfold BookService.updateStock, bind in Hx.
  destruct (BookRepository.findById id w) as [[book| |] w1] eqn:Hfind;
    try (assert (Hb : books w1 = books w);
         [unfold BookRepository.findById, bind, Mongo.newObjectId in Hfind;
          destruct (Bson.fromString id); cbn in Hfind; injection Hfind as _ <-; reflexivity|];
         cbn [snd] in Hx; rewrite Hb in Hx; now apply (Hwf x)).
  assert (Hb : books w1 = books w /\ clock w1 = clock w).
  { unfold BookRepository.findById, bind, Mongo.newObjectId in Hfind.
    destruct (Bson.fromString id); cbn in Hfind; [|discriminate Hfind].
    injection Hfind as _ <-. split; reflexivity. }
  destruct Hb as [Hb Hc].
  destruct book as [currentBook|]; [|cbn [snd succeed] in Hx; rewrite Hb in Hx; now apply (Hwf x)].
  destruct (Js.lt (Js.add (Book.stock currentBook) quantity) (Js.ofZ 0));
    cbn [failWhen fail succeed snd] in Hx.
  - rewrite Hb in Hx. now apply (Hwf x).
  - apply bookUpdate_members in Hx. rewrite Hb in Hx.
    destruct Hx as [Hx|(d & Hd & ->)]; [now apply (Hwf x)|].
    simpl in Hi. now apply (Hwf d).
Qed.

Lemma removeFirst_members oid : forall ds ds',
  Mongo.removeFirst oid ds = Some ds' -> forall x, In x ds' -> In x ds.
Proof.
  induction ds as [|y ds IH]; intros ds' Hrm x Hx; [discriminate Hrm|].
  simpl in Hrm. destruct (Mongo.hasBookId oid y).
  - injection Hrm as <-. now right.
  - destruct (Mongo.removeFirst oid ds) as [ds1|]; [|discriminate Hrm].
    injection Hrm as <-. destruct Hx as [<-|Hx]; [now left|].
    right. now apply (IH ds1).
Qed.

Lemma deleteBook_keeps_references id w :
  referencesWellFormed w ->
  referencesWellFormed (snd (BookService.deleteBook id w)).
Proof.
  intros Hwf x i Hx Hi.
  unfold BookService.deleteBook, BookRepository.delete, bind, Mongo.newObjectId in Hx.
  destruct (Bson.fromString id) as [oid|]; [|now apply (Hwf x)].
  unfold succeed, map, Mongo.booksDeleteOne, bind, Mongo.record, Mongo.getBooks in Hx.
  cbn [books] in Hx.
  destruct (Mongo.removeFirst oid (books w)) as [ds'|] eqn:Hrm; cbn in Hx.
  - apply (Hwf x); [|exact Hi]. exact (removeFirst_members _ _ _ Hrm x Hx).
  - now apply (Hwf x).
Qed.

Lemma empty_store_references_well_formed now oid :
  referencesWellFormed (mkWorld [] [] now oid [] (fun _ => None)).
Proof. intros d id []. Qed.

(* ===================================================================== *)
(** ** The pattern matcher against its declarative reading                 *)
(* ===================================================================== *)

Section Matcher.

Variable ignoreCase : bool.

Lemma append_empty_r (s : string) : s ++ EmptyString = s.
Proof. induction s as [|a s IH]; simpl; [reflexivity|now rewrite IH]. Qed.

Lemma append_assoc (s t u : string) : (s ++ t) ++ u = s ++ t ++ u.
Proof. induction s as [|a s IH]; simpl; [reflexivity|now rewrite IH]. Qed.

Lemma append_eq_empty (s t : string) :
  s ++ t = EmptyString -> s = EmptyString /\ t = EmptyString.
Proof. destruct s; simpl; [now split|discriminate]. Qed.

Lemma matches_seq_inv r1 r2 s :
  matches ignoreCase (RegExp.Seq r1 r2) s ->
  exists s1 s2, s = s1 ++ s2 /\ matches ignoreCase r1 s1 /\ matches ignoreCase r2 s2.
Proof. intros H. inversion H; subst. eauto. Qed.

Lemma matches_alt_inv r1 r2 s :
  matches ignoreCase (RegExp.Alt r1 r2) s ->
  matches ignoreCase r1 s \/ matches ignoreCase r2 s.
Proof. intros H. inversion H; subst; auto. Qed.

Lemma matches_char_inv a s :
  matches ignoreCase (RegExp.Char a) s ->
  exists c, s = String c EmptyString /\ RegExp.sameChar ignoreCase a c = true.
Proof. intros H. inversion H; subst. eauto. Qed.

Lemma matches_never_inv s : ~ matches ignoreCase RegExp.Never s.
Proof. intros H. inversion H. Qed.

Lemma matches_empty_inv s : matches ignoreCase RegExp.Empty s -> s = EmptyString.
Proof. intros H. now inversion H. Qed.

Lemma nullable_iff r :
  RegExp.nullable r = true <-> matches ignoreCase r EmptyString.
Proof.
  induction r as [| |a|r1 IH1 r2 IH2|r1 IH1 r2 IH2|r IH]; simpl.
  - split; [discriminate|]. intros H. now apply matches_never_inv in H.
  - split; [intros _; constructor|reflexivity].
  - split; [discriminate|]. intros H.
    apply matches_char_inv in H. destruct H as (c & Heq & _). discriminate Heq.
  - rewrite andb_true_iff, IH1, IH2. split.
    + intros [H1 H2]. change EmptyString with (EmptyString ++ EmptyString).
      now constructor.
    + intros H. apply matches_seq_inv in H. destruct H as (s1 & s2 & Heq & H1 & H2).
      symmetry in Heq. apply append_eq_empty in Heq. destruct Heq as [-> ->]. now split.
  - rewrite orb_true_iff, IH1, IH2. split.
    + intros [H|H]; [now apply MatchLeft|now apply MatchRight].
    + apply matches_alt_inv.
  - split; [intros _; constructor|reflexivity].
Qed.

(** A non-empty match of [Star r] starts with a non-empty match of [r]. *)
Lemma star_unfold r s :
  matches ignoreCase (RegExp.Star r) s ->
  forall c s', s = String c s' ->
  exists s1 s2,
    s' = s1 ++ s2 /\ matches ignoreCase r (String c s1) /\
    matches ignoreCase (RegExp.Star r) s2.
Proof.
  intros H. remember (RegExp.Star r) as r0 eqn:Hr0.
  induction H as [| | | | | r1 | r1 s1 s2 H1 _ H2 IH2]; try discriminate Hr0.
  - intros c s' Heq. discriminate Heq.
  - injection Hr0 as ->. intros c s' Heq. destruct s1 as [|a s1].
    + simpl in Heq. now apply IH2.
    + simpl in Heq. injection Heq as -> <-. now exists s1, s2.
Qed.

Lemma residual_iff r : forall c s,
  matches ignoreCase (RegExp.residual ignoreCase c r) s <->
  matches ignoreCase r (String c s).
Proof.
  induction r as [| |a|r1 IH1 r2 IH2|r1 IH1 r2 IH2|r IH]; intros c s; simpl.
  - split; intros H; now apply matches_never_inv in H.
  - split; intros H; [now apply matches_never_inv in H|].
    apply matches_empty_inv in H. discriminate H.
  - destruct (RegExp.sameChar ignoreCase a c) eqn:Hs; split; intros H.
    + apply matches_empty_inv in H. subst s. now constructor.
    + apply matches_char_inv in H. destruct H as (c' & Heq & _).
      injection Heq as _ ->. constructor.
    + now apply matches_never_inv in H.
    + apply matches_char_inv in H. destruct H as (c' & Heq & Hc').
      injection Heq as <- _. congruence.
  - split.
    + intros H. apply matches_alt_inv in H. destruct H as [H|H].
      * apply matches_seq_inv in H. destruct H as (s1 & s2 & -> & Ha & Hb).
        apply IH1 in Ha.
        change (String c (s1 ++ s2)) with (String c s1 ++ s2). now constructor.
      * destruct (RegExp.nullable r1) eqn:Hn; [|now apply matches_never_inv in H].
        apply IH2 in H. apply nullable_iff in Hn.
        change (String c s) with (EmptyString ++ String c s). now constructor.
    + intros H. apply matches_seq_inv in H. destruct H as (s1 & s2 & Heq & Ha & Hb).
      destruct s1 as [|a s1]; simpl in Heq.
      * subst s2. apply MatchRight. apply nullable_iff in Ha. rewrite Ha.
        now apply IH2.
      * injection Heq as <- ->. apply MatchLeft. constructor; [now apply IH1|exact Hb].
  - split; intros H; apply matches_alt_inv in H; destruct H as [H|H];
      (apply MatchLeft; now apply IH1) || (apply MatchRight; now apply IH2).
  - split.
    + intros H. apply matches_seq_inv in H. destruct H as (s1 & s2 & -> & Ha & Hb).
      apply IH in Ha.
      change (String c (s1 ++ s2)) with (String c s1 ++ s2). now constructor.
    + intros H. destruct (star_unfold _ _ H c s eq_refl) as (s1 & s2 & -> & Ha & Hb).
      constructor; [now apply IH|exact Hb].
Qed.

Lemma matchesAtStart_iff : forall s r,
  RegExp.matchesAtStart ignoreCase r s = true <->
  exists m post, s = m ++ post /\ matches ignoreCase r m.
Proof.
  induction s as [|c s IH]; intros r; cbn [RegExp.matchesAtStart].
  - rewrite orb_false_r, nullable_iff. split.
    + intros H. now exists EmptyString, EmptyString.
    + intros (m & post & Heq & H). symmetry in Heq.
      apply append_eq_empty in Heq. destruct Heq as [-> _]. exact H.
  - rewrite orb_true_iff, nullable_iff, IH. split.
    + intros [H|(m & post & -> & H)].
      * now exists EmptyString, (String c s).
      * exists (String c m), post. split; [reflexivity|now apply residual_iff].
    + intros (m & post & Heq & H). destruct m as [|a m].
      * now left.
      * simpl in Heq. injection Heq as <- ->. right.
        exists m, post. split; [reflexivity|now apply residual_iff].
Qed.

Lemma test_iff : forall s r,
  RegExp.test ignoreCase r s = true <->
  exists pre m post, s = pre ++ m ++ post /\ matches ignoreCase r m.
Proof.
  induction s as [|c s IH]; intros r; cbn [RegExp.test].
  - rewrite orb_false_r, matchesAtStart_iff. split.
    + intros (m & post & Heq & H). now exists EmptyString, m, post.
    + intros (pre & m & post & Heq & H). destruct pre; [|discriminate Heq].
      now exists m, post.
  - rewrite orb_true_iff, matchesAtStart_iff, IH. split.
    + intros [(m & post & Heq & H)|(pre & m & post & -> & H)].
      * now exists EmptyString, m, post.
      * now exists (String c pre), m, post.
    + intros (pre & m & post & Heq & H). destruct pre as [|a pre].
      * left. now exists m, post.
      * simpl in Heq. injection Heq as <- ->. right. now exists pre, m, post.
Qed.

End Matcher.

(* ===================================================================== *)
(** ** Names without pattern syntax                                        *)
(* ===================================================================== *)

(** For a name made of ordinary characters the name lookup is the
    case-insensitive substring search it is meant to be, and [createAuthor]
    enforces the uniqueness of full names. *)

Lemma parse_plain : forall s ts p,
  plainName s = true ->
  RegExp.parse s (RegExp.mkFrame [] ts p) [] =
    RegExp.Pattern (fold_left (fun acc t => RegExp.Seq t acc) ts (literal s)).
Proof.
  induction s as [|c s IH]; intros ts p Hplain; [reflexivity|].
  cbn [plainName] in Hplain. apply andb_true_iff in Hplain. destruct Hplain as [Hc Hs].
  unfold plainChar in Hc. rewrite negb_true_iff, !orb_false_iff in Hc.
  destruct Hc as [[[[H1 H2] H3] H4] H5].
  cbn [RegExp.parse]. rewrite H1, H2, H3, H4, H5.
  unfold RegExp.pushTerm. cbn [RegExp.closed RegExp.terms].
  rewrite (IH _ _ Hs). reflexivity.
Qed.

Lemma compile_plain s :
  plainName s = true -> RegExp.compile s = RegExp.Pattern (literal s).
Proof. intros H. unfold RegExp.compile, RegExp.emptyFrame. now rewrite parse_plain. Qed.

Lemma matches_literal : forall p m,
  matches true (literal p) m <-> Js.toLowerCase m = Js.toLowerCase p.
Proof.
  induction p as [|c p IH]; intros m; cbn [literal Js.toLowerCase].
  - split.
    + intros H. apply matches_empty_inv in H. now subst m.
    + intros H. destruct m; [constructor|discriminate H].
  - split.
    + intros H. apply matches_seq_inv in H. destruct H as (s1 & s2 & -> & Ha & Hb).
      apply matches_char_inv in Ha. destruct Ha as (a & -> & Hsame).
      apply IH in Hb. simpl. rewrite Hb.
      unfold RegExp.sameChar in Hsame. apply Ascii.eqb_eq in Hsame. now rewrite Hsame.
    + intros H. destruct m as [|a m]; [discriminate H|].
      simpl in H. injection H as Ha Hm.
      change (String a m) with (String a EmptyString ++ m).
      constructor; [|now apply IH].
      constructor. unfold RegExp.sameChar. rewrite Ha. apply Ascii.eqb_refl.
Qed.

Lemma toLowerCase_append s t :
  Js.toLowerCase (s ++ t) = Js.toLowerCase s ++ Js.toLowerCase t.
Proof. induction s as [|a s IH]; simpl; [reflexivity|now rewrite IH]. Qed.

Lemma toLowerCase_split : forall x s y,
  Js.toLowerCase s = x ++ y ->
  exists a b, s = a ++ b /\ Js.toLowerCase a = x /\ Js.toLowerCase b = y.
Proof.
  induction x as [|c x IH]; intros s y H.
  - exists EmptyString, s. now repeat split.
  - destruct s as [|a s]; [discriminate H|].
    simpl in H. injection H as Hc Hs.
    destruct (IH _ _ Hs) as (a' & b & -> & <- & <-).
    exists (String a a'), b. repeat split. simpl. now rewrite Hc.
Qed.

(** On a literal pattern, [test] under the [i] flag is case-insensitive
    substring search. *)
Lemma test_literal p s :
  RegExp.test true (literal p) s = true <-> occursIgnoringCase p s.
Proof.
  rewrite test_iff. unfold occursIgnoringCase, occursIn. split.
  - intros (pre & m & post & -> & Hm). apply matches_literal in Hm.
    exists (Js.toLowerCase pre), (Js.toLowerCase post).
    now rewrite !toLowerCase_append, Hm.
  - intros (pre & post & H).
    destruct (toLowerCase_split _ _ _ H) as (a & b & -> & _ & Hb).
    destruct (toLowerCase_split _ _ _ Hb) as (m & c & -> & Hm & _).
    exists a, m, c. split; [reflexivity|]. now apply matches_literal.
Qed.

Lemma findByName_plain name w :
  plainName name = true ->
  AuthorRepository.findByName name w =
    (Success (List.map AuthorRepository.toAuthor
                (List.filter (Mongo.nameMatches (RegExp.test true (literal name))) (authors w))),
     logged w [AuthorsFindByName name]).
Proof.
  intros Hplain. unfold AuthorRepository.findByName, Mongo.newRegExp.
  rewrite (compile_plain _ Hplain). reflexivity.
Qed.

(** Case-insensitive substring search on the three name fields: what
    [getAuthorsByName] selects for a name without pattern syntax. *)
Lemma nameMatches_literal name d :
  Mongo.nameMatches (RegExp.test true (literal name)) d = true <->
  occursIgnoringCase name (AuthorDoc.firstName d) \/
  occursIgnoringCase name (AuthorDoc.lastName d) \/
  occursIgnoringCase name (AuthorDoc.fullName d).
Proof.
  unfold Mongo.nameMatches. rewrite !orb_true_iff, !test_literal. tauto.
Qed.

Lemma authorCreate_run authorData w :
  exists d,
    AuthorRepository.create authorData w =
      (Success (AuthorRepository.toAuthor d),
       mkWorld (authors w ++ [AuthorRepository.authorToInsert authorData (clock w) (nextOid w)])
         (books w) (clock w) (N.succ (nextOid w))
         (calls w ++ [AuthorsInsertOne; AuthorsFindOne (nextOid w)]) (engine w)).
Proof.
  unfold AuthorRepository.create, bind, Mongo.newDate, Mongo.authorsInsertOne, bind,
    Mongo.record, Mongo.freshOid, Mongo.getAuthors, Mongo.putAuthors, succeed,
    Mongo.authorsFindOne, bind, Mongo.record, Mongo.getAuthors, succeed.
  cbn.
  destruct (List.find (Mongo.hasAuthorId (nextOid w))
              (authors w ++ [AuthorRepository.authorToInsert authorData (clock w) (nextOid w)]))
    as [d|] eqn:Hfind.
  - exists d. rewrite <- app_assoc. reflexivity.
  - exfalso.
    assert (Hin : In (AuthorRepository.authorToInsert authorData (clock w) (nextOid w))
                    (authors w ++
                     [AuthorRepository.authorToInsert authorData (clock w) (nextOid w)]))
      by (apply in_or_app; right; now left).
    pose proof (find_none _ _ Hfind _ Hin) as Hno.
    unfold Mongo.hasAuthorId, Bson.equals in Hno. cbn in Hno.
    rewrite N.eqb_refl in Hno. discriminate Hno.
Qed.

Lemma duplicate_found name ds :
  isSome (Js.find (AuthorService.sameFullName name)
            (List.map AuthorRepository.toAuthor
               (List.filter (Mongo.nameMatches (RegExp.test true (literal name))) ds))) = true <->
  exists d, In d ds /\ Js.toLowerCase (AuthorDoc.fullName d) = Js.toLowerCase name.
Proof.
  unfold Js.find. rewrite find_isSome_existsb, existsb_exists. split.
  - intros (a & Ha & Heq). apply in_map_iff in Ha. destruct Ha as (d & <- & Hd).
    apply filter_In in Hd. destruct Hd as [Hd _].
    exists d. split; [exact Hd|]. now apply String.eqb_eq in Heq.
  - intros (d & Hd & Heq). exists (AuthorRepository.toAuthor d). split.
    + apply in_map, filter_In. split; [exact Hd|].
      apply nameMatches_literal. right; right.
      unfold occursIgnoringCase. rewrite Heq.
      exists EmptyString, EmptyString. simpl. now rewrite append_empty_r.
    + unfold AuthorService.sameFullName. simpl. rewrite Heq. apply String.eqb_refl.
Qed.

(** X23.  The uniqueness rule, for full names without pattern syntax: a
    candidate whose full name equals a stored one up to case is refused and
    nothing is inserted; any other candidate is inserted. *)
Theorem createAuthor_plain_name :
  forall w authorData,
    plainName (CreateAuthorRequest.fullName authorData) = true ->
    ((exists d, In d (authors w) /\
                Js.toLowerCase (AuthorDoc.fullName d) =
                Js.toLowerCase (CreateAuthorRequest.fullName authorData)) ->
     AuthorService.createAuthor authorData w =
       (Failure ("Author with name " ++ dquote ++ CreateAuthorRequest.fullName authorData
                   ++ dquote ++ " already exists"),
        logged w [AuthorsFindByName (CreateAuthorRequest.fullName authorData)])) /\
    ((forall d, In d (authors w) ->
                Js.toLowerCase (AuthorDoc.fullName d) <>
                Js.toLowerCase (CreateAuthorRequest.fullName authorData)) ->
     exists a w',
       AuthorService.createAuthor authorData w = (Success a, w') /\
       authors w' =
         (authors w ++
          [AuthorRepository.authorToInsert authorData (clock w) (nextOid w)])%list /\
       books w' = books w).
Proof.
  intros w authorData Hplain.
  assert (Hstep : AuthorService.createAuthor authorData w =
    bind (failWhen
            (isSome (Js.find (AuthorService.sameFullName (CreateAuthorRequest.fullName authorData))
               (List.map AuthorRepository.toAuthor
                  (List.filter
                     (Mongo.nameMatches
                        (RegExp.test true (literal (CreateAuthorRequest.fullName authorData))))
                     (authors w)))))
            ("Author with name " ++ dquote ++ CreateAuthorRequest.fullName authorData
               ++ dquote ++ " already exists"))
         (fun _ => AuthorRepository.create authorData)
         (logged w [AuthorsFindByName (CreateAuthorRequest.fullName authorData)])).
  { unfold AuthorService.createAuthor.
    now rewrite (bind_success _ _ _ _ _ (findByName_plain _ w Hplain)). }
  split.
  - intros Hdup. apply duplicate_found in Hdup. rewrite Hstep, Hdup. reflexivity.
  - intros Hnone.
    assert (Hno : isSome (Js.find (AuthorService.sameFullName (CreateAuthorRequest.fullName authorData))
               (List.map AuthorRepository.toAuthor
                  (List.filter
                     (Mongo.nameMatches
                        (RegExp.test true (literal (CreateAuthorRequest.fullName authorData))))
                     (authors w)))) = false).
    { apply not_true_is_false. intros H. apply duplicate_found in H.
      destruct H as (d & Hd & Heq). now apply (Hnone d). }
    rewrite Hstep, Hno. cbn [failWhen]. unfold bind at 1. unfold succeed at 1.
    destruct (authorCreate_run authorData
                (logged w [AuthorsFindByName (CreateAuthorRequest.fullName authorData)]))
      as (d & Hrun).
    rewrite Hrun. eexists. eexists. split; [reflexivity|]. split; reflexivity.
Qed.

(* ===================================================================== *)
(** ** Identifiers as strings                                              *)
(* ===================================================================== *)

(** The string the API shows for a stored document reads back as the
    identifier of that document, so an identifier copied from a response
    denotes the document it came from. *)

Lemma hexValue_hexChar d : (d < 16)%N -> Bson.hexValue (Bson.hexChar d) = Some d.
Proof.
  intros Hd.
  assert (Hcases : In d [0; 1; 2; 3; 4; 5; 6; 7; 8; 9; 10; 11; 12; 13; 14; 15]%N).
  { destruct d as [|p]; [now left|].
    do 4 (destruct p as [p|p|]; try (simpl; tauto); try lia). }
  simpl in Hcases.
  repeat (destruct Hcases as [<-|Hcases]; [reflexivity|]). contradiction.
Qed.

Lemma parseHex_hexDigits n : forall v rest acc,
  Bson.parseHex (Bson.hexDigits n v rest) acc =
  Bson.parseHex rest (acc * 16 ^ N.of_nat n + v mod 16 ^ N.of_nat n)%N.
Proof.
  induction n as [|n IH]; intros v rest acc.
  - simpl. rewrite N.mod_1_r, N.mul_1_r, N.add_0_r. reflexivity.
  - cbn [Bson.hexDigits]. rewrite IH. cbn [Bson.parseHex].
    rewrite hexValue_hexChar by (apply N.mod_lt; discriminate).
    f_equal. rewrite Nat2N.inj_succ, N.pow_succ_r'.
    rewrite (N.Div0.mod_mul_r v 16 (16 ^ N.of_nat n)). lia.
Qed.

Lemma fromString_toString oid :
  (oid < 2 ^ 96)%N -> Bson.fromString (Bson.toString oid) = Some oid.
Proof.
  intros Hlt. unfold Bson.fromString, Bson.toString.
  rewrite hexDigits_length. cbn [String.length Nat.add Nat.eqb].
  rewrite parseHex_hexDigits. cbn [Bson.parseHex]. f_equal.
  change (16 ^ N.of_nat 24)%N with (2 ^ 96)%N.
  rewrite N.mod_small by exact Hlt. reflexivity.
Qed.

Lemma authorKnown_stored w d :
  In d (authors w) -> (AuthorDoc._id d < 2 ^ 96)%N ->
  authorKnown w (Bson.toString (AuthorDoc._id d)) = true.
Proof.
  intros Hd Hlt. unfold authorKnown. rewrite (fromString_toString _ Hlt).
  apply existsb_exists. exists d. split; [exact Hd|]. apply N.eqb_refl.
Qed.

(* ===================================================================== *)
(** ** createBook: what a successful call leaves behind                    *)
(* ===================================================================== *)

Lemma find_no_isbn isbn ds :
  isSome (Js.find (fun b => String.eqb (Book.isbn b) isbn)
            (List.map BookRepository.toBook ds)) = false ->
  forall d, In d ds -> BookDoc.isbn d <> isbn.
Proof.
  intros Hnone d Hd Heq.
  rewrite (find_same_isbn _ _ _ Hd Heq) in Hnone. discriminate Hnone.
Qed.

(** [createBook] either ends without success, having written nothing, or
    has found every author and no book with the ISBN, and goes on to the
    repository. *)
Lemma createBook_cases bookData w :
  (isSuccess (fst (BookService.createBook bookData w)) = false /\
   books (snd (BookService.createBook bookData w)) = books w) \/
  ((forall id, In id (CreateBookRequest.authorIds bookData) -> authorKnown w id = true) /\
   (forall d, In d (books w) -> BookDoc.isbn d <> CreateBookRequest.isbn bookData) /\
   BookService.createBook bookData w =
     BookRepository.create bookData
       (logged w (probes (CreateBookRequest.authorIds bookData) ++ [BooksFindAll]))).
Proof.
  unfold BookService.createBook.
  destruct (validateAuthorIds_cases (CreateBookRequest.authorIds bookData) w)
    as [[Hrun Hall]|(e & w1 & Hrun & He & Hb & _)].
  - rewrite (bind_success _ _ _ _ _ Hrun).
    rewrite (bind_success _ _ _ _ _ (map_success _ _ _ _ _ (bookFindAll_run _))).
    cbn [books logged].
    destruct (isSome (Js.find _ _)) eqn:Hfind; cbn [failWhen].
    + left. split; reflexivity.
    + right. split; [exact Hall|]. split; [exact (find_no_isbn _ _ Hfind)|].
      unfold bind at 1. unfold succeed at 1. now rewrite logged_logged.
  - left. unfold bind. rewrite Hrun. destruct e; try discriminate He; split; (reflexivity || exact Hb).
Qed.

Lemma find_last_fresh {D : Type} (p : D -> bool) (ds : list D) (x : D) :
  (forall d, In d ds -> p d = false) -> p x = true ->
  List.find p (ds ++ [x]) = Some x.
Proof.
  intros Hno Hx. induction ds as [|d ds IH]; simpl.
  - now rewrite Hx.
  - rewrite (Hno d (or_introl eq_refl)). apply IH. intros d' Hd'. apply Hno. now right.
Qed.

(** With a fresh identifier, [BookRepository.create] returns the very
    document it has appended. *)
Lemma bookCreate_run bookData w :
  (forall d, In d (books w) -> BookDoc._id d <> nextOid w) ->
  BookRepository.create bookData w =
    (Success (BookRepository.toBook
                (BookRepository.bookToInsert bookData (clock w) (nextOid w))),
     inserted w (authors w)
       (books w ++ [BookRepository.bookToInsert bookData (clock w) (nextOid w)])
       [BooksInsertOne; BooksFindOne (nextOid w)]).
Proof.
  intros Hfresh.
  unfold BookRepository.create, bind, Mongo.newDate, Mongo.booksInsertOne, bind,
    Mongo.record, Mongo.freshOid, Mongo.getBooks, Mongo.putBooks, succeed,
    Mongo.booksFindOne, bind, Mongo.record, Mongo.getBooks, succeed.
  cbn.
  rewrite find_last_fresh.
  - unfold inserted. rewrite <- app_assoc. reflexivity.
  - intros d Hd. unfold Mongo.hasBookId, Bson.equals. apply N.eqb_neq. now apply Hfresh.
  - unfold Mongo.hasBookId, Bson.equals. cbn. apply N.eqb_refl.
Qed.

(** X1.  [createBook] keeps ISBNs unique: if no two stored books share an
    ISBN before the call, none do after it, whatever the request and
    whatever the outcome. *)
Theorem createBook_keeps_isbn_unique :
  forall w bookData,
    isbnUnique (books w) ->
    isbnUnique (books (snd (BookService.createBook bookData w))).
Proof.
  intros w bookData Huniq.
  destruct (createBook_cases bookData w) as [[_ Hsame]|(_ & Hnew & Hrun)].
  - now rewrite Hsame.
  - rewrite Hrun, bookCreate_books. cbn [books logged clock nextOid].
    unfold isbnUnique in *. rewrite map_app. cbn [List.map].
    apply NoDup_app; [exact Huniq|repeat constructor; intros []|].
    intros x Hx [<-|[]]. apply in_map_iff in Hx. destruct Hx as (d & Hd & Hin).
    now apply (Hnew d).
Qed.

Lemma createBook_keeps_isbn_unique_witness :
  isbnUnique (books (snd (BookService.createBook
    (Sample.newBook [Sample.orwellId] "978-0156421171" 5%Z) Sample.world))).
Proof.
  apply (createBook_keeps_isbn_unique Sample.world).
  exact sample_isbn_unique.
Defined.

(** X2.  Insert, then look up.  When every author of the request is
    stored, no stored book has its ISBN and the next identifier is fresh,
    [createBook] succeeds with the request's fields under that identifier,
    with equal creation and update times; the book is appended to the
    collection, and [getBookById] on the returned identifier gives the
    same record back. *)
Theorem createBook_then_getBookById :
  forall w bookData,
    (forall id, In id (CreateBookRequest.authorIds bookData) -> authorKnown w id = true) ->
    (forall d, In d (books w) -> BookDoc.isbn d <> CreateBookRequest.isbn bookData) ->
    nextOidFresh w ->
    exists b w',
      BookService.createBook bookData w = (Success b, w') /\
      b = BookRepository.toBook
            (BookRepository.bookToInsert bookData (clock w) (nextOid w)) /\
      Book._id b = Some (Bson.toString (nextOid w)) /\
      Book.createdAt b = Book.updatedAt b /\
      books w' =
        (books w ++ [BookRepository.bookToInsert bookData (clock w) (nextOid w)])%list /\
      fst (BookService.getBookById (Bson.toString (nextOid w)) w') = Success (Some b).
Proof.
  intros w bookData Hknown Hisbn (Hlt & Hfresh & _).
  destruct (createBook_cases bookData w) as [[Hfail _]|(_ & _ & Hrun)].
  - exfalso. revert Hfail. unfold BookService.createBook.
    rewrite (bind_success _ _ _ _ _ (validateAuthorIds_all_known _ _ Hknown)).
    rewrite (bind_success _ _ _ _ _ (map_success _ _ _ _ _ (bookFindAll_run _))).
    cbn [books logged].
    destruct (isSome (Js.find _ _)) eqn:Hfind.
    + exfalso. unfold Js.find in Hfind. rewrite find_isSome_existsb in Hfind.
      apply existsb_exists in Hfind. destruct Hfind as (b & Hb & Heq).
      apply in_map_iff in Hb. destruct Hb as (d & <- & Hd).
      apply String.eqb_eq in Heq. now apply (Hisbn d).
    + cbn [failWhen]. unfold bind at 1. unfold succeed at 1.
      rewrite bookCreate_run by exact Hfresh. discriminate.
  - rewrite Hrun, bookCreate_run by exact Hfresh.
    eexists. eexists. split; [reflexivity|]. split; [reflexivity|].
    split; [reflexivity|]. split; [reflexivity|]. split; [reflexivity|].
    unfold BookService.getBookById.
    rewrite (bookFindById_run _ _ _ (fromString_toString _ Hlt)).
    cbn [fst books inserted logged nextOid clock].
    rewrite find_last_fresh; [reflexivity| |].
    + intros d Hd. unfold Mongo.hasBookId, Bson.equals. apply N.eqb_neq. now apply Hfresh.
    + unfold Mongo.hasBookId, Bson.equals. cbn. apply N.eqb_refl.
Qed.

Lemma createBook_then_getBookById_witness :
  exists b w',
    BookService.createBook (Sample.newBook [Sample.orwellId] "978-0156421171" 5%Z)
      Sample.world = (Success b, w') /\
    b = BookRepository.toBook
          (BookRepository.bookToInsert
             (Sample.newBook [Sample.orwellId] "978-0156421171" 5%Z) 2000%Z 5%N) /\
    Book._id b = Some "000000000000000000000005" /\
    Book.createdAt b = Book.updatedAt b /\
    books w' =
      [Sample.book1984; Sample.animalFarm;
       BookRepository.bookToInsert
         (Sample.newBook [Sample.orwellId] "978-0156421171" 5%Z) 2000%Z 5%N] /\
    fst (BookService.getBookById "000000000000000000000005" w') = Success (Some b).
Proof.
  apply (createBook_then_getBookById Sample.world
           (Sample.newBook [Sample.orwellId] "978-0156421171" 5%Z)).
  - intros id [<-|[]]. vm_compute. reflexivity.
  - intros d [<-|[<-|[]]]; discriminate.
  - split; [reflexivity|]. split.
    + intros d [<-|[<-|[]]]; discriminate.
    + intros d [<-|[<-|[]]]; discriminate.
Defined.

(* ===================================================================== *)
(** ** updateStock: every way it can end                                   *)
(* ===================================================================== *)

(** X3.  [updateStock] never stores a stock below zero: if [stock < 0] is
    false of every stored book before the call, it is false of every stored
    book after it, for any identifier (stored, unknown or malformed), any
    number as delta and any outcome.  A stock of [NaN] is not below zero in
    this sense, and a delta of [NaN] stores one. *)
Theorem updateStock_never_below_zero :
  forall w id quantity,
    stockNotBelowZero w ->
    stockNotBelowZero (snd (BookService.updateStock id quantity w)).
Proof.
  intros w id quantity Hinv.
  destruct (Bson.fromString id) as [oid|] eqn:Hp;
    [|now rewrite (updateStock_malformed _ _ _ Hp)].
  destruct (List.find (Mongo.hasBookId oid) (books w)) as [d|] eqn:Hfind;
    [|now rewrite (updateStock_absent _ _ _ _ Hp Hfind)].
  destruct (Js.lt (Js.add (BookDoc.stock d) quantity) (Js.ofZ 0)) eqn:Hguard.
  - now rewrite (updateStock_refused _ _ _ _ _ Hp Hfind Hguard).
  - destruct (updateStock_accepted _ _ _ _ _ Hp Hfind Hguard)
      as (l1 & l2 & Hds & _ & _ & Hrun).
    rewrite Hrun. intros x Hx. cbn [snd books rewritten] in Hx.
    apply in_app_or in Hx. destruct Hx as [Hx|[<-|Hx]].
    + apply Hinv. rewrite Hds. apply in_or_app. now left.
    + exact Hguard.
    + apply Hinv. rewrite Hds. apply in_or_app. right. now right.
Qed.

Lemma sample_stock_not_below_zero : stockNotBelowZero Sample.world.
Proof.
  intros d [<-|[<-|[]]]; reflexivity.
Qed.

Lemma updateStock_never_below_zero_witness :
  stockNotBelowZero (snd (BookService.updateStock Sample.book1984Id Js.NaN Sample.world)).
Proof.
  apply (updateStock_never_below_zero Sample.world).
  exact sample_stock_not_below_zero.
Defined.

(** One accepted adjustment of an integer stock by an integer, all of
    magnitude below [2^53]. *)
Lemma updateStock_integer_step id oid w d S q :
  Bson.fromString id = Some oid ->
  List.find (Mongo.hasBookId oid) (books w) = Some d ->
  BookDoc.stock d = Js.ofZ S ->
  safeInteger S -> safeInteger q -> safeInteger (S + q) ->
  (0 <= S + q)%Z ->
  exists d1,
    List.find (Mongo.hasBookId oid)
      (books (snd (BookService.updateStock id (Js.ofZ q) w))) = Some d1 /\
    BookDoc.stock d1 = Js.ofZ (S + q).
Proof.
  intros Hp Hfind HS HsS Hsq Hsum Hge.
  assert (Hadd : Js.add (BookDoc.stock d) (Js.ofZ q) = Js.ofZ (S + q))
    by (rewrite HS; now apply add_ofZ).
  destruct (updateStock_accepted id oid d (Js.ofZ q) w Hp Hfind)
    as (l1 & l2 & _ & Hl1 & Hd & Hrun).
  - rewrite Hadd, (lt_ofZ_zero _ Hsum). now apply Z.ltb_ge.
  - rewrite Hrun. cbn [snd books rewritten]. eexists. split.
    + apply find_after_prefix; [exact Hl1|exact Hd].
    + exact Hadd.
Qed.

(** X4.  Successive integer adjustments add up.  Let the stock [S] of the
    book under [id] and the deltas [a] and [b] be integers, with [S], [a],
    [b], [a + b], [S + a] and [S + a + b] of magnitude below [2^53].  If
    the stock stays non-negative after [a] and after [a] then [b], calling
    [updateStock] with [a] and then with [b] leaves the stock at
    [S + a + b], which is what the single call with [a + b] leaves. *)
Theorem updateStock_twice :
  forall w id d S a b,
    bookAt w id = Some d ->
    BookDoc.stock d = Js.ofZ S ->
    safeInteger S -> safeInteger a -> safeInteger b -> safeInteger (a + b) ->
    safeInteger (S + a) -> safeInteger (S + a + b) ->
    (0 <= S + a)%Z ->
    (0 <= S + a + b)%Z ->
    option_map BookDoc.stock
      (bookAt (snd (BookService.updateStock id (Js.ofZ b)
                      (snd (BookService.updateStock id (Js.ofZ a) w)))) id)
      = Some (Js.Finite (S + a + b) 0) /\
    option_map BookDoc.stock
      (bookAt (snd (BookService.updateStock id (Js.ofZ (a + b)) w)) id)
      = Some (Js.Finite (S + a + b) 0).
Proof.
  intros w id d S a b Hat HS HsS Hsa Hsb Hsab HsSa HsSab Ha Hab. unfold bookAt in *.
  destruct (Bson.fromString id) as [oid|] eqn:Hp; [|discriminate].
  split.
  - destruct (updateStock_integer_step id oid w d S a Hp Hat HS HsS Hsa HsSa Ha)
      as (d1 & Hfind1 & Hs1).
    destruct (updateStock_integer_step id oid _ d1 (S + a) b Hp Hfind1 Hs1 HsSa Hsb HsSab Hab)
      as (d2 & Hfind2 & Hs2).
    rewrite Hfind2. cbn [option_map]. now rewrite Hs2, (ofZ_safe _ HsSab).
  - assert (Heq : (S + (a + b) = S + a + b)%Z) by lia.
    destruct (updateStock_integer_step id oid w d S (a + b) Hp Hat HS HsS Hsab)
      as (d1 & Hfind1 & Hs1); [now rewrite Heq|now rewrite Heq|].
    rewrite Hfind1. cbn [option_map]. now rewrite Hs1, Heq, (ofZ_safe _ HsSab).
Qed.

Lemma updateStock_twice_witness :
  option_map BookDoc.stock
    (bookAt (snd (BookService.updateStock Sample.book1984Id (Js.ofZ 25)
                    (snd (BookService.updateStock Sample.book1984Id (Js.ofZ (-40))
                            Sample.world))))
       Sample.book1984Id) = Some (Js.Finite (50 + -40 + 25) 0) /\
  option_map BookDoc.stock
    (bookAt (snd (BookService.updateStock Sample.book1984Id (Js.ofZ (-40 + 25)) Sample.world))
       Sample.book1984Id) = Some (Js.Finite (50 + -40 + 25) 0).
Proof.
  apply (updateStock_twice Sample.world Sample.book1984Id Sample.book1984
           50%Z (-40)%Z 25%Z); try reflexivity; lia.
Defined.

(** X5.  Every way [updateStock] can end, for any number as delta.  A
    malformed identifier kills the fiber without any query; a well-formed
    identifier of no stored book gives [none]; when the sum of the stock
    and the delta is below zero the call fails with "Insufficient stock";
    in these three cases the books are as before.  In every other case,
    that of a sum that is [NaN] or an infinity included, the call succeeds
    with the book at that sum, which the store then holds. *)
Theorem updateStock_outcomes :
  forall w id quantity,
    (wellFormedId id = false ->
       BookService.updateStock id quantity w = (Die (BSONError id), w)) /\
    (wellFormedId id = true -> bookAt w id = None ->
       fst (BookService.updateStock id quantity w) = Success None /\
       books (snd (BookService.updateStock id quantity w)) = books w) /\
    (forall d, bookAt w id = Some d ->
       Js.lt (Js.add (BookDoc.stock d) quantity) (Js.ofZ 0) = true ->
       fst (BookService.updateStock id quantity w) = Failure "Insufficient stock" /\
       books (snd (BookService.updateStock id quantity w)) = books w) /\
    (forall d, bookAt w id = Some d ->
       Js.lt (Js.add (BookDoc.stock d) quantity) (Js.ofZ 0) = false ->
       exists b,
         fst (BookService.updateStock id quantity w) = Success (Some b) /\
         Book.stock b = Js.add (BookDoc.stock d) quantity /\
         Book._id b = Some (Bson.toString (BookDoc._id d)) /\
         option_map BookDoc.stock
           (bookAt (snd (BookService.updateStock id quantity w)) id)
           = Some (Js.add (BookDoc.stock d) quantity)).
Proof.
  intros w id quantity. unfold wellFormedId, bookAt.
  destruct (Bson.fromString id) as [oid|] eqn:Hp.
  - split; [discriminate|]. split; [|split].
    + intros _ Hnone. rewrite (updateStock_absent _ _ _ _ Hp Hnone). split; reflexivity.
    + intros d Hfind Hlt. rewrite (updateStock_refused _ _ _ _ _ Hp Hfind Hlt).
      split; reflexivity.
    + intros d Hfind Hge.
      destruct (updateStock_accepted _ _ _ _ _ Hp Hfind Hge)
        as (l1 & l2 & _ & Hl1 & Hd & Hrun).
      rewrite Hrun. eexists. split; [reflexivity|]. split; [reflexivity|].
      split; [reflexivity|]. cbn [snd books rewritten].
      rewrite (find_after_prefix oid l1 l2
                 (BookRepository.applySet
                    (BookService.stockOnly (Js.add (BookDoc.stock d) quantity))
                    (clock w) d) Hl1 Hd).
      reflexivity.
  - split; [|split; [|split]].
    + intros _. now rewrite (updateStock_malformed _ _ _ Hp).
    + discriminate.
    + discriminate.
    + discriminate.
Qed.

Lemma updateStock_outcomes_witness :
  BookService.updateStock "abc" (Js.ofZ 1) Sample.world
    = (Die (BSONError "abc"), Sample.world) /\
  fst (BookService.updateStock Sample.absentId (Js.ofZ 1) Sample.world) = Success None /\
  fst (BookService.updateStock Sample.book1984Id (Js.ofZ (-60)) Sample.world)
    = Failure "Insufficient stock" /\
  exists b,
    fst (BookService.updateStock Sample.book1984Id (Js.Infinity false) Sample.world)
      = Success (Some b) /\
    Book.stock b = Js.Infinity false.
Proof.
  split; [|split; [|split]].
  - apply (updateStock_outcomes Sample.world "abc" (Js.ofZ 1)). reflexivity.
  - apply (updateStock_outcomes Sample.world Sample.absentId (Js.ofZ 1)); reflexivity.
  - destruct (updateStock_outcomes Sample.world Sample.book1984Id (Js.ofZ (-60)))
      as (_ & _ & Hrefused & _).
    apply (Hrefused Sample.book1984); reflexivity.
  - destruct (updateStock_outcomes Sample.world Sample.book1984Id (Js.Infinity false))
      as (_ & _ & _ & Haccepted).
    destruct (Haccepted Sample.book1984) as (b & Hb & Hs & _); [reflexivity|reflexivity|].
    exists b. split; [exact Hb|exact Hs].
Defined.

(* ===================================================================== *)
(** ** updateBook: author validation comes first                          *)
(* ===================================================================== *)

(** X6.  When the request of [updateBook] lists an author identifier that
    is well formed but denotes no author, and the ones before it are
    stored, the call fails with the error naming that identifier.  Only
    the existence probes up to it have been sent: the book is not looked
    up and nothing is written, whether or not [id] denotes a book. *)
Theorem updateBook_unknown_author :
  forall w id updateData pre missing post,
    UpdateBookRequest.authorIds updateData = Some (pre ++ missing :: post)%list ->
    (forall i, In i pre -> authorKnown w i = true) ->
    wellFormedId missing = true ->
    authorKnown w missing = false ->
    BookService.updateBook id updateData w =
      (Failure ("Author with ID " ++ missing ++ " does not exist"),
       logged w (probes (pre ++ [missing]))).
Proof.
  intros w id updateData pre missing post Hids Hpre Hwf Hmiss.
  unfold BookService.updateBook. rewrite Hids.
  apply bind_failure. now apply validateAuthorIds_first_missing.
Qed.

(* ===================================================================== *)
(** ** deleteBook                                                          *)
(* ===================================================================== *)

Lemma removeFirst_found oid : forall ds d,
  List.find (Mongo.hasBookId oid) ds = Some d ->
  exists l1 l2,
    ds = (l1 ++ d :: l2)%list /\
    (forall x, In x l1 -> Mongo.hasBookId oid x = false) /\
    Mongo.hasBookId oid d = true /\
    Mongo.removeFirst oid ds = Some (l1 ++ l2)%list.
Proof.
  induction ds as [|x ds IH]; intros d Hfind; [discriminate|].
  simpl in Hfind. simpl. destruct (Mongo.hasBookId oid x) eqn:Hx.
  - injection Hfind as <-. exists [], ds. repeat split; try assumption. intros y [].
  - destruct (IH d Hfind) as (l1 & l2 & -> & Hl1 & Hd & Hrm).
    exists (x :: l1), l2. rewrite Hrm. repeat split; try assumption.
    intros y [<-|Hy]; [assumption|now apply Hl1].
Qed.

Lemma removeFirst_absent oid : forall ds,
  List.find (Mongo.hasBookId oid) ds = None -> Mongo.removeFirst oid ds = None.
Proof.
  induction ds as [|x ds IH]; intros Hfind; [reflexivity|].
  simpl in Hfind. simpl. destruct (Mongo.hasBookId oid x); [discriminate|]. now rewrite IH.
Qed.

Lemma find_none_of_distinct oid (l1 l2 : list BookDoc.t) d :
  NoDup (List.map BookDoc._id (l1 ++ d :: l2)) ->
  Mongo.hasBookId oid d = true ->
  List.find (Mongo.hasBookId oid) (l1 ++ l2) = None /\ ~ In d (l1 ++ l2).
Proof.
  intros Hnd Hd. rewrite map_app in Hnd. cbn [List.map] in Hnd.
  apply NoDup_remove_2 in Hnd. rewrite <- map_app in Hnd.
  unfold Mongo.hasBookId, Bson.equals in Hd. apply N.eqb_eq in Hd.
  split.
  - destruct (List.find (Mongo.hasBookId oid) (l1 ++ l2)) as [x|] eqn:Hfind; [|reflexivity].
    exfalso. apply find_some in Hfind. destruct Hfind as [Hx Hid].
    unfold Mongo.hasBookId, Bson.equals in Hid. apply N.eqb_eq in Hid.
    apply Hnd. rewrite Hd, <- Hid. now apply in_map.
  - intros Hin. apply Hnd. now apply in_map.
Qed.

(** X7.  Deleting a book.  For a well-formed identifier of no stored book
    [deleteBook] returns [false] and the books are as before.  For the
    identifier of a stored book, in a store with distinct identifiers, it
    returns [true], exactly that book is gone, the authors are untouched,
    and [getBookById] on the identifier then finds nothing. *)
Theorem deleteBook_outcomes :
  forall w id,
    (wellFormedId id = true -> bookAt w id = None ->
       fst (BookService.deleteBook id w) = Success false /\
       books (snd (BookService.deleteBook id w)) = books w) /\
    (forall d, bookAt w id = Some d -> bookIdsDistinct w ->
       fst (BookService.deleteBook id w) = Success true /\
       (forall x, In x (books (snd (BookService.deleteBook id w))) <->
                  In x (books w) /\ x <> d) /\
       authors (snd (BookService.deleteBook id w)) = authors w /\
       fst (BookService.getBookById id (snd (BookService.deleteBook id w)))
         = Success None).
Proof.
  intros w id. unfold wellFormedId, bookAt.
  destruct (Bson.fromString id) as [oid|] eqn:Hp; [|split; [discriminate|discriminate]].
  assert (Hstep : BookService.deleteBook id w =
            map (fun deletedCount => Nat.ltb 0 deletedCount) (Mongo.booksDeleteOne oid) w).
  { unfold BookService.deleteBook, BookRepository.delete.
    now rewrite (bind_success _ _ _ _ _ (newObjectId_ok _ _ _ Hp)). }
  split.
  - intros _ Hnone. rewrite Hstep.
    unfold map, Mongo.booksDeleteOne, bind, Mongo.record, Mongo.getBooks. cbn [books].
    rewrite (removeFirst_absent _ _ Hnone). split; reflexivity.
  - intros d Hfind Hnd.
    destruct (removeFirst_found _ _ _ Hfind) as (l1 & l2 & Hds & Hl1 & Hd & Hrm).
    unfold bookIdsDistinct in Hnd. rewrite Hds in Hnd.
    destruct (find_none_of_distinct _ _ _ _ Hnd Hd) as [Hgone Hnotin].
    assert (Hrun : BookService.deleteBook id w =
              (Success true, rewritten w (l1 ++ l2) [BooksDeleteOne oid])).
    { rewrite Hstep.
      unfold map, Mongo.booksDeleteOne, bind, Mongo.record, Mongo.getBooks. cbn [books].
      rewrite Hrm. reflexivity. }
    rewrite Hrun. cbn [fst snd books authors rewritten].
    split; [reflexivity|]. split; [|split; [reflexivity|]].
    + intros x. rewrite Hds. split.
      * intros Hx. split.
        -- apply in_app_or in Hx. apply in_or_app. destruct Hx; [now left|right; now right].
        -- intros ->. now apply Hnotin.
      * intros [Hx Hne]. apply in_app_or in Hx. apply in_or_app.
        destruct Hx as [Hx|[Heq|Hx]]; [now left| |now right]. now contradiction Hne.
    + rewrite (bookFindById_run _ _ _ Hp). cbn [fst books rewritten].
      now rewrite Hgone.
Qed.

Lemma sample_book_ids_distinct : bookIdsDistinct Sample.world.
Proof.
  unfold bookIdsDistinct. simpl. constructor.
  - intros [H|[]]. discriminate H.
  - constructor; [intros []|constructor].
Qed.

Lemma deleteBook_outcomes_witness :
  fst (BookService.deleteBook Sample.absentId Sample.world) = Success false /\
  fst (BookService.deleteBook Sample.book1984Id Sample.world) = Success true /\
  fst (BookService.getBookById Sample.book1984Id
         (snd (BookService.deleteBook Sample.book1984Id Sample.world))) = Success None.
Proof.
  split; [|split].
  - apply (deleteBook_outcomes Sample.world Sample.absentId); reflexivity.
  - destruct (deleteBook_outcomes Sample.world Sample.book1984Id) as (_ & Hstored).
    apply (Hstored Sample.book1984); [reflexivity|exact sample_book_ids_distinct].
  - destruct (deleteBook_outcomes Sample.world Sample.book1984Id) as (_ & Hstored).
    apply (Hstored Sample.book1984); [reflexivity|exact sample_book_ids_distinct].
Defined.

Lemma updateBook_unknown_author_witness :
  BookService.updateBook Sample.book1984Id
    (Sample.authorsPatch [Sample.orwellId; Sample.absentId; Sample.smithId]) Sample.world =
  (Failure "Author with ID 507f1f77bcf86cd799439011 does not exist",
   logged Sample.world
     [AuthorsFindOne 1%N; AuthorsFindOne 24912482966938930280208240657%N]).
Proof.
  apply (updateBook_unknown_author Sample.world Sample.book1984Id
           (Sample.authorsPatch [Sample.orwellId; Sample.absentId; Sample.smithId])
           [Sample.orwellId] Sample.absentId [Sample.smithId]).
  - reflexivity.
  - intros i [<-|[]]. vm_compute. reflexivity.
  - vm_compute. reflexivity.
  - vm_compute. reflexivity.
Defined.

(* ===================================================================== *)
(** ** Searches: the empty query, and genre against free text             *)
(* ===================================================================== *)

Lemma startsWith_empty s : Js.startsWith s EmptyString = true.
Proof. destruct s; reflexivity. Qed.

Lemma includes_empty s : Js.includes s EmptyString = true.
Proof. destruct s; simpl; [reflexivity|]. reflexivity. Qed.

Lemma startsWith_refl s : Js.startsWith s s = true.
Proof. induction s as [|a s IH]; simpl; [reflexivity|]. now rewrite Ascii.eqb_refl. Qed.

Lemma includes_refl s : Js.includes s s = true.
Proof. destruct s; cbn [Js.includes]; now rewrite startsWith_refl. Qed.

(** When the title and genre test selects every book, the loop never
    resolves an author. *)
Lemma searchLoop_all_selected query : forall bs filteredBooks w,
  (forall b, In b bs -> BookService.titleOrGenreMatches query b = true) ->
  BookService.searchLoop query bs filteredBooks w = (Success (filteredBooks ++ bs)%list, w).
Proof.
  induction bs as [|b bs IH]; intros acc w Hall.
  - simpl. unfold succeed. now rewrite app_nil_r.
  - cbn [BookService.searchLoop]. rewrite (Hall b (or_introl eq_refl)).
    rewrite IH by (intros b' Hb'; apply Hall; now right).
    now rewrite <- app_assoc.
Qed.

Lemma filter_all {A : Type} (p : A -> bool) (xs : list A) :
  (forall x, In x xs -> p x = true) -> List.filter p xs = xs.
Proof.
  intros Hall. induction xs as [|x xs IH]; [reflexivity|].
  simpl. rewrite (Hall x (or_introl eq_refl)). f_equal. apply IH.
  intros y Hy. apply Hall. now right.
Qed.

(** X8.  The empty query selects everything: [searchBooks] returns every
    stored book after the one listing, without resolving any author (so
    also in a store with dangling or malformed references), and
    [searchAuthors] returns every stored author. *)
Theorem empty_query_selects_everything :
  forall w,
    BookService.searchBooks EmptyString w =
      (Success (List.map BookRepository.toBook (books w)), logged w [BooksFindAll]) /\
    AuthorService.searchAuthors EmptyString w =
      (Success (List.map AuthorRepository.toAuthor (authors w)), logged w [AuthorsFindAll]).
Proof.
  intros w. split.
  - unfold BookService.searchBooks.
    rewrite (bind_success _ _ _ _ _ (bookFindAll_run w)).
    rewrite searchLoop_all_selected; [reflexivity|].
    intros b _. unfold BookService.titleOrGenreMatches. cbn [Js.toLowerCase].
    now rewrite includes_empty.
  - unfold AuthorService.searchAuthors.
    rewrite (map_success _ _ _ _ _ (authorFindAll_run w)).
    rewrite filter_all; [reflexivity|].
    intros a _. unfold AuthorService.searchPredicate, AuthorService.containsIgnoringCase.
    cbn [Js.toLowerCase]. now rewrite includes_empty.
Qed.

Lemma searchBooks_run w query :
  referencesWellFormed w ->
  BookService.searchBooks query w =
    (Success (List.filter (bookMatches w query)
                (List.map BookRepository.toBook (books w))),
     logged w (BooksFindAll :: resolutions query (books w))).
Proof.
  intros Hwf. unfold BookService.searchBooks.
  rewrite (bind_success _ _ _ _ _ (bookFindAll_run w)).
  rewrite searchLoop_run by exact Hwf.
  now rewrite logged_logged.
Qed.

(** X9.  Free-text search covers the genre lookup: in a store with
    well-formed references, every book [getBooksByGenre] returns for a
    genre is also returned by [searchBooks] for the same text. *)
Theorem getBooksByGenre_within_searchBooks :
  forall w genre,
    referencesWellFormed w ->
    exists byGenre found,
      fst (BookService.getBooksByGenre genre w) = Success byGenre /\
      fst (BookService.searchBooks genre w) = Success found /\
      forall b, In b byGenre -> In b found.
Proof.
  intros w genre Hwf. eexists. eexists.
  split; [reflexivity|]. split; [now rewrite (searchBooks_run _ _ Hwf)|].
  intros b Hb. apply filter_In in Hb. destruct Hb as [Hin Heq].
  apply String.eqb_eq in Heq. apply filter_In. split; [exact Hin|].
  unfold bookMatches, BookService.titleOrGenreMatches.
  rewrite Heq, includes_refl. now rewrite orb_true_r.
Qed.

Lemma getBooksByGenre_within_searchBooks_witness :
  exists byGenre found,
    fst (BookService.getBooksByGenre "political satire" Sample.world) = Success byGenre /\
    fst (BookService.searchBooks "political satire" Sample.world) = Success found /\
    forall b, In b byGenre -> In b found.
Proof.
  apply (getBooksByGenre_within_searchBooks Sample.world "political satire").
  exact sample_references_well_formed.
Defined.

(* ===================================================================== *)
(** ** getAuthorsByIds                                                     *)
(* ===================================================================== *)

Lemma existsb_same_members {A : Type} (p : A -> bool) (l l' : list A) :
  (forall x, In x l <-> In x l') -> List.existsb p l = List.existsb p l'.
Proof.
  intros Hsame. apply eq_true_iff_eq. rewrite !existsb_exists. split.
  - intros (x & Hx & Hp). exists x. split; [now apply Hsame|exact Hp].
  - intros (x & Hx & Hp). exists x. split; [now apply Hsame|exact Hp].
Qed.

(** X10.  [getAuthorsByIds] answers for the set of identifiers, not the
    list: for well-formed identifiers it returns, in store order, exactly
    the stored authors that some identifier denotes, identifiers of no
    stored author being passed over in silence; listing the same
    identifiers in another order, or more than once, changes nothing. *)
Theorem getAuthorsByIds_by_membership :
  forall w ids ids',
    (forall i, In i ids -> wellFormedId i = true) ->
    (forall i, In i ids' -> wellFormedId i = true) ->
    (forall i, In i ids <-> In i ids') ->
    exists found,
      fst (AuthorService.getAuthorsByIds ids w) = Success found /\
      fst (AuthorService.getAuthorsByIds ids' w) = Success found /\
      (forall a, In a found <-> resolves w ids a) /\
      authors (snd (AuthorService.getAuthorsByIds ids w)) = authors w.
Proof.
  intros w ids ids' Hwf Hwf' Hsame.
  exists (resolvedAuthors w ids).
  rewrite (getAuthorsByIds_run _ _ Hwf), (getAuthorsByIds_run _ _ Hwf').
  cbn [fst snd]. split; [reflexivity|]. split; [|split].
  - f_equal. unfold resolvedAuthors. f_equal. apply filter_ext. intros d.
    apply existsb_same_members. intros oid. rewrite !in_objectIds.
    split; intros (i & Hi & Hp); exists i; (split; [now apply Hsame|exact Hp]).
  - intros a. apply in_resolvedAuthors.
  - reflexivity.
Qed.

Lemma getAuthorsByIds_by_membership_witness :
  exists found,
    fst (AuthorService.getAuthorsByIds [Sample.smithId; Sample.absentId; Sample.orwellId]
           Sample.world) = Success found /\
    fst (AuthorService.getAuthorsByIds
           [Sample.orwellId; Sample.orwellId; Sample.smithId; Sample.absentId]
           Sample.world) = Success found /\
    (forall a, In a found <->
               resolves Sample.world [Sample.smithId; Sample.absentId; Sample.orwellId] a) /\
    authors (snd (AuthorService.getAuthorsByIds
                    [Sample.smithId; Sample.absentId; Sample.orwellId] Sample.world))
      = authors Sample.world.
Proof.
  apply (getAuthorsByIds_by_membership Sample.world
           [Sample.smithId; Sample.absentId; Sample.orwellId]
           [Sample.orwellId; Sample.orwellId; Sample.smithId; Sample.absentId]).
  - intros i [<-|[<-|[<-|[]]]]; reflexivity.
  - intros i [<-|[<-|[<-|[<-|[]]]]]; reflexivity.
  - intros i. simpl. tauto.
Defined.

(* ===================================================================== *)
(** ** Name and nationality lookups                                        *)
(* ===================================================================== *)

(** X13.  For a name without pattern syntax, [getAuthorsByName] sends one
    query and returns, in store order, exactly the stored authors whose
    first, last or full name contains the name, case ignored. *)
Theorem getAuthorsByName_plain :
  forall w name,
    plainName name = true ->
    exists selects,
      AuthorService.getAuthorsByName name w =
        (Success (List.map AuthorRepository.toAuthor (List.filter selects (authors w))),
         logged w [AuthorsFindByName name]) /\
      forall d, selects d = true <->
                occursIgnoringCase name (AuthorDoc.firstName d) \/
                occursIgnoringCase name (AuthorDoc.lastName d) \/
                occursIgnoringCase name (AuthorDoc.fullName d).
Proof.
  intros w name Hplain.
  exists (Mongo.nameMatches (RegExp.test true (literal name))). split.
  - unfold AuthorService.getAuthorsByName. now apply findByName_plain.
  - intros d. apply nameMatches_literal.
Qed.

Lemma getAuthorsByName_plain_witness :
  exists selects,
    AuthorService.getAuthorsByName "ORW" Sample.world =
      (Success (List.map AuthorRepository.toAuthor
                  (List.filter selects (authors Sample.world))),
       logged Sample.world [AuthorsFindByName "ORW"]) /\
    forall d, selects d = true <->
              occursIgnoringCase "ORW" (AuthorDoc.firstName d) \/
              occursIgnoringCase "ORW" (AuthorDoc.lastName d) \/
              occursIgnoringCase "ORW" (AuthorDoc.fullName d).
Proof.
  apply (getAuthorsByName_plain Sample.world "ORW"). reflexivity.
Defined.

(** X14.  For a text without pattern syntax, [getAuthorsByNationality]
    sends one query and returns, in store order, exactly the stored
    authors that have a nationality containing the text, case ignored.
    An author without nationality is never returned, not even for the
    empty text. *)
Theorem getAuthorsByNationality_plain :
  forall w nationality,
    plainName nationality = true ->
    exists selects,
      AuthorService.getAuthorsByNationality nationality w =
        (Success (List.map AuthorRepository.toAuthor (List.filter selects (authors w))),
         logged w [AuthorsFindByNationality nationality]) /\
      forall d, selects d = true <->
                exists n, AuthorDoc.nationality d = Some n /\
                          occursIgnoringCase nationality n.
Proof.
  intros w nationality Hplain.
  exists (Mongo.nationalityMatches (RegExp.test true (literal nationality))). split.
  - unfold AuthorService.getAuthorsByNationality, AuthorRepository.findByNationality,
      Mongo.newRegExp.
    rewrite (compile_plain _ Hplain). reflexivity.
  - intros d. unfold Mongo.nationalityMatches.
    destruct (AuthorDoc.nationality d) as [n|].
    + rewrite test_literal. split.
      * intros H. now exists n.
      * intros (n' & Heq & H). now injection Heq as <-.
    + split; [discriminate|]. intros (n & Heq & _). discriminate Heq.
Qed.

Lemma getAuthorsByNationality_plain_witness :
  fst (AuthorService.getAuthorsByNationality EmptyString Sample.world) =
    Success [AuthorRepository.toAuthor Sample.orwell].
Proof.
  destruct (getAuthorsByNationality_plain Sample.world EmptyString eq_refl)
    as (selects & Hrun & Hsel).
  rewrite Hrun. cbn [fst]. f_equal.
  assert (Ho : selects Sample.orwell = true).
  { apply Hsel. exists "British". split; [reflexivity|apply occursIn_empty]. }
  assert (Hs : selects Sample.smith = false).
  { apply not_true_is_false. intros H. apply Hsel in H.
    destruct H as (n & Hn & _). discriminate Hn. }
  cbn [authors Sample.world List.filter]. now rewrite Ho, Hs.
Defined.

Lemma createAuthor_plain_name_witness :
  AuthorService.createAuthor (Sample.newAuthor "george ORWELL") Sample.world =
    (Failure ("Author with name " ++ dquote ++ "george ORWELL" ++ dquote ++ " already exists"),
     logged Sample.world [AuthorsFindByName "george ORWELL"]) /\
  exists a w',
    AuthorService.createAuthor (Sample.newAuthor "Eric Blair") Sample.world = (Success a, w') /\
    authors w' =
      [Sample.orwell; Sample.smith;
       AuthorRepository.authorToInsert (Sample.newAuthor "Eric Blair") 2000%Z 5%N] /\
    books w' = books Sample.world.
Proof.
  split.
  - destruct (createAuthor_plain_name Sample.world (Sample.newAuthor "george ORWELL") eq_refl)
      as (Hdup & _).
    apply Hdup. exists Sample.orwell. split; [now left|reflexivity].
  - destruct (createAuthor_plain_name Sample.world (Sample.newAuthor "Eric Blair") eq_refl)
      as (_ & Hnew).
    apply Hnew. intros d [<-|[<-|[]]]; discriminate.
Defined.

(* ===================================================================== *)
(** ** A parenthesis left open                                             *)
(* ===================================================================== *)

Lemma parse_plain_prefix : forall a rest cur outer,
  plainName a = true ->
  exists cur', RegExp.parse (a ++ rest) cur outer = RegExp.parse rest cur' outer.
Proof.
  induction a as [|c a IH]; intros rest cur outer Hplain.
  - now exists cur.
  - cbn [plainName] in Hplain. apply andb_true_iff in Hplain. destruct Hplain as [Hc Ha].
    unfold plainChar in Hc. rewrite negb_true_iff, !orb_false_iff in Hc.
    destruct Hc as [[[[H1 H2] H3] H4] H5].
    cbn [append RegExp.parse]. rewrite H1, H2, H3, H4, H5.
    apply IH. exact Ha.
Qed.

Lemma parse_open_group c rest cur outer :
  Ascii.eqb c "?" = false ->
  RegExp.parse (String "(" (String c rest)) cur outer =
  RegExp.parse (String c rest) RegExp.emptyFrame (cur :: outer).
Proof.
  intros Hc.
  destruct c as [[] [] [] [] [] [] [] []]; try reflexivity; discriminate Hc.
Qed.

Lemma plainChar_not_question c : plainChar c = true -> Ascii.eqb c "?" = false.
Proof.
  unfold plainChar, RegExp.isQuantifier. rewrite negb_true_iff, !orb_false_iff. tauto.
Qed.

(** A group opened among ordinary characters and never closed is not a
    pattern. *)
Lemma compile_unclosed_group a b :
  plainName a = true -> plainName b = true ->
  RegExp.compile (a ++ String "(" b) = RegExp.SyntaxError.
Proof.
  intros Ha Hb. unfold RegExp.compile.
  destruct (parse_plain_prefix a (String "(" b) RegExp.emptyFrame [] Ha) as (cur & ->).
  destruct b as [|c b]; [reflexivity|].
  cbn [plainName] in Hb. apply andb_true_iff in Hb.
  rewrite (parse_open_group _ _ _ _ (plainChar_not_question _ (proj1 Hb))).
  destruct (parse_plain_prefix (String c b) EmptyString RegExp.emptyFrame [cur]) as (cur' & Hp).
  - cbn [plainName]. apply andb_true_iff. exact Hb.
  - rewrite append_empty_r in Hp. rewrite Hp. reflexivity.
Qed.

(** X15.  A name with a parenthesis opened among ordinary characters and
    never closed is not a valid pattern.  Every operation that looks
    authors up by that text dies on it before any query is sent:
    [getAuthorsByName], [getAuthorsByNationality], [getBooksByAuthor], and
    [createAuthor] for a candidate with that full name, which is therefore
    never stored. *)
Theorem unclosed_parenthesis_kills_lookup :
  forall w a b,
    plainName a = true -> plainName b = true ->
    AuthorService.getAuthorsByName (a ++ String "(" b) w =
      (Die (RegExpSyntaxError (a ++ String "(" b)), w) /\
    AuthorService.getAuthorsByNationality (a ++ String "(" b) w =
      (Die (RegExpSyntaxError (a ++ String "(" b)), w) /\
    BookService.getBooksByAuthor (a ++ String "(" b) w =
      (Die (RegExpSyntaxError (a ++ String "(" b)), w) /\
    (forall authorData,
       CreateAuthorRequest.fullName authorData = a ++ String "(" b ->
       AuthorService.createAuthor authorData w =
         (Die (RegExpSyntaxError (a ++ String "(" b)), w)).
Proof.
  intros w a b Ha Hb.
  assert (Hname : AuthorRepository.findByName (a ++ String "(" b) w =
                    (Die (RegExpSyntaxError (a ++ String "(" b)), w)).
  { unfold AuthorRepository.findByName, bind, Mongo.newRegExp.
    now rewrite (compile_unclosed_group _ _ Ha Hb). }
  split; [exact Hname|]. split; [|split].
  - unfold AuthorService.getAuthorsByNationality, AuthorRepository.findByNationality,
      bind, Mongo.newRegExp.
    now rewrite (compile_unclosed_group _ _ Ha Hb).
  - unfold BookService.getBooksByAuthor, AuthorService.getAuthorsByName, bind.
    now rewrite Hname.
  - intros authorData Hfull. unfold AuthorService.createAuthor, bind.
    now rewrite Hfull, Hname.
Qed.

Lemma unclosed_parenthesis_kills_lookup_witness :
  BookService.getBooksByAuthor "Smith (Jr" Sample.world =
    (Die (RegExpSyntaxError "Smith (Jr"), Sample.world).
Proof.
  apply (unclosed_parenthesis_kills_lookup Sample.world "Smith " "Jr"); reflexivity.
Defined.

(* ===================================================================== *)
(** ** updateAuthor and deleteAuthor                                       *)
(* ===================================================================== *)

Section FirstMatch.

Context {D : Type} (p : D -> bool).

Lemma replaceFirst_found (f : D -> D) : forall ds d,
  List.find p ds = Some d ->
  exists l1 l2,
    ds = (l1 ++ d :: l2)%list /\
    (forall x, In x l1 -> p x = false) /\
    p d = true /\
    Mongo.replaceFirst p f ds = Some (f d, (l1 ++ f d :: l2)%list).
Proof.
  induction ds as [|x ds IH]; intros d Hfind; [discriminate|].
  simpl in Hfind. simpl. destruct (p x) eqn:Hx.
  - injection Hfind as <-. exists [], ds. repeat split; try assumption. intros y [].
  - destruct (IH d Hfind) as (l1 & l2 & -> & Hl1 & Hd & Hup).
    exists (x :: l1), l2. rewrite Hup. repeat split; try assumption.
    intros y [<-|Hy]; [assumption|now apply Hl1].
Qed.

Lemma replaceFirst_absent (f : D -> D) : forall ds,
  List.find p ds = None -> Mongo.replaceFirst p f ds = None.
Proof.
  induction ds as [|x ds IH]; intros Hfind; [reflexivity|].
  simpl in Hfind. simpl. destruct (p x); [discriminate|]. now rewrite IH.
Qed.

Lemma dropFirst_found : forall ds d,
  List.find p ds = Some d ->
  exists l1 l2,
    ds = (l1 ++ d :: l2)%list /\
    (forall x, In x l1 -> p x = false) /\
    p d = true /\
    Mongo.dropFirst p ds = Some (l1 ++ l2)%list.
Proof.
  induction ds as [|x ds IH]; intros d Hfind; [discriminate|].
  simpl in Hfind. simpl. destruct (p x) eqn:Hx.
  - injection Hfind as <-. exists [], ds. repeat split; try assumption. intros y [].
  - destruct (IH d Hfind) as (l1 & l2 & -> & Hl1 & Hd & Hrm).
    exists (x :: l1), l2. rewrite Hrm. repeat split; try assumption.
    intros y [<-|Hy]; [assumption|now apply Hl1].
Qed.

Lemma dropFirst_absent : forall ds,
  List.find p ds = None -> Mongo.dropFirst p ds = None.
Proof.
  induction ds as [|x ds IH]; intros Hfind; [reflexivity|].
  simpl in Hfind. simpl. destruct (p x); [discriminate|]. now rewrite IH.
Qed.

Lemma find_first_match (l1 l2 : list D) d :
  (forall x, In x l1 -> p x = false) -> p d = true ->
  List.find p (l1 ++ d :: l2) = Some d.
Proof.
  intros Hl1 Hd. induction l1 as [|x l1 IH]; simpl.
  - now rewrite Hd.
  - rewrite (Hl1 x (or_introl eq_refl)). apply IH. intros y Hy. apply Hl1. now right.
Qed.

End FirstMatch.

Lemma author_gone_of_distinct oid (l1 l2 : list AuthorDoc.t) d :
  NoDup (List.map AuthorDoc._id (l1 ++ d :: l2)) ->
  Mongo.hasAuthorId oid d = true ->
  List.find (Mongo.hasAuthorId oid) (l1 ++ l2) = None /\ ~ In d (l1 ++ l2).
Proof.
  intros Hnd Hd. rewrite map_app in Hnd. cbn [List.map] in Hnd.
  apply NoDup_remove_2 in Hnd. rewrite <- map_app in Hnd.
  unfold Mongo.hasAuthorId, Bson.equals in Hd. apply N.eqb_eq in Hd.
  split.
  - destruct (List.find (Mongo.hasAuthorId oid) (l1 ++ l2)) as [x|] eqn:Hfind; [|reflexivity].
    exfalso. apply find_some in Hfind. destruct Hfind as [Hx Hid].
    unfold Mongo.hasAuthorId, Bson.equals in Hid. apply N.eqb_eq in Hid.
    apply Hnd. rewrite Hd, <- Hid. now apply in_map.
  - intros Hin. apply Hnd. now apply in_map.
Qed.

Lemma authorUpdate_run id oid updateData w d :
  Bson.fromString id = Some oid ->
  List.find (Mongo.hasAuthorId oid) (authors w) = Some d ->
  exists l1 l2,
    authors w = (l1 ++ d :: l2)%list /\
    (forall x, In x l1 -> Mongo.hasAuthorId oid x = false) /\
    Mongo.hasAuthorId oid d = true /\
    AuthorRepository.update id updateData w =
      (Success (Some (AuthorRepository.toAuthor
                        (AuthorRepository.applySet updateData (clock w) d))),
       rewrittenAuthors w (l1 ++ AuthorRepository.applySet updateData (clock w) d :: l2)
         [AuthorsFindOneAndUpdate oid]).
Proof.
  intros Hp Hfind.
  destruct (replaceFirst_found (Mongo.hasAuthorId oid)
              (AuthorRepository.applySet updateData (clock w)) _ _ Hfind)
    as (l1 & l2 & Hds & Hl1 & Hd & Hup).
  exists l1, l2. split; [exact Hds|]. split; [exact Hl1|]. split; [exact Hd|].
  unfold AuthorRepository.update.
  unfold bind at 1. unfold Mongo.newDate at 1. cbv beta iota.
  rewrite (bind_success _ _ _ _ _ (newObjectId_ok _ _ _ Hp)).
  unfold map, Mongo.authorsFindOneAndUpdate, bind, Mongo.record, Mongo.getAuthors.
  cbn [authors]. rewrite Hup. reflexivity.
Qed.

Lemma authorUpdate_absent id oid updateData w :
  Bson.fromString id = Some oid ->
  List.find (Mongo.hasAuthorId oid) (authors w) = None ->
  AuthorRepository.update id updateData w =
    (Success None, logged w [AuthorsFindOneAndUpdate oid]).
Proof.
  intros Hp Hnone. unfold AuthorRepository.update.
  unfold bind at 1. unfold Mongo.newDate at 1. cbv beta iota.
  rewrite (bind_success _ _ _ _ _ (newObjectId_ok _ _ _ Hp)).
  unfold map, Mongo.authorsFindOneAndUpdate, bind, Mongo.record, Mongo.getAuthors.
  cbn [authors]. rewrite (replaceFirst_absent _ _ _ Hnone). reflexivity.
Qed.

Lemma rewrittenAuthors_logged (w : World) ds (cs cs' : list Call) :
  rewrittenAuthors (logged w cs) ds cs' = rewrittenAuthors w ds (cs ++ cs').
Proof. unfold rewrittenAuthors, logged; simpl. now rewrite app_assoc. Qed.

Lemma duplicate_elsewhere_found name id ds :
  isSome (Js.find (AuthorService.sameFullNameElsewhere name id)
            (List.map AuthorRepository.toAuthor
               (List.filter (Mongo.nameMatches (RegExp.test true (literal name))) ds))) = true <->
  exists d, In d ds /\
            Js.toLowerCase (AuthorDoc.fullName d) = Js.toLowerCase name /\
            Bson.toString (AuthorDoc._id d) <> id.
Proof.
  unfold Js.find. rewrite find_isSome_existsb, existsb_exists. split.
  - intros (a & Ha & Heq). apply in_map_iff in Ha. destruct Ha as (d & <- & Hd).
    apply filter_In in Hd. destruct Hd as [Hd _].
    unfold AuthorService.sameFullNameElsewhere in Heq.
    apply andb_true_iff in Heq. destruct Heq as [Hname Hid].
    exists d. split; [exact Hd|]. split.
    + now apply String.eqb_eq in Hname.
    + cbn [AuthorRepository.toAuthor Author._id] in Hid.
      apply negb_true_iff in Hid. now apply String.eqb_neq in Hid.
  - intros (d & Hd & Heq & Hne). exists (AuthorRepository.toAuthor d). split.
    + apply in_map, filter_In. split; [exact Hd|].
      apply nameMatches_literal. right; right.
      unfold occursIgnoringCase. rewrite Heq.
      exists EmptyString, EmptyString. simpl. now rewrite append_empty_r.
    + unfold AuthorService.sameFullNameElsewhere, AuthorService.sameFullName.
      cbn [AuthorRepository.toAuthor Author._id Author.fullName].
      rewrite Heq, String.eqb_refl. cbn [andb].
      apply negb_true_iff. now apply String.eqb_neq.
Qed.

(** X16.  The uniqueness check of [updateAuthor], for a new full name that
    is not empty and has no pattern syntax.  If a stored author other than
    the one addressed has that full name up to case, the call fails with
    the "already exists" error after the one name lookup, and nothing is
    written.  If the only stored authors with that name are the one
    addressed, the check passes (an author may keep or recase its own
    name) and the stored author is returned with the request merged in:
    the store holds it under the same identifier and the books are
    untouched. *)
Theorem updateAuthor_name_check :
  forall w id updateData fullName,
    UpdateAuthorRequest.fullName updateData = Some fullName ->
    Js.truthy fullName = true ->
    plainName fullName = true ->
    ((exists d, In d (authors w) /\
                Js.toLowerCase (AuthorDoc.fullName d) = Js.toLowerCase fullName /\
                Bson.toString (AuthorDoc._id d) <> id) ->
     AuthorService.updateAuthor id updateData w =
       (Failure ("Author with name " ++ dquote ++ fullName ++ dquote ++ " already exists"),
        logged w [AuthorsFindByName fullName])) /\
    ((forall d, In d (authors w) ->
                Js.toLowerCase (AuthorDoc.fullName d) = Js.toLowerCase fullName ->
                Bson.toString (AuthorDoc._id d) = id) ->
     forall d0, authorAt w id = Some d0 ->
       exists w',
         AuthorService.updateAuthor id updateData w =
           (Success (Some (AuthorRepository.toAuthor
                             (AuthorRepository.applySet updateData (clock w) d0))), w') /\
         authorAt w' id = Some (AuthorRepository.applySet updateData (clock w) d0) /\
         books w' = books w).
Proof.
  intros w id updateData fullName Hfull Htruthy Hplain.
  assert (Hstep : AuthorService.updateAuthor id updateData w =
    bind (failWhen
            (isSome (Js.find (AuthorService.sameFullNameElsewhere fullName id)
               (List.map AuthorRepository.toAuthor
                  (List.filter (Mongo.nameMatches (RegExp.test true (literal fullName)))
                     (authors w)))))
            ("Author with name " ++ dquote ++ fullName ++ dquote ++ " already exists"))
         (fun _ => AuthorRepository.update id updateData)
         (logged w [AuthorsFindByName fullName])).
  { unfold AuthorService.updateAuthor. rewrite Hfull, Htruthy.
    unfold bind at 1.
    now rewrite (bind_success _ _ _ _ _ (findByName_plain _ w Hplain)). }
  split.
  - intros Hdup. apply duplicate_elsewhere_found in Hdup. rewrite Hstep.
    unfold bind at 1. cbn [authors logged]. rewrite Hdup. reflexivity.
  - intros Hself d0 Hat.
    assert (Hno : isSome (Js.find (AuthorService.sameFullNameElsewhere fullName id)
               (List.map AuthorRepository.toAuthor
                  (List.filter (Mongo.nameMatches (RegExp.test true (literal fullName)))
                     (authors w)))) = false).
    { apply not_true_is_false. intros H. apply duplicate_elsewhere_found in H.
      destruct H as (d & Hd & Heq & Hne). apply Hne. now apply Hself. }
    unfold authorAt in Hat.
    destruct (Bson.fromString id) as [oid|] eqn:Hp; [|discriminate].
    destruct (authorUpdate_run id oid updateData
                (logged w [AuthorsFindByName fullName]) d0 Hp Hat)
      as (l1 & l2 & _ & Hl1 & Hd & Hrun).
    rewrite Hstep. unfold bind at 1. cbn [authors logged]. rewrite Hno.
    cbn [failWhen]. unfold succeed at 1. cbv beta iota.
    change (mkWorld (authors w) (books w) (clock w) (nextOid w)
              (calls w ++ [AuthorsFindByName fullName]) (engine w))
      with (logged w [AuthorsFindByName fullName]).
    rewrite Hrun. eexists. split; [reflexivity|]. split; [|reflexivity].
    unfold authorAt. rewrite Hp. cbn [authors rewrittenAuthors logged clock].
    apply find_first_match; [exact Hl1|exact Hd].
Qed.

Lemma updateAuthor_name_check_witness :
  AuthorService.updateAuthor Sample.smithId (Sample.fullNamePatch "george orwell")
    Sample.world =
    (Failure ("Author with name " ++ dquote ++ "george orwell" ++ dquote ++ " already exists"),
     logged Sample.world [AuthorsFindByName "george orwell"]) /\
  exists w',
    AuthorService.updateAuthor Sample.orwellId (Sample.fullNamePatch "GEORGE ORWELL")
      Sample.world =
      (Success (Some (AuthorRepository.toAuthor
         (AuthorRepository.applySet (Sample.fullNamePatch "GEORGE ORWELL") 2000%Z
            Sample.orwell))), w') /\
    authorAt w' Sample.orwellId =
      Some (AuthorRepository.applySet (Sample.fullNamePatch "GEORGE ORWELL") 2000%Z
              Sample.orwell) /\
    books w' = books Sample.world.
Proof.
  split.
  - destruct (updateAuthor_name_check Sample.world Sample.smithId
                (Sample.fullNamePatch "george orwell") "george orwell"
                eq_refl eq_refl eq_refl) as (Hdup & _).
    apply Hdup. exists Sample.orwell. split; [now left|]. split; [reflexivity|discriminate].
  - destruct (updateAuthor_name_check Sample.world Sample.orwellId
                (Sample.fullNamePatch "GEORGE ORWELL") "GEORGE ORWELL"
                eq_refl eq_refl eq_refl) as (_ & Hself).
    apply (Hself); [|reflexivity].
    intros d [<-|[<-|[]]]; [reflexivity|discriminate].
Defined.

(** X17.  Deleting an author never touches the books.  For a well-formed
    identifier of no stored author, [deleteAuthor] returns [false] and
    nothing changes.  For a stored author, in a store with distinct
    identifiers, it returns [true], exactly that author is gone and the
    book collection is the same, so books that referenced the author keep
    the reference; but the identifier denotes nobody any more, and a later
    [createBook] that lists it after stored authors fails with the error
    naming it. *)
Theorem deleteAuthor_leaves_books :
  forall w id,
    (wellFormedId id = true -> authorAt w id = None ->
       fst (AuthorService.deleteAuthor id w) = Success false /\
       authors (snd (AuthorService.deleteAuthor id w)) = authors w /\
       books (snd (AuthorService.deleteAuthor id w)) = books w) /\
    (forall d, authorAt w id = Some d -> authorIdsDistinct w ->
       fst (AuthorService.deleteAuthor id w) = Success true /\
       (forall x, In x (authors (snd (AuthorService.deleteAuthor id w))) <->
                  In x (authors w) /\ x <> d) /\
       books (snd (AuthorService.deleteAuthor id w)) = books w /\
       authorKnown (snd (AuthorService.deleteAuthor id w)) id = false /\
       (forall bookData pre post,
          CreateBookRequest.authorIds bookData = (pre ++ id :: post)%list ->
          (forall i, In i pre -> authorKnown (snd (AuthorService.deleteAuthor id w)) i = true) ->
          fst (BookService.createBook bookData (snd (AuthorService.deleteAuthor id w))) =
            Failure ("Author with ID " ++ id ++ " does not exist"))).
Proof.
  intros w id. unfold wellFormedId, authorAt.
  destruct (Bson.fromString id) as [oid|] eqn:Hp; [|split; discriminate].
  assert (Hstep : AuthorService.deleteAuthor id w =
            map (fun deletedCount => Nat.ltb 0 deletedCount) (Mongo.authorsDeleteOne oid) w).
  { unfold AuthorService.deleteAuthor, AuthorRepository.delete.
    now rewrite (bind_success _ _ _ _ _ (newObjectId_ok _ _ _ Hp)). }
  rewrite Hstep. split.
  - intros _ Hnone.
    unfold map, Mongo.authorsDeleteOne, bind, Mongo.record, Mongo.getAuthors. cbn [authors].
    rewrite (dropFirst_absent _ _ Hnone). repeat split.
  - intros d Hfind Hnd.
    destruct (dropFirst_found _ _ _ Hfind) as (l1 & l2 & Hds & Hl1 & Hd & Hrm).
    unfold authorIdsDistinct in Hnd. rewrite Hds in Hnd.
    destruct (author_gone_of_distinct _ _ _ _ Hnd Hd) as [Hgone Hnotin].
    unfold map, Mongo.authorsDeleteOne, bind, Mongo.record, Mongo.getAuthors. cbn [authors].
    rewrite Hrm. cbn.
    assert (Hunknown : authorKnown
              (mkWorld (l1 ++ l2) (books w) (clock w) (nextOid w)
                 (calls w ++ [AuthorsDeleteOne oid]) (engine w)) id = false).
    { unfold authorKnown. rewrite Hp. cbn [authors].
      rewrite <- find_isSome_existsb, Hgone. reflexivity. }
    split; [reflexivity|]. split; [|split; [reflexivity|split; [exact Hunknown|]]].
    + intros x. rewrite Hds. split.
      * intros Hx. split.
        -- apply in_app_or in Hx. apply in_or_app. destruct Hx; [now left|right; now right].
        -- intros ->. now apply Hnotin.
      * intros [Hx Hne]. apply in_app_or in Hx. apply in_or_app.
        destruct Hx as [Hx|[Heq|Hx]]; [now left| |now right]. now contradiction Hne.
    + intros bookData pre post Hids Hpre.
      unfold BookService.createBook. rewrite Hids.
      erewrite bind_failure; [reflexivity|].
      apply validateAuthorIds_first_missing; [exact Hpre| |exact Hunknown].
      unfold wellFormedId. now rewrite Hp.
Qed.

Lemma sample_author_ids_distinct : authorIdsDistinct Sample.world.
Proof.
  unfold authorIdsDistinct. simpl. constructor.
  - intros [H|[]]. discriminate H.
  - constructor; [intros []|constructor].
Qed.

Lemma deleteAuthor_leaves_books_witness :
  fst (AuthorService.deleteAuthor Sample.absentId Sample.world) = Success false /\
  fst (AuthorService.deleteAuthor Sample.orwellId Sample.world) = Success true /\
  books (snd (AuthorService.deleteAuthor Sample.orwellId Sample.world)) =
    [Sample.book1984; Sample.animalFarm] /\
  fst (BookService.createBook
         (Sample.newBook [Sample.smithId; Sample.orwellId] "978-0156421171" 5%Z)
         (snd (AuthorService.deleteAuthor Sample.orwellId Sample.world))) =
    Failure "Author with ID 000000000000000000000001 does not exist".
Proof.
  destruct (deleteAuthor_leaves_books Sample.world Sample.absentId) as (Habsent & _).
  destruct (deleteAuthor_leaves_books Sample.world Sample.orwellId) as (_ & Hstored).
  destruct (Hstored Sample.orwell eq_refl sample_author_ids_distinct)
    as (Hstatus & _ & Hbooks & _ & Hcreate).
  split; [|split; [exact Hstatus|split; [exact Hbooks|]]].
  - apply Habsent; reflexivity.
  - apply (Hcreate (Sample.newBook [Sample.smithId; Sample.orwellId] "978-0156421171" 5%Z)
             [Sample.smithId] []).
    + reflexivity.
    + intros i [<-|[]]. vm_compute. reflexivity.
Defined.

(* ===================================================================== *)
(** ** A book that is not there                                            *)
(* ===================================================================== *)

(** X19.  Addressing a book that is not there.  For a well-formed
    identifier of no stored book, [getBookById] returns [none] and
    [deleteBook] returns [false] after their one query, and [updateBook]
    returns [none] once the author identifiers of the request, if any, have
    been found; the books are as before.  For a malformed identifier
    [getBookById] and [deleteBook] die without any query. *)
Theorem absent_book_results :
  forall w id,
    (forall oid, Bson.fromString id = Some oid -> bookAt w id = None ->
       BookService.getBookById id w = (Success None, logged w [BooksFindOne oid]) /\
       BookService.deleteBook id w = (Success false, logged w [BooksDeleteOne oid]) /\
       (forall updateData,
          (forall ids i, UpdateBookRequest.authorIds updateData = Some ids ->
                         In i ids -> authorKnown w i = true) ->
          fst (BookService.updateBook id updateData w) = Success None /\
          books (snd (BookService.updateBook id updateData w)) = books w)) /\
    (wellFormedId id = false ->
       BookService.getBookById id w = (Die (BSONError id), w) /\
       BookService.deleteBook id w = (Die (BSONError id), w)).
Proof.
  intros w id. unfold wellFormedId, bookAt.
  unfold BookService.getBookById, BookService.deleteBook.
  destruct (Bson.fromString id) as [oid|] eqn:Hp.
  - split; [|discriminate]. intros oid' Heq Hnone. injection Heq as <-.
    split; [|split].
    + rewrite (bookFindById_run _ _ _ Hp). now rewrite Hnone.
    + unfold BookRepository.delete.
      rewrite (bind_success _ _ _ _ _ (newObjectId_ok _ _ _ Hp)).
      unfold map, Mongo.booksDeleteOne, bind, Mongo.record, Mongo.getBooks. cbn [books].
      now rewrite (removeFirst_absent _ _ Hnone).
    + intros updateData Hknown.
      destruct (updateBook_validation_run w updateData Hknown) as (cs & Hval).
      unfold BookService.updateBook.
      rewrite (bind_success _ _ _ _ _ Hval).
      rewrite (bookUpdate_absent _ _ _ _ Hp); [split; reflexivity|exact Hnone].
  - split; [discriminate|]. intros _. split.
    + now rewrite (bookFindById_malformed _ _ Hp).
    + unfold BookRepository.delete, bind. now rewrite (newObjectId_throws _ _ Hp).
Qed.

Lemma absent_book_results_witness :
  BookService.getBookById Sample.absentId Sample.world =
    (Success None, logged Sample.world [BooksFindOne 24912482966938930280208240657%N]) /\
  fst (BookService.updateBook Sample.absentId (Sample.stockPatch 3%Z) Sample.world) =
    Success None /\
  BookService.deleteBook "abc" Sample.world = (Die (BSONError "abc"), Sample.world).
Proof.
  destruct (absent_book_results Sample.world Sample.absentId) as (Habsent & _).
  destruct (Habsent _ eq_refl eq_refl) as (Hget & _ & Hput).
  destruct (absent_book_results Sample.world "abc") as (_ & Hbad).
  split; [exact Hget|]. split.
  - apply Hput. intros ids i Hids. discriminate Hids.
  - apply Hbad. reflexivity.
Defined.

(* ===================================================================== *)
(** ** From a new author to a book by that author                          *)
(* ===================================================================== *)

Lemma authorCreate_fresh_run authorData w :
  (forall d, In d (authors w) -> AuthorDoc._id d <> nextOid w) ->
  AuthorRepository.create authorData w =
    (Success (AuthorRepository.toAuthor
                (AuthorRepository.authorToInsert authorData (clock w) (nextOid w))),
     inserted w
       (authors w ++ [AuthorRepository.authorToInsert authorData (clock w) (nextOid w)])
       (books w) [AuthorsInsertOne; AuthorsFindOne (nextOid w)]).
Proof.
  intros Hfresh.
  unfold AuthorRepository.create, bind, Mongo.newDate, Mongo.authorsInsertOne, bind,
    Mongo.record, Mongo.freshOid, Mongo.getAuthors, Mongo.putAuthors, succeed,
    Mongo.authorsFindOne, bind, Mongo.record, Mongo.getAuthors, succeed.
  cbn.
  rewrite find_last_fresh.
  - unfold inserted. rewrite <- app_assoc. reflexivity.
  - intros d Hd. unfold Mongo.hasAuthorId, Bson.equals. apply N.eqb_neq. now apply Hfresh.
  - unfold Mongo.hasAuthorId, Bson.equals. cbn. apply N.eqb_refl.
Qed.

Lemma createAuthor_passes_check authorData w :
  plainName (CreateAuthorRequest.fullName authorData) = true ->
  (forall d, In d (authors w) ->
             Js.toLowerCase (AuthorDoc.fullName d) <>
             Js.toLowerCase (CreateAuthorRequest.fullName authorData)) ->
  AuthorService.createAuthor authorData w =
    AuthorRepository.create authorData
      (logged w [AuthorsFindByName (CreateAuthorRequest.fullName authorData)]).
Proof.
  intros Hplain Hnone. unfold AuthorService.createAuthor.
  rewrite (bind_success _ _ _ _ _ (findByName_plain _ w Hplain)).
  assert (Hno : isSome (Js.find
            (AuthorService.sameFullName (CreateAuthorRequest.fullName authorData))
            (List.map AuthorRepository.toAuthor
               (List.filter
                  (Mongo.nameMatches
                     (RegExp.test true (literal (CreateAuthorRequest.fullName authorData))))
                  (authors w)))) = false).
  { apply not_true_is_false. intros H. apply duplicate_found in H.
    destruct H as (d & Hd & Heq). now apply (Hnone d). }
  rewrite Hno. reflexivity.
Qed.

Lemma bookCreate_succeeds bookData w :
  isSuccess (fst (BookRepository.create bookData w)) = true.
Proof.
  unfold BookRepository.create, bind, Mongo.newDate, Mongo.booksInsertOne, bind,
    Mongo.record, Mongo.freshOid, Mongo.getBooks, Mongo.putBooks, succeed,
    Mongo.booksFindOne, bind, Mongo.record, Mongo.getBooks, succeed.
  cbn.
  destruct (List.find (Mongo.hasBookId (nextOid w))
              (books w ++ [BookRepository.bookToInsert bookData (clock w) (nextOid w)]))
    eqn:Hfind; [reflexivity|].
  exfalso.
  assert (Hin : In (BookRepository.bookToInsert bookData (clock w) (nextOid w))
                  (books w ++ [BookRepository.bookToInsert bookData (clock w) (nextOid w)]))
    by (apply in_or_app; right; now left).
  pose proof (find_none _ _ Hfind _ Hin) as Hno.
  unfold Mongo.hasBookId, Bson.equals in Hno. cbn in Hno.
  rewrite N.eqb_refl in Hno. discriminate Hno.
Qed.

(** X20.  A new author can be referenced at once.  For a candidate whose
    full name has no pattern syntax and equals no stored full name up to
    case, with a fresh next identifier, [createAuthor] succeeds with the
    candidate under that identifier; [getAuthorById] on the returned
    identifier gives the same record back, [validateAuthorExists] answers
    [true], and a [createBook] that names only this author and an unused
    ISBN succeeds and appends the book. *)
Theorem createAuthor_then_createBook :
  forall w authorData,
    plainName (CreateAuthorRequest.fullName authorData) = true ->
    (forall d, In d (authors w) ->
               Js.toLowerCase (AuthorDoc.fullName d) <>
               Js.toLowerCase (CreateAuthorRequest.fullName authorData)) ->
    nextOidFresh w ->
    exists a w1,
      AuthorService.createAuthor authorData w = (Success a, w1) /\
      a = AuthorRepository.toAuthor
            (AuthorRepository.authorToInsert authorData (clock w) (nextOid w)) /\
      Author._id a = Some (Bson.toString (nextOid w)) /\
      fst (AuthorService.getAuthorById (Bson.toString (nextOid w)) w1) = Success (Some a) /\
      fst (AuthorService.validateAuthorExists (Bson.toString (nextOid w)) w1) = Success true /\
      (forall bookData,
         CreateBookRequest.authorIds bookData = [Bson.toString (nextOid w)] ->
         (forall d, In d (books w) -> BookDoc.isbn d <> CreateBookRequest.isbn bookData) ->
         isSuccess (fst (BookService.createBook bookData w1)) = true /\
         books (snd (BookService.createBook bookData w1)) =
           (books w ++
            [BookRepository.bookToInsert bookData (clock w) (N.succ (nextOid w))])%list).
Proof.
  intros w authorData Hplain Hnone (Hlt & _ & Hfresh).
  pose proof (fromString_toString _ Hlt) as Hp.
  set (doc := AuthorRepository.authorToInsert authorData (clock w) (nextOid w)).
  set (name := CreateAuthorRequest.fullName authorData).
  set (w1 := inserted (logged w [AuthorsFindByName name]) (authors w ++ [doc]) (books w)
               [AuthorsInsertOne; AuthorsFindOne (nextOid w)]).
  assert (Hfound : List.find (Mongo.hasAuthorId (nextOid w)) (authors w1) = Some doc).
  { cbn [authors w1 inserted]. apply find_last_fresh.
    - intros d Hd. unfold Mongo.hasAuthorId, Bson.equals. apply N.eqb_neq. now apply Hfresh.
    - unfold Mongo.hasAuthorId, Bson.equals. cbn. apply N.eqb_refl. }
  assert (Hknown : authorKnown w1 (Bson.toString (nextOid w)) = true).
  { unfold authorKnown. rewrite Hp, <- find_isSome_existsb, Hfound. reflexivity. }
  exists (AuthorRepository.toAuthor doc), w1.
  split; [|split; [reflexivity|split; [reflexivity|split; [|split]]]].
  - rewrite (createAuthor_passes_check _ _ Hplain Hnone).
    rewrite authorCreate_fresh_run by exact Hfresh. reflexivity.
  - unfold AuthorService.getAuthorById. rewrite (authorFindById_run _ _ _ Hp).
    cbn [fst]. now rewrite Hfound.
  - rewrite (validateAuthorExists_run _ _ _ Hp). cbn [fst]. now rewrite Hknown.
  - intros bookData Hids Hisbn.
    destruct (createBook_cases bookData w1) as [[Hfail _]|(_ & _ & Hrun)].
    + exfalso. revert Hfail. unfold BookService.createBook.
      rewrite (bind_success _ _ _ _ _
                 (validateAuthorIds_all_known (CreateBookRequest.authorIds bookData) w1
                    ltac:(rewrite Hids; intros i [<-|[]]; exact Hknown))).
      rewrite (bind_success _ _ _ _ _ (map_success _ _ _ _ _ (bookFindAll_run _))).
      cbn [books logged].
      destruct (isSome (Js.find _ _)) eqn:Hfind.
      * exfalso. unfold Js.find in Hfind. rewrite find_isSome_existsb in Hfind.
        apply existsb_exists in Hfind. destruct Hfind as (b & Hb & Heq).
        apply in_map_iff in Hb. destruct Hb as (d & <- & Hd).
        apply String.eqb_eq in Heq. now apply (Hisbn d).
      * cbn [failWhen]. unfold bind at 1. unfold succeed at 1.
        rewrite bookCreate_succeeds. discriminate.
    + rewrite Hrun. split; [apply bookCreate_succeeds|].
      rewrite bookCreate_books. reflexivity.
Qed.

Lemma createAuthor_then_createBook_witness :
  exists a w1,
    AuthorService.createAuthor (Sample.newAuthor "Eric Blair") Sample.world = (Success a, w1) /\
    Author._id a = Some "000000000000000000000005" /\
    fst (AuthorService.getAuthorById "000000000000000000000005" w1) = Success (Some a) /\
    isSuccess (fst (BookService.createBook
                 (Sample.newBook ["000000000000000000000005"] "978-0156421171" 5%Z) w1))
      = true.
Proof.
  destruct (createAuthor_then_createBook Sample.world (Sample.newAuthor "Eric Blair"))
    as (a & w1 & Hrun & _ & Hid & Hget & _ & Hbook).
  - reflexivity.
  - intros d [<-|[<-|[]]]; discriminate.
  - split; [reflexivity|]. split; intros d [<-|[<-|[]]]; discriminate.
  - exists a, w1. split; [exact Hrun|]. split; [exact Hid|]. split; [exact Hget|].
    apply (Hbook (Sample.newBook ["000000000000000000000005"] "978-0156421171" 5%Z)).
    + reflexivity.
    + intros d [<-|[<-|[]]]; discriminate.
Defined.

(* ===================================================================== *)
(** ** Two more facts about writes                                         *)
(* ===================================================================== *)

(** X21.  The book service never stores a malformed author reference: if
    every reference held by a stored book is a well-formed identifier,
    that is still so after [createBook], [updateBook], [updateStock] and
    [deleteBook], for every argument and every outcome. *)
Theorem book_service_keeps_references :
  forall w,
    referencesWellFormed w ->
    (forall bookData, referencesWellFormed (snd (BookService.createBook bookData w))) /\
    (forall id updateData,
       referencesWellFormed (snd (BookService.updateBook id updateData w))) /\
    (forall id quantity,
       referencesWellFormed (snd (BookService.updateStock id quantity w))) /\
    (forall id, referencesWellFormed (snd (BookService.deleteBook id w))).
Proof.
  intros w Hwf. split; [|split; [|split]].
  - intros bookData. now apply createBook_keeps_references.
  - intros id updateData. now apply updateBook_keeps_references.
  - intros id quantity. now apply updateStock_keeps_references.
  - intros id. now apply deleteBook_keeps_references.
Qed.

Lemma book_service_keeps_references_witness :
  referencesWellFormed
    (snd (BookService.updateBook Sample.book1984Id
            (Sample.authorsPatch [Sample.smithId; "abc"]) Sample.world)).
Proof.
  destruct (book_service_keeps_references Sample.world sample_references_well_formed)
    as (_ & Hupdate & _).
  apply Hupdate.
Defined.

(** X22.  [updateAuthor] checks the full name only when the request
    carries a non-empty one.  With no full name, or with the empty string,
    no name lookup is made: the one query sent is the update itself, and
    the stored author is returned with the request merged in, an empty
    full name included, whatever the other authors are called. *)
Theorem updateAuthor_unchecked_name :
  forall w id oid d0 updateData,
    UpdateAuthorRequest.fullName updateData = None \/
    UpdateAuthorRequest.fullName updateData = Some EmptyString ->
    Bson.fromString id = Some oid ->
    authorAt w id = Some d0 ->
    exists w',
      AuthorService.updateAuthor id updateData w =
        (Success (Some (AuthorRepository.toAuthor
                          (AuthorRepository.applySet updateData (clock w) d0))), w') /\
      calls w' = (calls w ++ [AuthorsFindOneAndUpdate oid])%list /\
      authorAt w' id = Some (AuthorRepository.applySet updateData (clock w) d0) /\
      (UpdateAuthorRequest.fullName updateData = Some EmptyString ->
       AuthorDoc.fullName (AuthorRepository.applySet updateData (clock w) d0) = EmptyString).
Proof.
  intros w id oid d0 updateData Hname Hp Hat.
  unfold authorAt in Hat. rewrite Hp in Hat.
  destruct (authorUpdate_run id oid updateData w d0 Hp Hat)
    as (l1 & l2 & _ & Hl1 & Hd & Hrun).
  assert (Hstep : AuthorService.updateAuthor id updateData w =
                    AuthorRepository.update id updateData w).
  { unfold AuthorService.updateAuthor.
    destruct Hname as [-> | ->]; reflexivity. }
  rewrite Hstep, Hrun. eexists. split; [reflexivity|]. split; [reflexivity|]. split.
  - unfold authorAt. rewrite Hp. cbn [authors rewrittenAuthors].
    apply find_first_match; [exact Hl1|exact Hd].
  - intros Hempty. cbn [AuthorRepository.applySet AuthorDoc.fullName].
    now rewrite Hempty.
Qed.

(** George Orwell can be given the empty full name; the only query is the
    update. *)
Lemma updateAuthor_unchecked_name_witness :
  exists w',
    AuthorService.updateAuthor Sample.orwellId (Sample.fullNamePatch EmptyString)
      Sample.world =
      (Success (Some (AuthorRepository.toAuthor
         (AuthorRepository.applySet (Sample.fullNamePatch EmptyString) 2000%Z
            Sample.orwell))), w') /\
    calls w' = [AuthorsFindOneAndUpdate 1%N] /\
    authorAt w' Sample.orwellId =
      Some (AuthorRepository.applySet (Sample.fullNamePatch EmptyString) 2000%Z
              Sample.orwell) /\
    AuthorDoc.fullName
      (AuthorRepository.applySet (Sample.fullNamePatch EmptyString) 2000%Z Sample.orwell)
      = EmptyString.
Proof.
  destruct (updateAuthor_unchecked_name Sample.world Sample.orwellId 1%N Sample.orwell
              (Sample.fullNamePatch EmptyString) (or_intror eq_refl) eq_refl eq_refl)
    as (w' & Hrun & Hcalls & Hat & Hempty).
  exists w'. split; [exact Hrun|]. split; [exact Hcalls|]. split; [exact Hat|].
  apply Hempty. reflexivity.
Defined.
